(** * start-server.py: a static file server with CORS headers

    A shallow embedding of [projects/scratch/start-server.py] and of the
    parts of Python's [http.server] and [socketserver] that the script
    inherits from or calls, followed by the properties of the server that
    its specification states.

    Layout:
    - [Py]: the Python string helpers the code uses;
    - [Http]: requests, the handler's mutable state, what is written on the
      connection, and the operating-system and library services taken as
      given;
    - [BaseHTTPRequestHandler], [SimpleHTTPRequestHandler]: the inherited
      library methods, with [self.end_headers] as an open method slot;
    - [CORSHTTPRequestHandler]: the two methods the script defines;
    - [Dispatch]: method lookup ([hasattr]/[getattr]) and the call of the
      method of a parsed request;
    - [Handler]: [parse_request] and [handle_one_request], from the
      request line a client sends;
    - [Proc]: the process: exceptions, the socket, the accept loop of
      [serve_forever] driven by a list of events, and [main]. *)

From Stdlib Require Import String Ascii List ZArith Bool Lia DecimalString.
Import ListNotations.
Local Open Scope string_scope.
Local Open Scope list_scope.

(** ** Python string helpers *)

Module Py.

(** [str.lower], on the ASCII letters. *)
Definition lower_ascii (c : ascii) : ascii :=
  let n := nat_of_ascii c in
  if (Nat.leb 65 n && Nat.leb n 90)%bool then ascii_of_nat (n + 32) else c.

Fixpoint lower (s : string) : string :=
  match s with
  | EmptyString => EmptyString
  | String c r => String (lower_ascii c) (lower r)
  end.

(** [s.startswith(p)] *)
Definition startswith (s p : string) : bool := String.prefix p s.

Fixpoint rev_string (s acc : string) : string :=
  match s with
  | EmptyString => acc
  | String c r => rev_string r (String c acc)
  end.

(** [s.endswith(p)] *)
Definition endswith (s p : string) : bool :=
  String.prefix (rev_string p "") (rev_string s "").

(** [str(n)] for an integer. *)
Definition str_int (n : Z) : string := NilZero.string_of_int (Z.to_int n).

(** [len(s)] *)
Definition len (s : string) : Z := Z.of_nat (String.length s).

Definition LF : string := String (ascii_of_nat 10) EmptyString.

(** [s.lstrip('/')]: drop the leading slashes; on a reversed string this is
    [s.rstrip('/')]. *)
Fixpoint lstrip_slash (s : string) : string :=
  match s with
  | String "/"%char r => lstrip_slash r
  | _ => s
  end.

(** The reversed string from its first slash on: the reverse of
    [p[:p.rfind('/') + 1]]. *)
Fixpoint from_first_slash (s : string) : string :=
  match s with
  | EmptyString => EmptyString
  | String "/"%char _ => s
  | String _ r => from_first_slash r
  end.

(** [posixpath.dirname]:
    [i = p.rfind('/') + 1; head = p[:i];
     if head and head != '/' * len(head): head = head.rstrip('/')]. *)
Definition dirname (p : string) : string :=
  let head_rev := from_first_slash (rev_string p "") in
  match lstrip_slash head_rev with
  | EmptyString => rev_string head_rev ""
  | stripped => rev_string stripped ""
  end.

(** [str.isspace] on the characters of ISO-8859-1, in which the request line
    is decoded: TAB to CR, FS to US, the space, NEL and the no-break
    space. *)
Definition is_space (c : ascii) : bool :=
  let n := nat_of_ascii c in
  ((Nat.leb 9 n && Nat.leb n 13) || (Nat.leb 28 n && Nat.leb n 32)
   || Nat.eqb n 133 || Nat.eqb n 160)%bool.

Definition word_of (rev_word : string) : list string :=
  match rev_word with
  | EmptyString => []
  | _ => [rev_string rev_word ""]
  end.

(** [s.split()]: the maximal runs of characters that are not whitespace;
    [rev_word] is the run being read, reversed. *)
Fixpoint split_from (s rev_word : string) : list string :=
  match s with
  | EmptyString => word_of rev_word
  | String c r =>
      if is_space c then word_of rev_word ++ split_from r ""
      else split_from r (String c rev_word)
  end.

Definition split (s : string) : list string := split_from s "".

(** [s.split(sep)] for a one-character separator: every piece, the empty
    ones too. *)
Fixpoint split_char_from (sep : ascii) (s rev_piece : string) : list string :=
  match s with
  | EmptyString => [rev_string rev_piece ""]
  | String c r =>
      if Ascii.eqb c sep
      then rev_string rev_piece "" :: split_char_from sep r ""
      else split_char_from sep r (String c rev_piece)
  end.

Definition split_char (sep : ascii) (s : string) : list string :=
  split_char_from sep s "".

(** [s.split(sep, 1)[1]]: what follows the first [sep]; [None] is the
    [IndexError] when there is none. *)
Fixpoint after_first (sep : ascii) (s : string) : option string :=
  match s with
  | EmptyString => None
  | String c r => if Ascii.eqb c sep then Some r else after_first sep r
  end.

(** Dropping the leading CR and LF characters. *)
Fixpoint lstrip_crlf (s : string) : string :=
  match s with
  | String c r =>
      if (Nat.eqb (nat_of_ascii c) 13 || Nat.eqb (nat_of_ascii c) 10)%bool
      then lstrip_crlf r
      else s
  | EmptyString => EmptyString
  end.

(** [s.rstrip('\r\n')] *)
Definition rstrip_crlf (s : string) : string :=
  rev_string (lstrip_crlf (rev_string s "")) "".

Definition CRLF : string :=
  String (ascii_of_nat 13) (String (ascii_of_nat 10) EmptyString).

End Py.

(** ** Requests, handler state and the services taken as given *)

Module Http.

(** What [parse_request] leaves in the handler: [self.command],
    [self.path], [self.request_version] and [self.headers].  A request
    line without a version is an HTTP/0.9 request and leaves
    [request_version] at its default, ["HTTP/0.9"]. *)
Record request := {
  command : string;
  path : string;
  request_version : string;
  headers : list (string * string)
}.

(** What [http.client.parse_headers] makes of the lines that follow the
    request line: the header fields, or one of its two exceptions with
    [str(err)]. *)
Inductive headers_outcome :=
| HeadersRead (hs : list (string * string))
| LineTooLong (err : string)
| TooManyHeaders (err : string).

(** What a client sends: the request line as [rfile.readline(65537)]
    returns it, decoded as ISO-8859-1, and the header lines. *)
Record raw_request := {
  raw_requestline : string;
  header_block : headers_outcome
}.

(** One entry of [self._headers_buffer]. *)
Inductive header_line :=
| StatusLine (protocol : string) (code : Z) (message : string)
| HeaderLine (keyword value : string)
| BlankLine.

(** One [self.wfile.write]: a flushed header buffer, or body bytes. *)
Inductive chunk :=
| Head (lines : list header_line)
| Data (bytes : string).

(** The attributes of the handler that the response methods change, and
    [raised]: an exception that the handler does not catch has left the
    method, which then does nothing more; [socketserver] catches it. *)
Record handler := {
  close_connection : bool;
  _headers_buffer : list header_line;
  wfile : list chunk;
  raised : bool
}.

(** The handler as [handle] leaves it before the first response method
    runs: [close_connection] is true, nothing buffered, nothing written. *)
Definition fresh : handler :=
  {| close_connection := true; _headers_buffer := []; wfile := [];
     raised := false |}.

Definition buffer_append (h : handler) (l : header_line) : handler :=
  {| close_connection := close_connection h;
     _headers_buffer := _headers_buffer h ++ [l];
     wfile := wfile h;
     raised := raised h |}.

Definition set_close_connection (h : handler) (b : bool) : handler :=
  {| close_connection := b;
     _headers_buffer := _headers_buffer h;
     wfile := wfile h;
     raised := raised h |}.

Definition write (h : handler) (c : chunk) : handler :=
  {| close_connection := close_connection h;
     _headers_buffer := _headers_buffer h;
     wfile := wfile h ++ [c];
     raised := raised h |}.

Definition raise_uncaught (h : handler) : handler :=
  {| close_connection := close_connection h;
     _headers_buffer := _headers_buffer h;
     wfile := wfile h;
     raised := true |}.

(** An open file: what [read] returns until end of file, and the two
    [os.fstat] fields the handler uses ([st_mtime] in whole seconds:
    the handler drops the microseconds). *)
Record file_object := {
  content : string;
  st_size : Z;
  st_mtime : Z
}.

(** The file system as the handler consults it. *)
Record filesystem := {
  isdir : string -> bool;                     (* os.path.isdir *)
  isfile : string -> bool;                    (* os.path.isfile *)
  open_rb : string -> option file_object;     (* open(path, 'rb'); None: it raises *)
  open_raises : string -> bool;               (* when it raises: true for an
                                                 exception that is not an OSError
                                                 (ValueError for a NUL byte,
                                                 UnicodeEncodeError), false for
                                                 an OSError *)
  listdir : string -> option (list string)    (* os.listdir; None: OSError *)
}.

(** Pure services of the Python library and of the clock, taken as
    given. *)
Record library := {
  (* self.version_string(): server_version + ' ' + sys_version *)
  version_string : string;
  (* self.date_time_string(timestamp); None is the current time *)
  date_time_string : option Z -> string;
  (* repr of a str, as the %r conversion gives it *)
  repr : string -> string;
  (* error_message_format % {code, message, explain}, escaped, as UTF-8 *)
  error_page : Z -> string -> string -> string;
  (* SimpleHTTPRequestHandler.translate_path, from self.directory and
     self.path *)
  translate_path : string -> string -> string;
  (* urllib.parse.urlsplit(self.path).path *)
  urlsplit_path : string -> string;
  (* urlunsplit of the split self.path with '/' added to its path *)
  redirect_url : string -> string;
  (* os.path.join *)
  path_join : string -> string -> string;
  (* posixpath.splitext(path)[1] *)
  splitext_ext : string -> string;
  (* mimetypes.guess_type(path)[0] *)
  mimetypes_guess_type : string -> option string;
  (* sys.getfilesystemencoding() *)
  filesystemencoding : string;
  (* the encoded page list_directory builds from the directory path,
     self.path and the entries *)
  listing_page : filesystem -> string -> string -> list string -> string;
  (* email.utils.parsedate_to_datetime: None when it raises; otherwise
     the date read as UTC, in seconds, and the offset of its time zone
     (None for a date without one) *)
  parsedate_to_datetime : string -> option (Z * option Z);
  (* int(s) for a str; None when it raises ValueError *)
  int_of_str : string -> option Z
}.

(** [name in self.headers] and [self.headers[name]]: field names compare
    without regard to case and the first field wins. *)
Fixpoint headers_get (hs : list (string * string)) (name : string)
  : option string :=
  match hs with
  | [] => None
  | (k, v) :: r =>
      if String.eqb (Py.lower k) (Py.lower name) then Some v
      else headers_get r name
  end.

Definition headers_contains (hs : list (string * string)) (name : string)
  : bool :=
  match headers_get hs name with Some _ => true | None => false end.

(** The entries of [BaseHTTPRequestHandler.responses] (from
    [http.HTTPStatus]) for the codes the handlers and the parser below
    send. *)
Definition responses (code : Z) : option (string * string) :=
  match code with
  | 100%Z => Some ("Continue", "Request received, please continue")
  | 200%Z => Some ("OK", "Request fulfilled, document follows")
  | 301%Z => Some ("Moved Permanently",
                   "Object moved permanently -- see URI list")
  | 304%Z => Some ("Not Modified",
                   "Document has not changed since given time")
  | 400%Z => Some ("Bad Request",
                   "Bad request syntax or unsupported method")
  | 404%Z => Some ("Not Found", "Nothing matches the given URI")
  | 414%Z => Some ("Request-URI Too Long", "URI is too long")
  | 431%Z => Some ("Request Header Fields Too Large",
                   "The server is unwilling to process the request because its header fields are too large")
  | 501%Z => Some ("Not Implemented",
                   "Server does not support this operation")
  | 505%Z => Some ("HTTP Version Not Supported", "Cannot fulfill request")
  | _ => None
  end.

Definition protocol_version : string := "HTTP/1.0".
Definition error_content_type : string := "text/html;charset=utf-8".

(** *** Reading a response off the connection *)

Definition lines_of (c : chunk) : list header_line :=
  match c with Head ls => ls | Data _ => [] end.

Definition bytes_of (c : chunk) : string :=
  match c with Head _ => "" | Data b => b end.

Definition fields_of (ls : list header_line) : list (string * string) :=
  flat_map (fun l => match l with
                     | HeaderLine k v => [(k, v)]
                     | _ => []
                     end) ls.

Definition codes_of (ls : list header_line) : list Z :=
  flat_map (fun l => match l with
                     | StatusLine _ c _ => [c]
                     | _ => []
                     end) ls.

(** The status codes, the header fields and the body bytes written. *)
Definition status_codes (w : list chunk) : list Z :=
  codes_of (flat_map lines_of w).

Definition header_fields (w : list chunk) : list (string * string) :=
  fields_of (flat_map lines_of w).

Definition body (w : list chunk) : string :=
  fold_right (fun c acc => (bytes_of c ++ acc)%string) "" w.

Definition is_cors_field (f : string * string) : bool :=
  Py.startswith (Py.lower (fst f)) "access-control-".

End Http.

(** ** http.server.BaseHTTPRequestHandler

    The response methods.  [self.end_headers()] is a call through the
    instance, so the methods that make it take the method the instance's
    class resolves it to: [self_end_headers]. *)

Module BaseHTTPRequestHandler.
Import Http.

Section Methods.
Variable L : library.
Variable r : request.

(** [self.request_version != 'HTTP/0.9'] *)
Definition sends_headers : bool :=
  negb (String.eqb (request_version r) "HTTP/0.9").

Definition send_response_only (code : Z) (message : option string)
  (h : handler) : handler :=
  if sends_headers then
    let message :=
      match message with
      | Some m => m
      | None => match responses code with
                | Some (phrase, _) => phrase
                | None => ""
                end
      end in
    buffer_append h (StatusLine protocol_version code message)
  else h.

Definition send_header (keyword value : string) (h : handler) : handler :=
  let h := if sends_headers then buffer_append h (HeaderLine keyword value)
           else h in
  if String.eqb (Py.lower keyword) "connection" then
    if String.eqb (Py.lower value) "close" then set_close_connection h true
    else if String.eqb (Py.lower value) "keep-alive"
         then set_close_connection h false
         else h
  else h.

Definition flush_headers (h : handler) : handler :=
  {| close_connection := close_connection h;
     _headers_buffer := [];
     wfile := wfile h ++ [Head (_headers_buffer h)];
     raised := raised h |}.

Definition end_headers (h : handler) : handler :=
  if sends_headers then flush_headers (buffer_append h BlankLine) else h.

(** [log_request] writes a line to [sys.stderr] and changes nothing of the
    handler; it is left out. *)
Definition send_response (code : Z) (message : option string)
  (h : handler) : handler :=
  let h := send_response_only code message h in
  let h := send_header "Server" (version_string L) h in
  send_header "Date" (date_time_string L None) h.

Variable self_end_headers : handler -> handler.

Definition send_error (code : Z) (message explain : option string)
  (h : handler) : handler :=
  let '(shortmsg, longmsg) :=
    match responses code with
    | Some p => p
    | None => ("???", "???")
    end in
  let message := match message with Some m => m | None => shortmsg end in
  let explain := match explain with Some e => e | None => longmsg end in
  let h := send_response code (Some message) h in
  let h := send_header "Connection" "close" h in
  let has_body :=
    ((200 <=? code)%Z
     && negb ((code =? 204)%Z || (code =? 205)%Z || (code =? 304)%Z))%bool in
  let page := error_page L code message explain in
  let h :=
    if has_body then
      let h := send_header "Content-Type" error_content_type h in
      send_header "Content-Length" (Py.str_int (Py.len page)) h
    else h in
  let h := self_end_headers h in
  if (negb (String.eqb (command r) "HEAD") && has_body
      && negb (String.eqb page ""))%bool
  then write h (Data page)
  else h.

End Methods.
End BaseHTTPRequestHandler.

(** ** http.server.SimpleHTTPRequestHandler *)

Module SimpleHTTPRequestHandler.
Import Http.

(** [extensions_map] *)
Definition extensions_map (ext : string) : option string :=
  if String.eqb ext ".gz" then Some "application/gzip"
  else if String.eqb ext ".Z" then Some "application/octet-stream"
  else if String.eqb ext ".bz2" then Some "application/x-bzip2"
  else if String.eqb ext ".xz" then Some "application/x-xz"
  else None.

Section Methods.
Variable L : library.
Variable F : filesystem.
Variable directory : string.
Variable r : request.
Variable self_end_headers : handler -> handler.

Definition guess_type (p : string) : string :=
  let ext := splitext_ext L p in
  match extensions_map ext with
  | Some t => t
  | None =>
      match extensions_map (Py.lower ext) with
      | Some t => t
      | None =>
          match mimetypes_guess_type L p with
          | Some g => if String.eqb g "" then "application/octet-stream"
                      else g
          | None => "application/octet-stream"
          end
      end
  end.

(** [list_directory]: the headers are sent and the page is returned as the
    file to copy. *)
Definition list_directory (p : string) (h : handler)
  : handler * option string :=
  match listdir F p with
  | None =>
      (BaseHTTPRequestHandler.send_error L r self_end_headers 404
         (Some "No permission to list directory") None h, None)
  | Some entries =>
      let encoded := listing_page L F p (path r) entries in
      let h := BaseHTTPRequestHandler.send_response L r 200 None h in
      let h := BaseHTTPRequestHandler.send_header r "Content-type"
                 ("text/html; charset=" ++ filesystemencoding L)%string h in
      let h := BaseHTTPRequestHandler.send_header r "Content-Length"
                 (Py.str_int (Py.len encoded)) h in
      (self_end_headers h, Some encoded)
  end.

(** The test of [send_head] for answering from the browser's cache:
    [If-Modified-Since] is present, [If-None-Match] is not, the date parses,
    it has no time zone or is in UTC, and the file is not newer. *)
Definition not_modified (f : file_object) : bool :=
  (headers_contains (headers r) "If-Modified-Since"
   && negb (headers_contains (headers r) "If-None-Match"))%bool
  &&
  match headers_get (headers r) "If-Modified-Since" with
  | None => false
  | Some v =>
      match parsedate_to_datetime L v with
      | None => false
      | Some (ims, tz) =>
          match tz with
          | None => (st_mtime f <=? ims)%Z
          | Some off => ((off =? 0)%Z && (st_mtime f <=? ims)%Z)%bool
          end
      end
  end.

(** The part of [send_head] that follows the directory test, for the path
    [p] it has settled on: the type is guessed, a path with a trailing
    slash or a file that does not open is answered 404, an unchanged file
    304, and otherwise the headers of the file are sent.  The result is the
    content of the file to copy, if any. *)
Definition send_head_path (p : string) (h : handler)
  : handler * option string :=
  let ctype := guess_type p in
  if Py.endswith p "/" then
    (BaseHTTPRequestHandler.send_error L r self_end_headers 404
       (Some "File not found") None h, None)
  else
    match open_rb F p with
    | None =>
        (* [except OSError:] catches an [OSError] only *)
        if open_raises F p then (raise_uncaught h, None)
        else
          (BaseHTTPRequestHandler.send_error L r self_end_headers 404
             (Some "File not found") None h, None)
    | Some f =>
        if not_modified f then
          (self_end_headers
             (BaseHTTPRequestHandler.send_response L r 304 None h), None)
        else
          let h := BaseHTTPRequestHandler.send_response L r 200 None h in
          let h := BaseHTTPRequestHandler.send_header r "Content-type"
                     ctype h in
          let h := BaseHTTPRequestHandler.send_header r "Content-Length"
                     (Py.str_int (st_size f)) h in
          let h := BaseHTTPRequestHandler.send_header r "Last-Modified"
                     (date_time_string L (Some (st_mtime f))) h in
          (self_end_headers h, Some (content f))
    end.

(** [send_head]: a directory asked for without the trailing slash is
    redirected; a directory is replaced by its [index.html] or [index.htm]
    when one is a file, and listed otherwise; then the path is served. *)
Definition send_head (h : handler) : handler * option string :=
  let p := translate_path L directory (path r) in
  if isdir F p then
    if negb (Py.endswith (urlsplit_path L (path r)) "/") then
      let h := BaseHTTPRequestHandler.send_response L r 301 None h in
      let h := BaseHTTPRequestHandler.send_header r "Location"
                 (redirect_url L (path r)) h in
      let h := BaseHTTPRequestHandler.send_header r "Content-Length" "0" h in
      (self_end_headers h, None)
    else if isfile F (path_join L p "index.html")
         then send_head_path (path_join L p "index.html") h
    else if isfile F (path_join L p "index.htm")
         then send_head_path (path_join L p "index.htm") h
    else list_directory p h
  else send_head_path p h.

(** [copyfile(f, self.wfile)]: [shutil.copyfileobj] writes the content in
    blocks; an empty file gives no write. *)
Definition copyfile (data : string) (h : handler) : handler :=
  if String.eqb data "" then h else write h (Data data).

Definition do_GET (h : handler) : handler :=
  match send_head h with
  | (h, Some data) => copyfile data h
  | (h, None) => h
  end.

Definition do_HEAD (h : handler) : handler :=
  fst (send_head h).

End Methods.
End SimpleHTTPRequestHandler.

(** ** start-server.py: CORSHTTPRequestHandler *)

Module CORSHTTPRequestHandler.
Import Http.

Section Methods.
Variable L : library.
Variable r : request.

(** [end_headers]: three [send_header] calls, then [super().end_headers()]. *)
Definition end_headers (h : handler) : handler :=
  let h := BaseHTTPRequestHandler.send_header r "Access-Control-Allow-Origin" "*" h in
  let h := BaseHTTPRequestHandler.send_header r "Access-Control-Allow-Methods"
             "GET, POST, OPTIONS" h in
  let h := BaseHTTPRequestHandler.send_header r "Access-Control-Allow-Headers"
             "Content-Type" h in
  BaseHTTPRequestHandler.end_headers r h.

(** [do_OPTIONS]: [self.send_response(200)], then [self.end_headers()],
    which is the method above. *)
Definition do_OPTIONS (h : handler) : handler :=
  let h := BaseHTTPRequestHandler.send_response L r 200 None h in
  end_headers h.

End Methods.
End CORSHTTPRequestHandler.

(** ** Method resolution and the handling of one request *)

Module Dispatch.
Import Http.

(** The two handler classes: the library's, and the script's subclass. *)
Inductive klass := SimpleHandler | CORSHandler.

Section Instance.
Variable L : library.
Variable F : filesystem.
Variable directory : string.
Variable cls : klass.
Variable r : request.

(** [self.end_headers]: the subclass overrides it. *)
Definition end_headers : handler -> handler :=
  match cls with
  | SimpleHandler => BaseHTTPRequestHandler.end_headers r
  | CORSHandler => CORSHTTPRequestHandler.end_headers r
  end.

(** [hasattr(self, mname)] and [getattr(self, mname)] for the names that
    start with [do_]: [do_GET] and [do_HEAD] come from the library class,
    [do_OPTIONS] from the subclass only. *)
Definition getattr (mname : string) : option (handler -> handler) :=
  if String.eqb mname "do_GET"
  then Some (SimpleHTTPRequestHandler.do_GET L F directory r end_headers)
  else if String.eqb mname "do_HEAD"
  then Some (SimpleHTTPRequestHandler.do_HEAD L F directory r end_headers)
  else if String.eqb mname "do_OPTIONS"
  then match cls with
       | CORSHandler => Some (CORSHTTPRequestHandler.do_OPTIONS L r)
       | SimpleHandler => None
       end
  else None.

(** The end of [handle_one_request], from the point where [parse_request]
    has returned true and left the request [r] in the handler. *)
Definition dispatch (h : handler) : handler :=
  let mname := ("do_" ++ command r)%string in
  match getattr mname with
  | None =>
      BaseHTTPRequestHandler.send_error L r end_headers 501
        (Some ("Unsupported method (" ++ repr L (command r) ++ ")")%string)
        None h
  | Some method => method h
  end.

(** What the client receives for the parsed request [r]: the writes of a
    new handler. *)
Definition respond : list chunk := wfile (dispatch fresh).

End Instance.
End Dispatch.

(** ** From the request line to the answer *)

Module Handler.
Import Http.

(** What [parse_request] does: it leaves the request in the handler and
    returns true, with [close_connection] as set and whether
    [handle_expect_100] is called; or it calls
    [send_error(code, message, explain)] with the attributes [r] set so far
    and returns false; or it returns false at once. *)
Inductive parse_result :=
| Parsed (r : request) (close expect_100 : bool)
| Refused (r : request) (code : Z) (message : string)
    (explain : option string)
| NoWords.

(** [default_request_version] *)
Definition default_request_version : string := "HTTP/0.9".

(** The attributes when the request line is not yet taken apart: [command]
    is [None] (or [''] for a line too long), given here as the empty string:
    it is only ever compared with ['HEAD']; [path] and [headers] are not
    read before they are set. *)
Definition unparsed (version : string) : request :=
  {| command := ""; path := ""; request_version := version; headers := [] |}.

(** [v >= w] on pairs of integers. *)
Definition tuple_ge (v w : Z * Z) : bool :=
  ((fst w <? fst v) || ((fst v =? fst w) && (snd w <=? snd v)))%Z.

(** [if path.startswith('//'): path = '/' + path.lstrip('/')] *)
Definition single_slash (path : string) : string :=
  if Py.startswith path "//" then ("/" ++ Py.lstrip_slash path)%string
  else path.

Section Parse.
Variable L : library.
Variable raw : raw_request.

(** The [try] block of [parse_request] on the last word: [None] stands for
    the [ValueError] or [IndexError], otherwise [base_version_number] and
    [version_number]. *)
Definition version_number (version : string) : option (string * (Z * Z)) :=
  if Py.startswith version "HTTP/" then
    match Py.after_first "/" version with
    | None => None
    | Some base_version_number =>
        match Py.split_char "." base_version_number with
        | [major; minor] =>
            match int_of_str L major, int_of_str L minor with
            | Some a, Some b => Some (base_version_number, (a, b))
            | _, _ => None
            end
        | _ => None
        end
    end
  else None.

(** The part of [parse_request] after the request line: the double slash,
    the headers, [Connection] and [Expect]. *)
Definition parse_headers (command path version : string) (close : bool)
  : parse_result :=
  let path := single_slash path in
  let r0 := {| command := command; path := path;
               request_version := version; headers := [] |} in
  match header_block raw with
  | LineTooLong err => Refused r0 431 "Line too long" (Some err)
  | TooManyHeaders err => Refused r0 431 "Too many headers" (Some err)
  | HeadersRead hs =>
      let r := {| command := command; path := path;
                  request_version := version; headers := hs |} in
      let conntype := match headers_get hs "Connection" with
                      | Some v => v
                      | None => ""
                      end in
      let close :=
        if String.eqb (Py.lower conntype) "close" then true
        else if (String.eqb (Py.lower conntype) "keep-alive"
                 && String.leb "HTTP/1.1" protocol_version)%bool
             then false
             else close in
      let expect := match headers_get hs "Expect" with
                    | Some v => v
                    | None => ""
                    end in
      Parsed r close
        (String.eqb (Py.lower expect) "100-continue"
         && String.leb "HTTP/1.1" protocol_version
         && String.leb "HTTP/1.1" version)%bool
  end.

Definition parse_request : parse_result :=
  let requestline := Py.rstrip_crlf (raw_requestline raw) in
  let words := Py.split requestline in
  match words with
  | [] => NoWords
  | _ =>
      let checked :=
        if (3 <=? length words)%nat then
          let version := last words "" in
          match version_number version with
          | None =>
              inr (Refused (unparsed default_request_version) 400
                     ("Bad request version (" ++ repr L version ++ ")")
                     None)
          | Some (base_version_number, number) =>
              let close :=
                negb (tuple_ge number (1, 1)%Z
                      && String.leb "HTTP/1.1" protocol_version) in
              if tuple_ge number (2, 0)%Z then
                inr (Refused (unparsed default_request_version) 505
                       ("Invalid HTTP version (" ++ base_version_number ++ ")")
                       None)
              else inl (version, close)
          end
        else inl (default_request_version, true) in
      match checked with
      | inr refused => refused
      | inl (version, close) =>
          match words with
          | [command; path] =>
              if negb (String.eqb command "GET") then
                Refused (unparsed version) 400
                  ("Bad HTTP/0.9 request type (" ++ repr L command ++ ")")
                  None
              else parse_headers command path version true
          | [command; path; _] => parse_headers command path version close
          | _ =>
              Refused (unparsed version) 400
                ("Bad request syntax (" ++ repr L requestline ++ ")") None
          end
      end
  end.

(** [parse_request] returns true and leaves the request [r]; the line is
    one that [handle_one_request] passes to it. *)
Definition accepts (r : request) : Prop :=
  (Py.len (raw_requestline raw) <=? 65536)%Z = true
  /\ exists close expect_100, parse_request = Parsed r close expect_100.

End Parse.

Section Instance.
Variable L : library.
Variable F : filesystem.
Variable directory : string.
Variable cls : Dispatch.klass.
Variable raw : raw_request.

(** [self.send_error] with the attributes [r]. *)
Definition send_error (r : request) (code : Z) (message explain : option string)
  : handler -> handler :=
  BaseHTTPRequestHandler.send_error L r (Dispatch.end_headers cls r)
    code message explain.

(** [handle_expect_100] *)
Definition handle_expect_100 (r : request) (h : handler) : handler :=
  Dispatch.end_headers cls r
    (BaseHTTPRequestHandler.send_response_only r 100 None h).

(** [handle_one_request].  The socket has no timeout, so the
    [TimeoutError] clause is left out. *)
Definition handle_one_request (h : handler) : handler :=
  if (65536 <? Py.len (raw_requestline raw))%Z then
    send_error (unparsed "") 414 None None h
  else if String.eqb (raw_requestline raw) "" then
    set_close_connection h true
  else
    match parse_request L raw with
    | NoWords => set_close_connection h true
    | Refused r code message explain =>
        send_error r code (Some message) explain (set_close_connection h true)
    | Parsed r close expect_100 =>
        let h := set_close_connection h close in
        let h := if expect_100 then handle_expect_100 r h else h in
        Dispatch.dispatch L F directory cls r h
    end.

(** What the client receives for [raw]: the writes of a new handler; and
    whether the handler ended by an exception. *)
Definition respond : list chunk := wfile (handle_one_request fresh).

Definition raises : bool := raised (handle_one_request fresh).

End Instance.
End Handler.

(** ** The process: start-server.py's [main] over socketserver.TCPServer *)

Module Proc.
Import Http.

(** An [OSError]: its [errno] attribute and [str(e)]. *)
Record oserror := {
  errno : option Z;
  str : string
}.

Inductive exn :=
| KeyboardInterrupt
| OSError (e : oserror).

(** What can happen at one turn of the loop of [serve_forever]. *)
Inductive event :=
| Connection (q : raw_request)   (* a client connects, sends [q], reads the
                                    answer *)
| ClientReset (q : raw_request)  (* the peer resets the connection: reading
                                    or writing raises inside
                                    [process_request] *)
| AcceptFailed                (* [get_request] raises [OSError] *)
| Idle                        (* [select] times out *)
| SIGINT                      (* [KeyboardInterrupt] is raised in the loop *)
| SelectFailed (e : oserror). (* [select] raises [OSError] *)

(** What the process does, in order. *)
Inductive action :=
| Chdir (d : string)                     (* os.chdir(d) returned *)
| PrintLine (line : string)              (* print(line) to standard output *)
| SocketCreate                           (* socket.socket() returned *)
| Bind (host : string) (port : Z)        (* socket.bind((host, port)) returned *)
| Listen                                 (* socket.listen returned *)
| SocketClose                            (* socket.close() *)
| Respond (q : raw_request) (w : list chunk)
                                         (* the handler ran on [q] and wrote
                                            [w] to the connection *)
| HandleError (q : raw_request)          (* handle_error: traceback on stderr *)
| Traceback (e : exn).                   (* the interpreter reports an uncaught
                                            exception on stderr *)

Inductive socket_state :=
| NoSocket
| Unbound
| Bound (host : string) (port : Z)
| Listening (host : string) (port : Z)
| Closed.

Record process := {
  cwd : string;
  socket : socket_state;
  trace : list action
}.

(** Everything outside the program. *)
Record environment := {
  argv : list string;                       (* sys.argv *)
  environ : list (string * string);         (* os.environ *)
  initial_cwd : string;
  EADDRINUSE : Z;                           (* errno.EADDRINUSE on this platform *)
  abspath_file : string + oserror;          (* os.path.abspath(__file__) *)
  chdir_error : string -> option oserror;   (* os.chdir(d): None, it succeeds *)
  getcwd_after : string -> string;          (* os.getcwd() once os.chdir(d) has
                                               succeeded: d with its symbolic
                                               links resolved *)
  socket_error : option oserror;            (* socket.socket() *)
  bind_error : string -> Z -> option oserror;  (* socket.bind((host, port)) *)
  listen_error : option oserror;            (* socket.listen *)
  lib : library;
  fs : filesystem;
  events : list event                       (* what happens while serving *)
}.

(** A computation returns, raises, or is still blocked in the accept loop
    when the events run out.  The process state survives all three. *)
Inductive result (A : Type) :=
| Return (a : A)
| Raise (e : exn)
| Blocked.
Arguments Return {A} a.
Arguments Raise {A} e.
Arguments Blocked {A}.

Definition M (A : Type) : Type := process -> result A * process.

Definition ret {A} (a : A) : M A := fun p => (Return a, p).

Definition raise {A} (e : exn) : M A := fun p => (Raise e, p).

Definition bind {A B} (m : M A) (k : A -> M B) : M B :=
  fun p =>
    match m p with
    | (Return a, p') => k a p'
    | (Raise e, p') => (Raise e, p')
    | (Blocked, p') => (Blocked, p')
    end.

Notation "x <- m ;; k" := (bind m (fun x => k))
  (at level 61, m at next level, right associativity).
Notation "m ;; k" := (bind m (fun _ => k))
  (at level 61, right associativity).

(** [try: m except ...: handler]: [handler e] is [None] when no clause
    matches [e]. *)
Definition try_except {A} (m : M A) (handler : exn -> option (M A)) : M A :=
  fun p =>
    match m p with
    | (Raise e, p') =>
        match handler e with
        | Some k => k p'
        | None => (Raise e, p')
        end
    | other => other
    end.

Definition get_cwd : M string := fun p => (Return (cwd p), p).

Definition do_action (a : action) : M unit :=
  fun p => (Return tt,
            {| cwd := cwd p; socket := socket p; trace := trace p ++ [a] |}).

Definition set_socket (s : socket_state) : M unit :=
  fun p => (Return tt, {| cwd := cwd p; socket := s; trace := trace p |}).

Definition set_cwd (d : string) : M unit :=
  fun p => (Return tt, {| cwd := d; socket := socket p; trace := trace p |}).

(** [print(line)]: standard output takes the line.  Writing to standard
    output is taken to succeed. *)
Definition print (line : string) : M unit := do_action (PrintLine line).

Section Program.
Variable env : environment.

(** [os.chdir]: the working directory becomes what [os.getcwd] then
    returns. *)
Definition chdir (d : string) : M unit :=
  match chdir_error env d with
  | Some e => raise (OSError e)
  | None => set_cwd (getcwd_after env d) ;; do_action (Chdir d)
  end.

(** [os.path.abspath(__file__)] *)
Definition abspath_of_file : M string :=
  match abspath_file env with
  | inl p => ret p
  | inr e => raise (OSError e)
  end.

(** [TCPServer.server_close] *)
Definition server_close : M unit :=
  set_socket Closed ;; do_action SocketClose.

(** [TCPServer.server_bind] *)
Definition server_bind (host : string) (port : Z) : M unit :=
  match bind_error env host port with
  | Some e => raise (OSError e)
  | None => set_socket (Bound host port) ;; do_action (Bind host port)
  end.

(** [TCPServer.server_activate] *)
Definition server_activate (host : string) (port : Z) : M unit :=
  match listen_error env with
  | Some e => raise (OSError e)
  | None => set_socket (Listening host port) ;; do_action Listen
  end.

(** [TCPServer.__init__]: create the socket, then bind and activate, closing
    the socket before re-raising when either fails. *)
Definition TCPServer (host : string) (port : Z) : M unit :=
  match socket_error env with
  | Some e => raise (OSError e)
  | None =>
      set_socket Unbound ;; do_action SocketCreate ;;
      try_except (server_bind host port ;; server_activate host port)
        (fun e => Some (server_close ;; raise e))
  end.

(** [_handle_request_noblock] for a connection that sends [q]: the handler
    is created with [directory = os.getcwd()] and runs; an exception that
    leaves it is caught and reported by [handle_error].  [handle] calls
    [handle_one_request] again while [close_connection] is false, which it
    never is for this server. *)
Definition process_request (q : raw_request) : M unit :=
  d <- get_cwd ;;
  do_action (Respond q (Handler.respond (lib env) (fs env) d
                          Dispatch.CORSHandler q)) ;;
  if Handler.raises (lib env) (fs env) d Dispatch.CORSHandler q
  then do_action (HandleError q)
  else ret tt.

(** [serve_forever]: one event per turn of the loop.  [shutdown] is never
    called, so the loop only ends by an exception; when the events run out
    the server is waiting in [select]. *)
Fixpoint serve_forever (evs : list event) : M unit :=
  match evs with
  | [] => fun p => (Blocked, p)
  | ev :: rest =>
      match ev with
      | Connection q => process_request q ;; serve_forever rest
      | ClientReset q => do_action (HandleError q) ;; serve_forever rest
      | AcceptFailed => serve_forever rest
      | Idle => serve_forever rest
      | SIGINT => raise KeyboardInterrupt
      | SelectFailed e => raise (OSError e)
      end
  end.

(** [with server as httpd: body]: [__exit__] calls [server_close] when the
    body is left, by a return or by an exception. *)
Definition with_server (server body : M unit) : M unit :=
  server ;;
  fun p =>
    match body p with
    | (Return a, p') => (server_close ;; ret a) p'
    | (Raise e, p') => (server_close ;; raise e) p'
    | (Blocked, p') => (Blocked, p')
    end.

Definition port : Z := 8080.

Definition banner_starting : string :=
  ("🌐 Starting HTTP server on port " ++ Py.str_int port)%string.
Definition banner_serving (d : string) : string :=
  ("📁 Serving files from: " ++ d)%string.
Definition banner_open : string :=
  ("🔗 Open: http://localhost:" ++ Py.str_int port
   ++ "/test/texture-system-test.html")%string.
Definition banner_press : string := "   Press Ctrl+C to stop".
Definition msg_stopped : string := (Py.LF ++ "🛑 Server stopped")%string.
Definition msg_in_use : string :=
  ("❌ Port " ++ Py.str_int port ++ " is already in use")%string.
Definition msg_try : string := "   Try: lsof -ti:8080 | xargs kill".
Definition msg_server_error (e : oserror) : string :=
  ("❌ Server error: " ++ str e)%string.

(** [e.errno == 48] *)
Definition errno_is_48 (e : oserror) : bool :=
  match errno e with
  | Some n => (n =? 48)%Z
  | None => false
  end.

(** The clause [except OSError as e]. *)
Definition except_OSError (e : oserror) : M unit :=
  if errno_is_48 e
  then print msg_in_use ;; print msg_try
  else print (msg_server_error e).

(** The [try] statement of [main]. *)
Definition main_try : M unit :=
  try_except
    (with_server (TCPServer "" port) (serve_forever (events env)))
    (fun e =>
       match e with
       | KeyboardInterrupt => Some (print msg_stopped)
       | OSError e => Some (except_OSError e)
       end).

Definition main : M unit :=
  file <- abspath_of_file ;;
  chdir (Py.dirname file) ;;
  print banner_starting ;;
  d <- get_cwd ;;
  print (banner_serving d) ;;
  print banner_open ;;
  print banner_press ;;
  main_try.

Definition start : process :=
  {| cwd := initial_cwd env; socket := NoSocket; trace := [] |}.

(** Running the script: the final (or current) process state and the exit
    status, [None] while the process is still serving.  [main] returning
    ends the interpreter with status 0; an exception that leaves [main] is
    reported on standard error and ends it with status 1. *)
Definition run : process * option Z :=
  match main start with
  | (Return _, p) => (p, Some 0%Z)
  | (Raise e, p) =>
      ({| cwd := cwd p; socket := socket p;
          trace := trace p ++ [Traceback e] |}, Some 1%Z)
  | (Blocked, p) => (p, None)
  end.

End Program.

(** *** Views of a run *)

Definition printed (a : action) : list string :=
  match a with PrintLine l => [l] | _ => [] end.

(** Standard output: the printed lines, in order. *)
Definition stdout (p : process) : list string := flat_map printed (trace p).

Definition answered (a : action) : list (raw_request * list chunk) :=
  match a with Respond q w => [(q, w)] | _ => [] end.

(** The requests handled, with what was written for each, in order. *)
Definition served (p : process) : list (raw_request * list chunk) :=
  flat_map answered (trace p).

Definition exit_status (env : environment) : option Z := snd (run env).
Definition final (env : environment) : process := fst (run env).

(** The events that do not end the loop. *)
Definition benign (ev : event) : bool :=
  match ev with
  | SIGINT | SelectFailed _ => false
  | _ => true
  end.

End Proc.

(** ** Vocabulary of the statements *)

Module Spec.
Import Http Proc.

(** The three header lines the subclass adds. *)
Definition cors_lines : list header_line :=
  [HeaderLine "Access-Control-Allow-Origin" "*";
   HeaderLine "Access-Control-Allow-Methods" "GET, POST, OPTIONS";
   HeaderLine "Access-Control-Allow-Headers" "Content-Type"].

Definition not_cors_field (f : string * string) : bool :=
  negb (is_cors_field f).

(** The request line carries a version other than HTTP/0.9: the guard of
    [send_response_only], [send_header] and [end_headers]. *)
Definition http1x (r : request) : Prop := BaseHTTPRequestHandler.sends_headers r = true.

(** [h'] is [h] with the lines [pre] added to the header buffer, none of
    them an Access-Control field, and nothing written. *)
Definition appends (h : handler) (pre : list header_line) (h' : handler)
  : Prop :=
  _headers_buffer h' = _headers_buffer h ++ pre
  /\ wfile h' = wfile h
  /\ filter is_cors_field (fields_of pre) = [].

(** An [end_headers] method that writes the buffer, the lines [extra] and
    the blank line. *)
Definition ends_with (extra : list header_line) (eh : handler -> handler)
  : Prop :=
  forall h, wfile (eh h)
            = wfile h ++ [Head (_headers_buffer h ++ extra ++ [BlankLine])].

(** A response: one header block [pre], closed by the class's
    [end_headers], then the body chunks [data]. *)
Definition answers_with (pre : list header_line) (data : list string)
  (m : (handler -> handler) -> handler -> handler) (h : handler) : Prop :=
  filter is_cors_field (fields_of pre) = []
  /\ forall extra eh, ends_with extra eh ->
       wfile (m eh h)
       = wfile h
         ++ Head (_headers_buffer h ++ pre ++ extra ++ [BlankLine])
            :: map Data data.

(** The methods that return the file to copy: the answer so far, and the
    content returned, which does not depend on the class. *)
Definition head_answers (pre : list header_line) (data : list string)
  (f : option string)
  (m : (handler -> handler) -> handler -> handler * option string)
  (h : handler) : Prop :=
  answers_with pre data (fun eh x => fst (m eh x)) h
  /\ forall eh, snd (m eh h) = f.

(** The chunks [copyfile] writes for a file's content. *)
Definition file_data (f : option string) : list string :=
  match f with
  | Some c => if String.eqb c "" then [] else [c]
  | None => []
  end.

(** The reason phrase [send_response_only] writes. *)
Definition phrase (code : Z) (message : option string) : string :=
  match message with
  | Some m => m
  | None => match responses code with
            | Some (p, _) => p
            | None => ""
            end
  end.

(** The lines [send_response] buffers. *)
Definition response_lines (L : library) (code : Z) (message : option string)
  : list header_line :=
  [StatusLine protocol_version code (phrase code message);
   HeaderLine "Server" (version_string L);
   HeaderLine "Date" (date_time_string L None)].

(** What the [end_headers] of each class adds before the blank line. *)
Definition extra_of (cls : Dispatch.klass) : list header_line :=
  match cls with
  | Dispatch.SimpleHandler => []
  | Dispatch.CORSHandler => cors_lines
  end.

(** The script's directory is resolved and entered: [d] is the directory. *)
Definition enters (env : environment) (d : string) : Prop :=
  exists file, abspath_file env = inl file
               /\ d = Py.dirname file
               /\ chdir_error env d = None.

(** The socket is created, bound to the script's address and listening. *)
Definition listens (env : environment) : Prop :=
  socket_error env = None
  /\ bind_error env "" port = None
  /\ listen_error env = None.

(** The four lines printed at startup when [os.getcwd()] is [cwd]. *)
Definition banner (cwd : string) : list string :=
  ["🌐 Starting HTTP server on port 8080";
   ("📁 Serving files from: " ++ cwd)%string;
   "🔗 Open: http://localhost:8080/test/texture-system-test.html";
   "   Press Ctrl+C to stop"].

(** The line printed on an interrupt: a line feed, then the text. *)
Definition stopped_line : string :=
  String "010" "🛑 Server stopped".

(** Entering the directory [d] and printing the banner. *)
Definition startup_actions (env : environment) (d : string) : list action :=
  Chdir d :: map PrintLine (banner (getcwd_after env d)).

(** What one benign event adds to the trace when the working directory is
    [cwd]. *)
Definition action_of (env : environment) (cwd : string) (ev : event)
  : list action :=
  match ev with
  | Connection q =>
      Respond q (Handler.respond (lib env) (fs env) cwd
                   Dispatch.CORSHandler q)
      :: (if Handler.raises (lib env) (fs env) cwd Dispatch.CORSHandler q
          then [HandleError q] else [])
  | ClientReset q => [HandleError q]
  | _ => []
  end.

Definition actions_of (env : environment) (d : string) (evs : list event)
  : list action :=
  flat_map (action_of env d) evs.

(** The requests among [evs] with what is written for them when the
    working directory is [cwd]. *)
Definition answers (env : environment) (cwd : string) (evs : list event)
  : list (raw_request * list chunk) :=
  flat_map (fun ev => match ev with
                      | Connection q =>
                          [(q, Handler.respond (lib env) (fs env) cwd
                                 Dispatch.CORSHandler q)]
                      | _ => []
                      end) evs.

(** Creating the server when nothing fails. *)
Definition listening_actions : list action :=
  [SocketCreate; Bind "" port; Listen].

(** The process when the banner has been printed. *)
Definition after_banner (env : environment) (d : string) : process :=
  {| cwd := getcwd_after env d; socket := NoSocket;
     trace := startup_actions env d |}.

(** [p] with another socket state and more actions. *)
Definition advance (p : process) (s : socket_state) (t : list action)
  : process :=
  {| cwd := cwd p; socket := s; trace := trace p ++ t |}.

(** The events [pre] do not end the loop and the next one is [ev]. *)
Definition first_ending (evs pre : list event) (ev : event) : Prop :=
  forallb benign pre = true /\ exists rest, evs = pre ++ ev :: rest.

(** Creating the server or serving raises the [OSError] [e]: from
    [socket.socket], from [bind], from [listen], or from [select]. *)
Definition raises_oserror (env : environment) (e : oserror) : Prop :=
  socket_error env = Some e
  \/ (socket_error env = None /\ bind_error env "" port = Some e)
  \/ (socket_error env = None /\ bind_error env "" port = None
      /\ listen_error env = Some e)
  \/ (listens env /\ exists pre, first_ending (events env) pre (SelectFailed e)).

(** The lines printed for an [OSError] caught in [main]. *)
Definition oserror_lines (e : oserror) : list string :=
  match errno e with
  | Some 48%Z =>
      ["❌ Port 8080 is already in use";
       "   Try: lsof -ti:8080 | xargs kill"]
  | _ => [("❌ Server error: " ++ str e)%string]
  end.

(** The ways the [try] statement of [main] can go from the process [p]:
    how it ends, the socket it leaves and the actions it adds. *)
Inductive try_outcome (env : environment) (p : process)
  : result unit -> socket_state -> list action -> Prop :=
| SocketFails e :
    socket_error env = Some e ->
    try_outcome env p (Return tt) (socket p) (map PrintLine (oserror_lines e))
| BindFails e :
    socket_error env = None ->
    bind_error env "" port = Some e ->
    try_outcome env p (Return tt) Closed
      ([SocketCreate; SocketClose] ++ map PrintLine (oserror_lines e))
| ListenFails e :
    socket_error env = None ->
    bind_error env "" port = None ->
    listen_error env = Some e ->
    try_outcome env p (Return tt) Closed
      ([SocketCreate; Bind "" port; SocketClose]
       ++ map PrintLine (oserror_lines e))
| Serves :
    listens env ->
    forallb benign (events env) = true ->
    try_outcome env p Blocked (Listening "" port)
      (listening_actions ++ actions_of env (cwd p) (events env))
| Interrupted pre :
    listens env ->
    first_ending (events env) pre SIGINT ->
    try_outcome env p (Return tt) Closed
      (listening_actions ++ actions_of env (cwd p) pre
       ++ [SocketClose; PrintLine stopped_line])
| SelectFails pre e :
    listens env ->
    first_ending (events env) pre (SelectFailed e) ->
    try_outcome env p (Return tt) Closed
      (listening_actions ++ actions_of env (cwd p) pre
       ++ [SocketClose] ++ map PrintLine (oserror_lines e)).

(** The environment with other command-line arguments and variables. *)
Definition with_args (env : environment) (a : list string)
  (v : list (string * string)) : environment :=
  {| argv := a; environ := v;
     initial_cwd := initial_cwd env;
     EADDRINUSE := EADDRINUSE env;
     abspath_file := abspath_file env;
     chdir_error := chdir_error env;
     getcwd_after := getcwd_after env;
     socket_error := socket_error env;
     bind_error := bind_error env;
     listen_error := listen_error env;
     lib := lib env; fs := fs env; events := events env |}.

(** The addresses bound in a trace. *)
Definition bound_addresses (t : list action) : list (string * Z) :=
  flat_map (fun a => match a with Bind h p => [(h, p)] | _ => [] end) t.

End Spec.

(** ** A concrete installation, for running the model *)

Module Example.
Import Http Proc.

Definition ends_html (p : string) : bool := Py.endswith p ".html".

(** [int] on the strings of decimal digits, which are all the examples
    use. *)
Definition int_of_digits (s : string) : option Z :=
  match s with
  | EmptyString => None
  | _ => option_map (fun u => Z.of_N (N.of_uint u)) (NilEmpty.uint_of_string s)
  end.

(** A NUL character in the path: [open] raises [ValueError]. *)
Fixpoint has_nul (s : string) : bool :=
  match s with
  | EmptyString => false
  | String c r => (Ascii.eqb c zero || has_nul r)%bool
  end.

Definition lib0 : library := {|
  version_string := "SimpleHTTP/0.6 Python/3.11.2";
  date_time_string := fun t =>
    match t with
    | None => "Tue, 03 Nov 2026 10:00:00 GMT"
    | Some _ => "Tue, 14 Nov 2023 22:13:20 GMT"
    end;
  repr := fun s => ("'" ++ s ++ "'")%string;
  error_page := fun c m e =>
    ("<p>Error code: " ++ Py.str_int c ++ "</p><p>Message: " ++ m
     ++ ".</p><p>" ++ e ++ ".</p>")%string;
  translate_path := fun d p => (d ++ p)%string;
  urlsplit_path := fun p => p;
  redirect_url := fun p => (p ++ "/")%string;
  path_join := fun a b => (a ++ "/" ++ b)%string;
  splitext_ext := fun p => if ends_html p then ".html" else "";
  mimetypes_guess_type := fun p => if ends_html p then Some "text/html"
                                   else None;
  filesystemencoding := "utf-8";
  listing_page := fun _ _ _ l => String.concat Py.LF l;
  parsedate_to_datetime := fun s =>
    if String.eqb s "Thu, 01 Jan 2026 00:00:00 GMT"
    then Some (1767225600%Z, Some 0%Z)
    else None;
  int_of_str := int_of_digits
|}.

Definition page : string := "/srv/scratch/test/texture-system-test.html".

Definition page_file : file_object :=
  {| content := "<!DOCTYPE html><title>textures</title>";
     st_size := 38;
     st_mtime := 1700000000 |}.

Definition fs0 : filesystem := {|
  isdir := fun p => (String.eqb p "/srv/scratch" || String.eqb p "/srv/scratch/"
                     || String.eqb p "/srv/scratch/test")%bool;
  isfile := fun p => String.eqb p page;
  open_rb := fun p => if String.eqb p page then Some page_file else None;
  open_raises := has_nul;
  listdir := fun p => if String.eqb p "/srv/scratch/"
                      then Some ["start-server.py"; "test"] else None
|}.

(** What a client sends: the request line [line], ended by CR LF, and the
    header fields [hs]. *)
Definition sent (line : string) (hs : list (string * string)) : raw_request :=
  {| raw_requestline := (line ++ Py.CRLF)%string;
     header_block := HeadersRead hs |}.

(** The request [c p HTTP/1.1], as sent and as parsed. *)
Definition req (c p : string) (hs : list (string * string)) : raw_request :=
  sent (c ++ " " ++ p ++ " HTTP/1.1") hs.

Definition parsed (c p : string) (hs : list (string * string)) : request :=
  {| command := c; path := p; request_version := "HTTP/1.1"; headers := hs |}.

Definition get_page : raw_request :=
  req "GET" "/test/texture-system-test.html" [].
Definition get_missing : raw_request := req "GET" "/test/missing.png" [].
Definition options_any : raw_request := req "OPTIONS" "/anything" [].

(** The request lines of an HTTP/0.9 client, and lines the parser refuses. *)
Definition get_page_two_words : raw_request :=
  sent "GET /test/texture-system-test.html" [].
Definition options_09 : raw_request := sent "OPTIONS /anything HTTP/0.9" [].
Definition options_two_words : raw_request := sent "OPTIONS /anything" [].
Definition get_page_http2 : raw_request :=
  sent "GET /test/texture-system-test.html HTTP/2.0" [].


(** An installation where everything succeeds, serving [evs]. *)
Definition env0 (evs : list event) : environment := {|
  argv := ["start-server.py"];
  environ := [("HOME", "/home/dev")];
  initial_cwd := "/home/dev";
  EADDRINUSE := 98;
  abspath_file := inl "/srv/scratch/start-server.py";
  chdir_error := fun _ => None;
  getcwd_after := fun d => d;
  socket_error := None;
  bind_error := fun _ _ => None;
  listen_error := None;
  lib := lib0; fs := fs0; events := evs
|}.

Definition address_in_use (n : Z) : oserror :=
  {| errno := Some n;
     str := ("[Errno " ++ Py.str_int n ++ "] Address already in use")%string |}.

Definition permission_denied : oserror :=
  {| errno := Some 13%Z; str := "[Errno 13] Permission denied" |}.

Definition no_such_directory : oserror :=
  {| errno := Some 2%Z;
     str := "[Errno 2] No such file or directory: '/srv/scratch'" |}.

(** The port is taken, on a platform whose [EADDRINUSE] is [n]. *)
Definition env_busy (n : Z) : environment := {|
  argv := ["start-server.py"];
  environ := [];
  initial_cwd := "/home/dev";
  EADDRINUSE := n;
  abspath_file := inl "/srv/scratch/start-server.py";
  chdir_error := fun _ => None;
  getcwd_after := fun d => d;
  socket_error := None;
  bind_error := fun _ _ => Some (address_in_use n);
  listen_error := None;
  lib := lib0; fs := fs0; events := []
|}.

(** The bind is refused for another reason. *)
Definition env_denied : environment := {|
  argv := ["start-server.py"];
  environ := [];
  initial_cwd := "/home/dev";
  EADDRINUSE := 48;
  abspath_file := inl "/srv/scratch/start-server.py";
  chdir_error := fun _ => None;
  getcwd_after := fun d => d;
  socket_error := None;
  bind_error := fun _ _ => Some permission_denied;
  listen_error := None;
  lib := lib0; fs := fs0; events := []
|}.

(** The script's directory cannot be entered. *)
Definition env_nodir : environment := {|
  argv := ["start-server.py"];
  environ := [];
  initial_cwd := "/home/dev";
  EADDRINUSE := 48;
  abspath_file := inl "/srv/scratch/start-server.py";
  chdir_error := fun _ => Some no_such_directory;
  getcwd_after := fun d => d;
  socket_error := None;
  bind_error := fun _ _ => None;
  listen_error := None;
  lib := lib0; fs := fs0; events := [Connection get_page]
|}.

(** The script is reached through a symbolic link [/home/dev/scratch] to
    [/srv/scratch]. *)
Definition env_link (evs : list event) : environment := {|
  argv := ["scratch/start-server.py"];
  environ := [];
  initial_cwd := "/home/dev";
  EADDRINUSE := 98;
  abspath_file := inl "/home/dev/scratch/start-server.py";
  chdir_error := fun _ => None;
  getcwd_after := fun d => if String.eqb d "/home/dev/scratch"
                           then "/srv/scratch" else d;
  socket_error := None;
  bind_error := fun _ _ => None;
  listen_error := None;
  lib := lib0; fs := fs0; events := evs
|}.

End Example.

(** ** Further vocabulary and cases *)

Module More.
Import Http Proc.

(** ['/' in s] *)
Fixpoint has_slash (s : string) : bool :=
  match s with
  | EmptyString => false
  | String c r => (Ascii.eqb c "/" || has_slash r)%bool
  end.

(** Two requests that differ at most in their method. *)
Definition same_but_method (r1 r2 : request) : Prop :=
  path r1 = path r2
  /\ request_version r1 = request_version r2
  /\ headers r1 = headers r2.

(** The header lines written, block after block. *)
Definition lines_written (w : list chunk) : list header_line :=
  flat_map lines_of w.

(** The page [send_error] builds for a code and a message. *)
Definition error_page_of (L : library) (code : Z) (message : string)
  : string :=
  error_page L code message
    (match responses code with
     | Some (_, long) => long
     | None => "???"
     end).

(** The lines of an error answer that has a page. *)
Definition error_lines (L : library) (code : Z) (message : string)
  : list header_line :=
  Spec.response_lines L code (Some message)
  ++ [HeaderLine "Connection" "close";
      HeaderLine "Content-Type" error_content_type;
      HeaderLine "Content-Length"
        (Py.str_int (Py.len (error_page_of L code message)))].

(** The header blocks written. *)
Definition blocks (w : list chunk) : list (list header_line) :=
  flat_map (fun c => match c with Head ls => [ls] | Data _ => [] end) w.

(** Header lines that begin with the one status line of the answer. *)
Definition one_status (pre : list header_line) : Prop :=
  exists code phrase rest,
    pre = StatusLine protocol_version code phrase :: rest
    /\ codes_of rest = [].

(** The sockets created and closed in a trace. *)
Definition created (a : action) : bool :=
  match a with SocketCreate => true | _ => false end.

Definition closed (a : action) : bool :=
  match a with SocketClose => true | _ => false end.

(** [file] is the path of the file [name] in the directory [dir], as
    [os.path.abspath] writes it: [/name] in the root, [dir/name]
    elsewhere. *)
Definition in_directory (file dir name : string) : Prop :=
  has_slash name = false
  /\ ((dir = "/" /\ file = ("/" ++ name)%string)
      \/ (dir <> "" /\ Py.endswith dir "/" = false
          /\ file = (dir ++ "/" ++ name)%string)).

(** The script is a file of the directory [dir], and [os.chdir(dir)]
    succeeds. *)
Definition starts_in (env : environment) (dir : string) : Prop :=
  exists file name,
    abspath_file env = inl file
    /\ in_directory file dir name
    /\ chdir_error env dir = None.

(** The script cannot resolve or enter its directory. *)
Definition directory_fails (env : environment) : Prop :=
  (exists e, abspath_file env = inr e)
  \/ (exists file e, abspath_file env = inl file
                     /\ chdir_error env (Py.dirname file) = Some e).

Definition post_upload : raw_request := Example.req "POST" "/upload" [].
Definition head_page : raw_request :=
  Example.req "HEAD" "/test/texture-system-test.html" [].
Definition get_page_slash : raw_request :=
  Example.req "GET" "/test/texture-system-test.html/" [].




End More.

(** ** The response methods on a request with a version *)

Import Http.

Lemma fields_of_app a b : fields_of (a ++ b) = fields_of a ++ fields_of b.
Proof. apply flat_map_app. Qed.

Lemma codes_of_app a b : codes_of (a ++ b) = codes_of a ++ codes_of b.
Proof. apply flat_map_app. Qed.

Lemma wfile_write h c : wfile (write h c) = wfile h ++ [c].
Proof. reflexivity. Qed.

Lemma appends_refl h : Spec.appends h [] h.
Proof.
  repeat split. symmetry. apply app_nil_r.
Qed.

Lemma appends_app h pre h1 ls h2 :
  Spec.appends h pre h1 ->
  Spec.appends h1 ls h2 ->
  Spec.appends h (pre ++ ls) h2.
Proof.
  intros (Hb & Hw & Hc) (Hb2 & Hw2 & Hl). repeat split.
  - rewrite Hb2, Hb. symmetry. apply app_assoc.
  - congruence.
  - rewrite fields_of_app, filter_app, Hc, Hl. reflexivity.
Qed.

(** Closing the header block: what an [end_headers] that adds [extra]
    writes after the lines [pre]. *)
Lemma close_block h pre h1 extra eh :
  Spec.appends h pre h1 ->
  Spec.ends_with extra eh ->
  wfile (eh h1)
  = wfile h ++ [Head (_headers_buffer h ++ pre ++ extra ++ [BlankLine])].
Proof.
  intros (Hb & Hw & _) He. rewrite He, Hb, Hw, <- app_assoc. reflexivity.
Qed.

Section Http1x.
Variable L : library.
Variable r : request.
Hypothesis Hv : Spec.http1x r.

Lemma send_header_appends k v h :
  is_cors_field (k, v) = false ->
  Spec.appends h [HeaderLine k v] (BaseHTTPRequestHandler.send_header r k v h).
Proof.
  intros Hk. unfold BaseHTTPRequestHandler.send_header. rewrite Hv.
  repeat split.
  - repeat match goal with |- context [if ?b then _ else _] => destruct b end;
      reflexivity.
  - repeat match goal with |- context [if ?b then _ else _] => destruct b end;
      reflexivity.
  - simpl. rewrite Hk. reflexivity.
Qed.

Lemma send_response_only_appends code m h :
  Spec.appends h [StatusLine protocol_version code (Spec.phrase code m)]
    (BaseHTTPRequestHandler.send_response_only r code m h).
Proof.
  unfold BaseHTTPRequestHandler.send_response_only. rewrite Hv. repeat split.
Qed.

Lemma send_response_appends code m h :
  Spec.appends h (Spec.response_lines L code m)
    (BaseHTTPRequestHandler.send_response L r code m h).
Proof.
  unfold BaseHTTPRequestHandler.send_response, Spec.response_lines.
  set (s := StatusLine protocol_version code (Spec.phrase code m)).
  change [s; ?a; ?b] with ([s] ++ [a] ++ [b]).
  eapply appends_app; [apply send_response_only_appends |].
  eapply appends_app; apply send_header_appends; reflexivity.
Qed.

(** The library's [end_headers] adds nothing before the blank line. *)
Lemma base_ends : Spec.ends_with [] (BaseHTTPRequestHandler.end_headers r).
Proof.
  intros h. unfold BaseHTTPRequestHandler.end_headers. rewrite Hv. reflexivity.
Qed.

(** The script's [end_headers] adds the three lines, whatever is buffered:
    here the three are Access-Control fields, so [appends] does not apply
    and the buffer is followed by hand. *)
Lemma cors_ends : Spec.ends_with Spec.cors_lines (CORSHTTPRequestHandler.end_headers r).
Proof.
  intros h. unfold CORSHTTPRequestHandler.end_headers, BaseHTTPRequestHandler.end_headers, BaseHTTPRequestHandler.send_header.
  rewrite Hv. simpl. rewrite <- !app_assoc. reflexivity.
Qed.

Lemma class_ends cls :
  Spec.ends_with (Spec.extra_of cls) (Dispatch.end_headers cls r).
Proof.
  destruct cls; [apply base_ends | apply cors_ends].
Qed.

End Http1x.

(** *** The shape of every answer *)

Lemma answers_intro0 pre m h h1 :
  Spec.appends h pre h1 ->
  (forall eh, m eh h = eh h1) ->
  Spec.answers_with pre [] m h.
Proof.
  intros A Hm. split; [apply A |].
  intros extra eh He. rewrite Hm. apply (close_block _ _ _ _ _ A He).
Qed.

Lemma answers_intro1 pre c m h h1 :
  Spec.appends h pre h1 ->
  (forall eh, m eh h = write (eh h1) (Data c)) ->
  Spec.answers_with pre [c] m h.
Proof.
  intros A Hm. split; [apply A |].
  intros extra eh He. rewrite Hm, wfile_write, (close_block _ _ _ _ _ A He).
  rewrite <- app_assoc. reflexivity.
Qed.

Ltac appends_steps L r Hv :=
  repeat lazymatch goal with
    | |- Spec.appends ?h _ ?h => apply appends_refl
    | |- Spec.appends _ _ (BaseHTTPRequestHandler.send_header _ _ _ _) =>
        eapply appends_app;
        [| apply (send_header_appends r Hv); reflexivity]
    | |- Spec.appends _ _ (BaseHTTPRequestHandler.send_response _ _ _ _ _) =>
        eapply appends_app; [| apply (send_response_appends L r Hv)]
    end.

Ltac shape L r Hv :=
  first
    [ eapply answers_intro0;
      [| intros ?; cbn beta; cbn [fst];
         lazymatch goal with |- ?e _ = ?e _ => reflexivity end]
    | eapply answers_intro1;
      [| intros ?; cbn beta; cbn [fst];
         lazymatch goal with
         | |- write (?e _) _ = write (?e _) _ => reflexivity
         end] ];
  appends_steps L r Hv.

Section Answers.
Variable L : library.
Variable F : filesystem.
Variable directory : string.
Variable r : request.
Hypothesis Hv : Spec.http1x r.

Lemma send_error_answers code m e h :
  exists pre data,
    Spec.answers_with pre data
      (fun eh => BaseHTTPRequestHandler.send_error L r eh code m e) h
    /\ codes_of pre = [code].
Proof.
  unfold BaseHTTPRequestHandler.send_error.
  destruct (match responses code with Some p => p | None => _ end)
    as [shortmsg longmsg].
  cbv zeta.
  destruct ((200 <=? code)%Z
            && negb ((code =? 204)%Z || (code =? 205)%Z || (code =? 304)%Z))%bool.
  - destruct (negb (String.eqb (command r) "HEAD") && true
              && negb (String.eqb (error_page L code _ _) ""))%bool.
    + do 2 eexists. split; [shape L r Hv | reflexivity].
    + do 2 eexists. split; [shape L r Hv | reflexivity].
  - rewrite andb_false_r. simpl.
    do 2 eexists. split; [shape L r Hv | reflexivity].
Qed.

End Answers.

Ltac one_status_here := do 3 eexists; split; reflexivity.

(** The methods that open a file either end by the exception [open] raises,
    with nothing buffered and nothing written, or answer with one header
    block that starts with the one status line. *)
Section AnswersOfFiles.
Variable L : library.
Variable F : filesystem.
Variable directory : string.
Variable r : request.
Hypothesis Hv : Spec.http1x r.

Lemma send_error_status code m e h :
  exists pre data,
    Spec.answers_with pre data
      (fun eh => BaseHTTPRequestHandler.send_error L r eh code m e) h
    /\ More.one_status pre.
Proof.
  unfold BaseHTTPRequestHandler.send_error.
  destruct (match responses code with Some p => p | None => _ end)
    as [shortmsg longmsg].
  cbv zeta.
  destruct ((200 <=? code)%Z
            && negb ((code =? 204)%Z || (code =? 205)%Z || (code =? 304)%Z))%bool.
  - destruct (negb (String.eqb (command r) "HEAD") && true
              && negb (String.eqb (error_page L code _ _) ""))%bool;
      do 2 eexists; (split; [shape L r Hv | one_status_here]).
  - rewrite andb_false_r. simpl.
    do 2 eexists. split; [shape L r Hv | one_status_here].
Qed.

Lemma error_head_status code m e h :
  exists pre data f,
    Spec.head_answers pre data f
      (fun eh x => (BaseHTTPRequestHandler.send_error L r eh code m e x,
                    @None string)) h
    /\ More.one_status pre.
Proof.
  destruct (send_error_status code m e h) as (pre & data & A & S).
  exists pre, data, None. split; [split; [exact A | reflexivity] | exact S].
Qed.

Lemma list_directory_status p h :
  exists pre data f,
    Spec.head_answers pre data f
      (fun eh => SimpleHTTPRequestHandler.list_directory L F r eh p) h
    /\ More.one_status pre.
Proof.
  unfold SimpleHTTPRequestHandler.list_directory.
  destruct (listdir F p) as [entries |].
  - do 3 eexists.
    split; [split; [shape L r Hv | intros ?; cbn [snd]; reflexivity]
           | one_status_here].
  - apply error_head_status.
Qed.

Lemma send_head_path_status p h :
  (forall eh, SimpleHTTPRequestHandler.send_head_path L F r eh p h
              = (raise_uncaught h, None))
  \/ exists pre data f,
       Spec.head_answers pre data f
         (fun eh => SimpleHTTPRequestHandler.send_head_path L F r eh p) h
       /\ More.one_status pre.
Proof.
  unfold SimpleHTTPRequestHandler.send_head_path. cbv zeta.
  destruct (Py.endswith p "/"); [right; apply error_head_status |].
  destruct (open_rb F p) as [f |].
  2:{ destruct (open_raises F p); [left; reflexivity |].
      right. apply error_head_status. }
  right.
  destruct (SimpleHTTPRequestHandler.not_modified L r f);
    do 3 eexists;
    (split; [split; [shape L r Hv | intros ?; cbn [snd]; reflexivity]
            | one_status_here]).
Qed.

Lemma send_head_status h :
  (forall eh, SimpleHTTPRequestHandler.send_head L F directory r eh h
              = (raise_uncaught h, None))
  \/ exists pre data f,
       Spec.head_answers pre data f
         (SimpleHTTPRequestHandler.send_head L F directory r) h
       /\ More.one_status pre.
Proof.
  unfold SimpleHTTPRequestHandler.send_head. cbv zeta.
  destruct (isdir F _); [| apply send_head_path_status].
  destruct (negb _).
  - right. do 3 eexists.
    split; [split; [shape L r Hv | intros ?; cbn [snd]; reflexivity]
           | one_status_here].
  - destruct (isfile F _); [apply send_head_path_status |].
    destruct (isfile F _); [apply send_head_path_status |].
    right. apply list_directory_status.
Qed.

Lemma do_GET_status h :
  (forall eh, SimpleHTTPRequestHandler.do_GET L F directory r eh h
              = raise_uncaught h)
  \/ exists pre data,
       Spec.answers_with pre data
         (SimpleHTTPRequestHandler.do_GET L F directory r) h
       /\ More.one_status pre.
Proof.
  destruct (send_head_status h)
    as [Hr | (pre & data & f & ((Hn & Hw) & Hf) & S)].
  { left. intros eh. unfold SimpleHTTPRequestHandler.do_GET. rewrite Hr.
    reflexivity. }
  right. exists pre, (data ++ Spec.file_data f).
  split; [| exact S]. split; [exact Hn |].
  intros extra eh He. specialize (Hw extra eh He). specialize (Hf eh).
  unfold SimpleHTTPRequestHandler.do_GET.
  destruct (SimpleHTTPRequestHandler.send_head L F directory r eh h)
    as [h' o].
  cbn [fst snd] in Hw, Hf. subst o.
  destruct f as [c |]; cbn [Spec.file_data].
  - unfold SimpleHTTPRequestHandler.copyfile.
    destruct (String.eqb c "").
    + rewrite app_nil_r. exact Hw.
    + rewrite wfile_write, Hw, map_app, <- app_assoc. reflexivity.
  - rewrite app_nil_r. exact Hw.
Qed.

Lemma do_HEAD_status h :
  (forall eh, SimpleHTTPRequestHandler.do_HEAD L F directory r eh h
              = raise_uncaught h)
  \/ exists pre data,
       Spec.answers_with pre data
         (SimpleHTTPRequestHandler.do_HEAD L F directory r) h
       /\ More.one_status pre.
Proof.
  destruct (send_head_status h) as [Hr | (pre & data & f & (A & _) & S)].
  { left. intros eh. unfold SimpleHTTPRequestHandler.do_HEAD. rewrite Hr.
    reflexivity. }
  right. exists pre, data. split; [exact A | exact S].
Qed.

(** The script's [do_OPTIONS], written out. *)
Lemma do_OPTIONS_wfile h :
  wfile (CORSHTTPRequestHandler.do_OPTIONS L r h)
  = wfile h
    ++ [Head (_headers_buffer h ++ Spec.response_lines L 200 None
              ++ Spec.cors_lines ++ [BlankLine])].
Proof.
  unfold CORSHTTPRequestHandler.do_OPTIONS.
  apply close_block.
  - apply (send_response_appends L r Hv).
  - apply (cors_ends r Hv).
Qed.

(** The answer to a parsed request with a version: the method ends by an
    exception at once, or one header block that starts with the
    status line and, in the script's class, ends with the three lines and
    the blank line, followed by body bytes.  For a method other than
    OPTIONS the library's class gives the same without the three lines. *)
Lemma respond_shape :
  (forall cls, Dispatch.dispatch L F directory cls r fresh
               = raise_uncaught fresh)
  \/ exists pre data,
       filter is_cors_field (fields_of pre) = []
       /\ More.one_status pre
       /\ Dispatch.respond L F directory Dispatch.CORSHandler r
          = Head (pre ++ Spec.cors_lines ++ [BlankLine]) :: map Data data
       /\ (command r <> "OPTIONS" ->
           Dispatch.respond L F directory Dispatch.SimpleHandler r
           = Head (pre ++ [BlankLine]) :: map Data data).
Proof.
  unfold Dispatch.respond, Dispatch.dispatch, Dispatch.getattr.
  destruct (String.eqb _ "do_GET").
  { destruct (do_GET_status fresh) as [Hr | (pre & data & (Hn & Hw) & S)].
    { left. intros cls. apply Hr. }
    right. exists pre, data. split; [exact Hn |]. split; [exact S |].
    split; [| intros _].
    - apply (Hw _ _ (class_ends r Hv Dispatch.CORSHandler)).
    - apply (Hw _ _ (class_ends r Hv Dispatch.SimpleHandler)). }
  destruct (String.eqb _ "do_HEAD").
  { destruct (do_HEAD_status fresh) as [Hr | (pre & data & (Hn & Hw) & S)].
    { left. intros cls. apply Hr. }
    right. exists pre, data. split; [exact Hn |]. split; [exact S |].
    split; [| intros _].
    - apply (Hw _ _ (class_ends r Hv Dispatch.CORSHandler)).
    - apply (Hw _ _ (class_ends r Hv Dispatch.SimpleHandler)). }
  right.
  destruct (String.eqb_spec ("do_" ++ command r) "do_OPTIONS") as [E | _].
  { exists (Spec.response_lines L 200 None), []. split; [reflexivity |].
    split; [one_status_here |]. split; [apply do_OPTIONS_wfile |].
    intros Hc. exfalso. apply Hc. injection E as E. exact E. }
  destruct (send_error_status 501
              (Some ("Unsupported method (" ++ repr L (command r) ++ ")")%string)
              None fresh) as (pre & data & (Hn & Hw) & S).
  exists pre, data. split; [exact Hn |]. split; [exact S |].
  split; [| intros _].
  - apply (Hw _ _ (class_ends r Hv Dispatch.CORSHandler)).
  - apply (Hw _ _ (class_ends r Hv Dispatch.SimpleHandler)).
Qed.

End AnswersOfFiles.

(** *** Reading an answer of that shape *)

Lemma lines_of_data data : flat_map lines_of (map Data data) = [].
Proof. induction data as [| c data IH]; [reflexivity | exact IH]. Qed.

Lemma header_fields_shape ls data :
  header_fields (Head ls :: map Data data) = fields_of ls.
Proof.
  unfold header_fields. cbn [flat_map lines_of].
  rewrite lines_of_data, app_nil_r. reflexivity.
Qed.

Lemma status_codes_shape ls data :
  status_codes (Head ls :: map Data data) = codes_of ls.
Proof.
  unfold status_codes. cbn [flat_map lines_of].
  rewrite lines_of_data, app_nil_r. reflexivity.
Qed.

Lemma filter_none_keeps_all {A} (f : A -> bool) l :
  filter f l = [] -> filter (fun x => negb (f x)) l = l.
Proof.
  induction l as [| a l IH]; [reflexivity |].
  cbn [filter]. destruct (f a); [discriminate |].
  intros H. cbn [negb]. f_equal. exact (IH H).
Qed.
(** *** What the response methods leave alone *)

Lemma wfile_send_header_any r k v h :
  wfile (BaseHTTPRequestHandler.send_header r k v h) = wfile h.
Proof.
  unfold BaseHTTPRequestHandler.send_header.
  repeat match goal with |- context [if ?b then _ else _] => destruct b end;
    reflexivity.
Qed.

Lemma wfile_send_response_any L r code m h :
  wfile (BaseHTTPRequestHandler.send_response L r code m h) = wfile h.
Proof.
  unfold BaseHTTPRequestHandler.send_response.
  rewrite !wfile_send_header_any.
  unfold BaseHTTPRequestHandler.send_response_only.
  destruct (BaseHTTPRequestHandler.sends_headers r); reflexivity.
Qed.

(** A reading [f] of the connection that the class's [end_headers] does not
    change, and that body bytes do not change unless the method is HEAD, is
    not changed by any of the inherited methods. *)
Section Keeps.
Variable L : library.
Variable F : filesystem.
Variable directory : string.
Variable r : request.
Variable X : Type.
Variable f : list chunk -> X.
Variable eh : handler -> handler.
Hypothesis Heh : forall h, f (wfile (eh h)) = f (wfile h).
Hypothesis Hdata :
  (forall w c, f (w ++ [Data c]) = f w) \/ command r = "HEAD".

Lemma send_error_keeps code m e h :
  f (wfile (BaseHTTPRequestHandler.send_error L r eh code m e h))
  = f (wfile h).
Proof.
  unfold BaseHTTPRequestHandler.send_error.
  destruct (match responses code with Some p => p | None => _ end)
    as [shortmsg longmsg].
  cbv zeta.
  assert (Hin : forall b h1 h2,
             wfile h1 = wfile h -> wfile h2 = wfile h ->
             f (wfile (eh (if b : bool then h1 else h2))) = f (wfile h)).
  { intros b h1 h2 H1 H2. rewrite Heh. destruct b; congruence. }
  match goal with
  | |- context [eh (if ?b then ?h1 else ?h2)] =>
      assert (H1 : wfile h1 = wfile h)
        by (rewrite !wfile_send_header_any, wfile_send_response_any;
            reflexivity);
      assert (H2 : wfile h2 = wfile h)
        by (rewrite !wfile_send_header_any, wfile_send_response_any;
            reflexivity);
      pose proof (Hin b h1 h2 H1 H2) as Hkeep
  end.
  destruct Hdata as [Hd | Hc].
  - match goal with |- context [if ?c then write _ _ else _] => destruct c end.
    + rewrite wfile_write, Hd. exact Hkeep.
    + exact Hkeep.
  - rewrite Hc. cbn [String.eqb Ascii.eqb Bool.eqb negb andb]. exact Hkeep.
Qed.

Lemma list_directory_keeps p h :
  f (wfile (fst (SimpleHTTPRequestHandler.list_directory L F r eh p h)))
  = f (wfile h).
Proof.
  unfold SimpleHTTPRequestHandler.list_directory.
  destruct (listdir F p) as [entries |]; cbn [fst].
  - rewrite Heh, !wfile_send_header_any, wfile_send_response_any.
    reflexivity.
  - apply send_error_keeps.
Qed.

Lemma send_head_path_keeps p h :
  f (wfile (fst (SimpleHTTPRequestHandler.send_head_path L F r eh p h)))
  = f (wfile h).
Proof.
  unfold SimpleHTTPRequestHandler.send_head_path. cbv zeta.
  destruct (Py.endswith p "/"); [apply send_error_keeps |].
  destruct (open_rb F p) as [file |].
  2:{ destruct (open_raises F p); [reflexivity | apply send_error_keeps]. }
  destruct (SimpleHTTPRequestHandler.not_modified L r file); cbn [fst];
    rewrite Heh, ?wfile_send_header_any, wfile_send_response_any;
    reflexivity.
Qed.

Lemma send_head_keeps h :
  f (wfile (fst (SimpleHTTPRequestHandler.send_head L F directory r eh h)))
  = f (wfile h).
Proof.
  unfold SimpleHTTPRequestHandler.send_head. cbv zeta.
  destruct (isdir F _); [| apply send_head_path_keeps].
  destruct (negb _).
  - cbn [fst].
    rewrite Heh, !wfile_send_header_any, wfile_send_response_any.
    reflexivity.
  - destruct (isfile F _); [apply send_head_path_keeps |].
    destruct (isfile F _); [apply send_head_path_keeps |].
    apply list_directory_keeps.
Qed.

Lemma do_HEAD_keeps h :
  f (wfile (SimpleHTTPRequestHandler.do_HEAD L F directory r eh h))
  = f (wfile h).
Proof. apply send_head_keeps. Qed.

Lemma do_GET_keeps h :
  (forall w c, f (w ++ [Data c]) = f w) ->
  f (wfile (SimpleHTTPRequestHandler.do_GET L F directory r eh h))
  = f (wfile h).
Proof.
  intros Hd. unfold SimpleHTTPRequestHandler.do_GET.
  pose proof (send_head_keeps h) as Hk.
  destruct (SimpleHTTPRequestHandler.send_head L F directory r eh h)
    as [h' [c |]]; cbn [fst] in Hk; [| exact Hk].
  unfold SimpleHTTPRequestHandler.copyfile.
  destruct (String.eqb c ""); [exact Hk |].
  rewrite wfile_write, Hd. exact Hk.
Qed.

End Keeps.

(** *** Reading lines and bodies *)

Lemma lines_written_app a b :
  More.lines_written (a ++ b) = More.lines_written a ++ More.lines_written b.
Proof. apply flat_map_app. Qed.

Lemma lines_written_data w c :
  More.lines_written (w ++ [Data c]) = More.lines_written w.
Proof. rewrite lines_written_app. apply app_nil_r. Qed.

Lemma body_head w ls : body (w ++ [Head ls]) = body w.
Proof.
  induction w as [| c w IH]; [reflexivity |].
  cbn [app]. unfold body in *. cbn [fold_right]. rewrite IH. reflexivity.
Qed.

(** The script's [end_headers] writes no body bytes, whatever the version. *)
Lemma cors_end_headers_body r h :
  body (wfile (CORSHTTPRequestHandler.end_headers r h)) = body (wfile h).
Proof.
  destruct (BaseHTTPRequestHandler.sends_headers r) eqn:Hs.
  - rewrite (cors_ends r Hs h). apply body_head.
  - unfold CORSHTTPRequestHandler.end_headers,
      BaseHTTPRequestHandler.end_headers, BaseHTTPRequestHandler.send_header.
    rewrite Hs. reflexivity.
Qed.

(** With HTTP/0.9 the script's [end_headers] writes nothing. *)
Lemma cors_end_headers_09 r h :
  BaseHTTPRequestHandler.sends_headers r = false ->
  wfile (CORSHTTPRequestHandler.end_headers r h) = wfile h.
Proof.
  intros Hs.
  unfold CORSHTTPRequestHandler.end_headers,
    BaseHTTPRequestHandler.end_headers, BaseHTTPRequestHandler.send_header.
  rewrite Hs. reflexivity.
Qed.


(** With HTTP/0.9 the [end_headers] of either class does nothing. *)
Lemma end_headers_09 cls r h :
  BaseHTTPRequestHandler.sends_headers r = false ->
  Dispatch.end_headers cls r h = h.
Proof.
  intros Hs. destruct cls; cbn [Dispatch.end_headers];
    unfold CORSHTTPRequestHandler.end_headers,
      BaseHTTPRequestHandler.end_headers, BaseHTTPRequestHandler.send_header;
    rewrite Hs; reflexivity.
Qed.

Lemma http1x_of_version r :
  request_version r <> "HTTP/0.9" -> Spec.http1x r.
Proof.
  intros H. unfold Spec.http1x, BaseHTTPRequestHandler.sends_headers.
  destruct (String.eqb_spec (request_version r) "HTTP/0.9");
    [contradiction | reflexivity].
Qed.

Lemma blocks_data w c : More.blocks (w ++ [Data c]) = More.blocks w.
Proof. unfold More.blocks. rewrite flat_map_app. apply app_nil_r. Qed.

Lemma no_blocks w : More.blocks w = [] -> exists data, w = map Data data.
Proof.
  induction w as [| c w IH]; intros H.
  - exists []. reflexivity.
  - destruct c as [ls | s]; [discriminate |].
    destruct (IH H) as (data & ->). exists (s :: data). reflexivity.
Qed.

(** *** The methods use [end_headers] only through what it returns *)

Section Ext.
Variable L : library.
Variable F : filesystem.
Variable directory : string.
Variable r : request.
Variables eh1 eh2 : handler -> handler.
Hypothesis Hext : forall h, eh1 h = eh2 h.

Lemma send_error_ext code m e h :
  BaseHTTPRequestHandler.send_error L r eh1 code m e h
  = BaseHTTPRequestHandler.send_error L r eh2 code m e h.
Proof.
  unfold BaseHTTPRequestHandler.send_error.
  destruct (match responses code with Some p => p | None => _ end)
    as [shortmsg longmsg].
  cbv zeta. rewrite Hext. reflexivity.
Qed.

Lemma list_directory_ext p h :
  SimpleHTTPRequestHandler.list_directory L F r eh1 p h
  = SimpleHTTPRequestHandler.list_directory L F r eh2 p h.
Proof.
  unfold SimpleHTTPRequestHandler.list_directory.
  destruct (listdir F p) as [entries |].
  - rewrite Hext. reflexivity.
  - rewrite send_error_ext. reflexivity.
Qed.

Lemma send_head_path_ext p h :
  SimpleHTTPRequestHandler.send_head_path L F r eh1 p h
  = SimpleHTTPRequestHandler.send_head_path L F r eh2 p h.
Proof.
  unfold SimpleHTTPRequestHandler.send_head_path. cbv zeta.
  rewrite !send_error_ext.
  destruct (Py.endswith p "/"); [reflexivity |].
  destruct (open_rb F p) as [f |]; [| reflexivity].
  rewrite !Hext. reflexivity.
Qed.

Lemma send_head_ext h :
  SimpleHTTPRequestHandler.send_head L F directory r eh1 h
  = SimpleHTTPRequestHandler.send_head L F directory r eh2 h.
Proof.
  unfold SimpleHTTPRequestHandler.send_head. cbv zeta.
  rewrite !send_head_path_ext, list_directory_ext, Hext. reflexivity.
Qed.

Lemma do_GET_ext h :
  SimpleHTTPRequestHandler.do_GET L F directory r eh1 h
  = SimpleHTTPRequestHandler.do_GET L F directory r eh2 h.
Proof.
  unfold SimpleHTTPRequestHandler.do_GET. rewrite send_head_ext.
  reflexivity.
Qed.

Lemma do_HEAD_ext h :
  SimpleHTTPRequestHandler.do_HEAD L F directory r eh1 h
  = SimpleHTTPRequestHandler.do_HEAD L F directory r eh2 h.
Proof.
  unfold SimpleHTTPRequestHandler.do_HEAD. rewrite send_head_ext.
  reflexivity.
Qed.

End Ext.

(** *** Answers without a header block *)

Section Bare.
Variable L : library.
Variable F : filesystem.
Variable directory : string.
Variable r : request.
Hypothesis H9 : BaseHTTPRequestHandler.sends_headers r = false.

Lemma end_headers_09_blocks cls h :
  More.blocks (wfile (Dispatch.end_headers cls r h)) = More.blocks (wfile h).
Proof. rewrite (end_headers_09 cls r h H9). reflexivity. Qed.

Lemma send_error_09 cls code m e h :
  More.blocks (wfile (BaseHTTPRequestHandler.send_error L r
                        (Dispatch.end_headers cls r) code m e h))
  = More.blocks (wfile h).
Proof.
  apply (send_error_keeps L r _ More.blocks _ (end_headers_09_blocks cls)
           (or_introl blocks_data)).
Qed.

Lemma send_error_09_same code m e h :
  BaseHTTPRequestHandler.send_error L r
    (Dispatch.end_headers Dispatch.SimpleHandler r) code m e h
  = BaseHTTPRequestHandler.send_error L r
      (Dispatch.end_headers Dispatch.CORSHandler r) code m e h.
Proof.
  apply send_error_ext. intros x. rewrite !end_headers_09 by exact H9.
  reflexivity.
Qed.

Lemma respond_09_blocks cls :
  More.blocks (Dispatch.respond L F directory cls r) = [].
Proof.
  unfold Dispatch.respond, Dispatch.dispatch, Dispatch.getattr.
  destruct (String.eqb _ "do_GET").
  { apply (do_GET_keeps L F directory r _ More.blocks _
             (end_headers_09_blocks cls) (or_introl blocks_data) fresh
             blocks_data). }
  destruct (String.eqb _ "do_HEAD").
  { apply (do_HEAD_keeps L F directory r _ More.blocks _
             (end_headers_09_blocks cls) (or_introl blocks_data) fresh). }
  destruct (String.eqb _ "do_OPTIONS"); [destruct cls |].
  - apply send_error_09.
  - unfold CORSHTTPRequestHandler.do_OPTIONS.
    rewrite (cors_end_headers_09 r _ H9), wfile_send_response_any.
    reflexivity.
  - apply send_error_09.
Qed.

Lemma respond_09_same :
  command r <> "OPTIONS" ->
  Dispatch.respond L F directory Dispatch.SimpleHandler r
  = Dispatch.respond L F directory Dispatch.CORSHandler r.
Proof.
  intros Hc.
  assert (Hext : forall h, Dispatch.end_headers Dispatch.SimpleHandler r h
                           = Dispatch.end_headers Dispatch.CORSHandler r h).
  { intros h. rewrite !end_headers_09 by exact H9. reflexivity. }
  unfold Dispatch.respond, Dispatch.dispatch, Dispatch.getattr.
  destruct (String.eqb _ "do_GET").
  { rewrite (do_GET_ext L F directory r _ _ Hext). reflexivity. }
  destruct (String.eqb _ "do_HEAD").
  { rewrite (do_HEAD_ext L F directory r _ _ Hext). reflexivity. }
  destruct (String.eqb_spec ("do_" ++ command r) "do_OPTIONS") as [E | _].
  { exfalso. apply Hc. injection E as E. exact E. }
  rewrite (send_error_ext L r _ _ Hext). reflexivity.
Qed.

End Bare.

(** The answer to a parsed request, whatever its version: body bytes only,
    or one header block and body bytes; and the library's class gives the
    same without the three lines, unless the method is OPTIONS. *)
Lemma dispatch_cases L F directory r :
  (exists data,
     Dispatch.respond L F directory Dispatch.CORSHandler r = map Data data
     /\ (command r <> "OPTIONS" ->
         Dispatch.respond L F directory Dispatch.SimpleHandler r
         = map Data data))
  \/ exists pre data,
       filter is_cors_field (fields_of pre) = []
       /\ More.one_status pre
       /\ Dispatch.respond L F directory Dispatch.CORSHandler r
          = Head (pre ++ Spec.cors_lines ++ [BlankLine]) :: map Data data
       /\ (command r <> "OPTIONS" ->
           Dispatch.respond L F directory Dispatch.SimpleHandler r
           = Head (pre ++ [BlankLine]) :: map Data data).
Proof.
  destruct (BaseHTTPRequestHandler.sends_headers r) eqn:Hv.
  - destruct (respond_shape L F directory r Hv) as [Hr | B];
      [left | right; exact B].
    exists []. unfold Dispatch.respond. rewrite !Hr. split; reflexivity.
  - left.
    destruct (no_blocks _ (respond_09_blocks L F directory r Hv
                             Dispatch.CORSHandler)) as (data & E).
    exists data. split; [exact E |]. intros Hc.
    rewrite (respond_09_same L F directory r Hv Hc). exact E.
Qed.

(** The same for an error that [parse_request] sends with the attributes
    [r]. *)
Lemma refused_cases L r code m e :
  (exists data,
     wfile (Handler.send_error L Dispatch.CORSHandler r code m e fresh)
     = map Data data
     /\ wfile (Handler.send_error L Dispatch.SimpleHandler r code m e fresh)
        = map Data data)
  \/ exists pre data,
       filter is_cors_field (fields_of pre) = []
       /\ More.one_status pre
       /\ wfile (Handler.send_error L Dispatch.CORSHandler r code m e fresh)
          = Head (pre ++ Spec.cors_lines ++ [BlankLine]) :: map Data data
       /\ wfile (Handler.send_error L Dispatch.SimpleHandler r code m e
                   fresh)
          = Head (pre ++ [BlankLine]) :: map Data data.
Proof.
  unfold Handler.send_error.
  destruct (BaseHTTPRequestHandler.sends_headers r) eqn:Hv.
  - right.
    destruct (send_error_status L r Hv code m e fresh)
      as (pre & data & (Hn & Hw) & S).
    exists pre, data. split; [exact Hn |]. split; [exact S |]. split.
    + apply (Hw _ _ (class_ends r Hv Dispatch.CORSHandler)).
    + apply (Hw _ _ (class_ends r Hv Dispatch.SimpleHandler)).
  - left.
    destruct (no_blocks _ (send_error_09 L r Hv Dispatch.CORSHandler code m e
                             fresh)) as (data & E).
    exists data. split; [exact E |].
    rewrite (send_error_09_same L r Hv). exact E.
Qed.

(** *** From the request line to the parsed request *)

Lemma parse_headers_closes q c p v r close k :
  Handler.parse_headers q c p v true = Handler.Parsed r close k ->
  close = true /\ k = false.
Proof.
  unfold Handler.parse_headers. cbv zeta.
  change (String.leb "HTTP/1.1" protocol_version) with false.
  destruct (header_block q); try discriminate.
  rewrite !andb_false_r. cbn [andb].
  intros H. injection H as _ Hc Hk. split; [| symmetry; exact Hk].
  destruct (String.eqb _ "close"); symmetry; exact Hc.
Qed.

(** [protocol_version] is HTTP/1.0: a parsed request always leaves
    [close_connection] true, and [handle_expect_100] is never called. *)
Lemma parse_closes L q r close k :
  Handler.parse_request L q = Handler.Parsed r close k ->
  close = true /\ k = false.
Proof.
  unfold Handler.parse_request. cbv zeta.
  change (String.leb "HTTP/1.1" protocol_version) with false.
  destruct (Py.split _) as [| w1 [| w2 [| w3 [| w4 ws]]]];
    try discriminate.
  - cbn [length Nat.leb].
    destruct (negb (String.eqb w1 "GET")); [discriminate |].
    apply parse_headers_closes.
  - cbn [length Nat.leb last].
    destruct (Handler.version_number L w3) as [[b n] |];
      [| discriminate].
    rewrite andb_false_r. cbn [negb].
    destruct (Handler.tuple_ge n (2, 0)%Z); [discriminate |].
    apply parse_headers_closes.
  - cbn [length Nat.leb].
    destruct (Handler.version_number L _) as [[b n] |];
      [| discriminate].
    destruct (Handler.tuple_ge n (2, 0)%Z); discriminate.
Qed.

Lemma parse_empty L q :
  raw_requestline q = "" -> Handler.parse_request L q = Handler.NoWords.
Proof.
  intros H. unfold Handler.parse_request. rewrite H. reflexivity.
Qed.

(** An accepted request is answered as the parsed request is. *)
Lemma handle_accepted L F directory cls q r :
  Handler.accepts L q r ->
  Handler.handle_one_request L F directory cls q fresh
  = Dispatch.dispatch L F directory cls r fresh.
Proof.
  intros (Hlen & close & k & Hp).
  destruct (parse_closes L q r close k Hp) as (-> & ->).
  unfold Handler.handle_one_request.
  replace (65536 <? Py.len (raw_requestline q))%Z with false
    by (symmetry; apply Z.ltb_ge; apply Z.leb_le; exact Hlen).
  destruct (String.eqb_spec (raw_requestline q) "") as [E | _].
  { rewrite (parse_empty L q E) in Hp. discriminate. }
  rewrite Hp. reflexivity.
Qed.

Lemma respond_accepted L F directory cls q r :
  Handler.accepts L q r ->
  Handler.respond L F directory cls q
  = Dispatch.respond L F directory cls r.
Proof.
  intros H. unfold Handler.respond, Dispatch.respond.
  rewrite (handle_accepted L F directory cls q r H). reflexivity.
Qed.

Lemma raises_accepted L F directory cls q r :
  Handler.accepts L q r ->
  Handler.raises L F directory cls q
  = raised (Dispatch.dispatch L F directory cls r fresh).
Proof.
  intros H. unfold Handler.raises.
  rewrite (handle_accepted L F directory cls q r H). reflexivity.
Qed.

(** Every answer, from the request line on: body bytes only, or one header
    block and body bytes; and the library's class gives the same without
    the three lines, unless the request is an accepted OPTIONS. *)
Lemma connection_cases L F directory q :
  (exists data,
     Handler.respond L F directory Dispatch.CORSHandler q = map Data data
     /\ ((forall r, Handler.accepts L q r -> command r <> "OPTIONS") ->
         Handler.respond L F directory Dispatch.SimpleHandler q
         = map Data data))
  \/ exists pre data,
       filter is_cors_field (fields_of pre) = []
       /\ More.one_status pre
       /\ Handler.respond L F directory Dispatch.CORSHandler q
          = Head (pre ++ Spec.cors_lines ++ [BlankLine]) :: map Data data
       /\ ((forall r, Handler.accepts L q r -> command r <> "OPTIONS") ->
           Handler.respond L F directory Dispatch.SimpleHandler q
           = Head (pre ++ [BlankLine]) :: map Data data).
Proof.
  unfold Handler.respond, Handler.handle_one_request.
  destruct (65536 <? Py.len (raw_requestline q))%Z eqn:Hlen.
  { destruct (refused_cases L (Handler.unparsed "") 414 None None)
      as [(data & E1 & E2) | (pre & data & Hn & S & E1 & E2)].
    - left. exists data. split; [exact E1 | intros _; exact E2].
    - right. exists pre, data. repeat (split; [assumption |]).
      intros _. exact E2. }
  destruct (String.eqb (raw_requestline q) "").
  { left. exists []. split; reflexivity. }
  destruct (Handler.parse_request L q) as [r close k | r code m e |] eqn:Hp.
  - destruct (parse_closes L q r close k Hp) as (-> & ->).
    assert (Ha : Handler.accepts L q r).
    { split; [apply Z.leb_le; apply Z.ltb_ge; exact Hlen |].
      exists true, false. exact Hp. }
    change (set_close_connection fresh true) with fresh. cbv iota zeta.
    fold (Dispatch.respond L F directory Dispatch.CORSHandler r).
    fold (Dispatch.respond L F directory Dispatch.SimpleHandler r).
    destruct (dispatch_cases L F directory r)
      as [(data & E1 & E2) | (pre & data & Hn & S & E1 & E2)].
    + left. exists data. split; [exact E1 |].
      intros H. exact (E2 (H r Ha)).
    + right. exists pre, data. repeat (split; [assumption |]).
      intros H. exact (E2 (H r Ha)).
  - change (set_close_connection fresh true) with fresh.
    destruct (refused_cases L r code (Some m) e)
      as [(data & E1 & E2) | (pre & data & Hn & S & E1 & E2)].
    + left. exists data. split; [exact E1 | intros _; exact E2].
    + right. exists pre, data. repeat (split; [assumption |]).
      intros _. exact E2.
  - left. exists []. split; reflexivity.
Qed.

(** *** Reading the two kinds of answer *)

Lemma status_codes_data data : status_codes (map Data data) = [].
Proof. unfold status_codes. rewrite lines_of_data. reflexivity. Qed.

Lemma header_fields_data data : header_fields (map Data data) = [].
Proof. unfold header_fields. rewrite lines_of_data. reflexivity. Qed.

(** A block that starts with its one status line and ends with the three
    lines: one status code, and the three Access-Control fields. *)
Lemma block_reading pre data :
  filter is_cors_field (fields_of pre) = [] ->
  More.one_status pre ->
  let w := Head (pre ++ Spec.cors_lines ++ [BlankLine]) :: map Data data in
  exists code,
    status_codes w = [code]
    /\ filter is_cors_field (header_fields w)
       = [("Access-Control-Allow-Origin", "*");
          ("Access-Control-Allow-Methods", "GET, POST, OPTIONS");
          ("Access-Control-Allow-Headers", "Content-Type")].
Proof.
  intros Hn (code & phrase & rest & -> & Hc) w. exists code. subst w.
  rewrite status_codes_shape, header_fields_shape.
  rewrite !fields_of_app, !filter_app, Hn.
  split; [| reflexivity].
  cbn [app codes_of flat_map]. rewrite <- (app_nil_r [code]).
  cbn [app]. f_equal. fold (codes_of (rest ++ Spec.cors_lines ++ [BlankLine])).
  rewrite !codes_of_app, Hc. reflexivity.
Qed.

(** ** The CORS headers *)

(** The stated form of C1 fails on the request line of an HTTP/0.9 client:
    the two words [GET /test/texture-system-test.html] are answered with
    the bytes of the page and nothing else, so with none of the three
    fields. *)
Lemma two_word_get_has_no_headers :
  let q := Example.get_page_two_words in
  let w := Handler.respond Example.lib0 Example.fs0 "/srv/scratch"
             Dispatch.CORSHandler q in
  Py.split (Py.rstrip_crlf (raw_requestline q))
  = ["GET"; "/test/texture-system-test.html"]
  /\ w = [Data (content Example.page_file)]
  /\ header_fields w = []
  /\ ~ In ("Access-Control-Allow-Origin", "*") (header_fields w).
Proof.
  repeat split; try reflexivity. intros H. vm_compute in H. exact H.
Qed.

(** [C1, amended] Whatever the request line, the answer of the script's
    handler either has no status line and no header field at all, or has
    one status line and, as its Access-Control fields, exactly
    [Access-Control-Allow-Origin: *],
    [Access-Control-Allow-Methods: GET, POST, OPTIONS] and
    [Access-Control-Allow-Headers: Content-Type], once each.  Unless the
    request is an accepted OPTIONS, the other fields, the status and the
    body are those of the library's file-serving handler.  Every request
    that [parse_request] accepts with a version other than HTTP/0.9, and
    whose handler is not ended by an exception, gets an answer of the
    second kind. *)
Theorem cors_headers_on_every_response L F directory q :
  let w := Handler.respond L F directory Dispatch.CORSHandler q in
  let w0 := Handler.respond L F directory Dispatch.SimpleHandler q in
  let three := [("Access-Control-Allow-Origin", "*");
                ("Access-Control-Allow-Methods", "GET, POST, OPTIONS");
                ("Access-Control-Allow-Headers", "Content-Type")] in
  ((status_codes w = [] /\ header_fields w = [])
   \/ (exists code,
         status_codes w = [code]
         /\ filter is_cors_field (header_fields w) = three))
  /\ ((forall r, Handler.accepts L q r -> command r <> "OPTIONS") ->
      filter Spec.not_cors_field (header_fields w) = header_fields w0
      /\ status_codes w = status_codes w0
      /\ body w = body w0)
  /\ (forall r,
        Handler.accepts L q r ->
        request_version r <> "HTTP/0.9" ->
        Handler.raises L F directory Dispatch.CORSHandler q = false ->
        exists code,
          status_codes w = [code]
          /\ filter is_cors_field (header_fields w) = three).
Proof.
  intros w w0 three. split; [| split].
  - destruct (connection_cases L F directory q)
      as [(data & E & _) | (pre & data & Hn & S & E & _)]; subst w.
    + left. rewrite E, status_codes_data, header_fields_data.
      split; reflexivity.
    + right. rewrite E. apply (block_reading pre data Hn S).
  - intros Hc.
    destruct (connection_cases L F directory q)
      as [(data & E & E0) | (pre & data & Hn & S & E & E0)]; subst w w0.
    + rewrite E, (E0 Hc), header_fields_data. repeat split.
    + rewrite E, (E0 Hc).
      rewrite !header_fields_shape, !status_codes_shape.
      rewrite !fields_of_app, !codes_of_app, !filter_app.
      split; [| split; reflexivity].
      unfold Spec.not_cors_field.
      rewrite (filter_none_keeps_all _ _ Hn). reflexivity.
  - intros r Ha Hv Hr. subst w.
    rewrite (raises_accepted L F directory _ q r Ha) in Hr.
    rewrite (respond_accepted L F directory _ q r Ha).
    destruct (respond_shape L F directory r (http1x_of_version r Hv))
      as [Hx | (pre & data & Hn & S & E & _)].
    + rewrite Hx in Hr. discriminate Hr.
    + rewrite E. apply (block_reading pre data Hn S).
Qed.

Lemma cors_headers_on_every_response_witness :
  let q := Example.get_missing in
  let w := Handler.respond Example.lib0 Example.fs0 "/srv/scratch"
             Dispatch.CORSHandler q in
  Handler.accepts Example.lib0 q
    (Example.parsed "GET" "/test/missing.png" [])
  /\ Handler.raises Example.lib0 Example.fs0 "/srv/scratch"
       Dispatch.CORSHandler q = false
  /\ exists code,
       status_codes w = [code]
       /\ filter is_cors_field (header_fields w)
          = [("Access-Control-Allow-Origin", "*");
             ("Access-Control-Allow-Methods", "GET, POST, OPTIONS");
             ("Access-Control-Allow-Headers", "Content-Type")].
Proof.
  assert (Ha : Handler.accepts Example.lib0 Example.get_missing
                 (Example.parsed "GET" "/test/missing.png" [])).
  { split; [reflexivity |]. exists true, false. reflexivity. }
  split; [exact Ha |]. split; [reflexivity |].
  refine (proj2 (proj2 (cors_headers_on_every_response Example.lib0
                          Example.fs0 "/srv/scratch" Example.get_missing))
            _ Ha _ eq_refl).
  discriminate.
Defined.

(** ** OPTIONS *)

Lemma options_parsed L F directory r :
  Spec.http1x r ->
  command r = "OPTIONS" ->
  Dispatch.respond L F directory Dispatch.CORSHandler r
  = [Head ([StatusLine "HTTP/1.0" 200 "OK";
            HeaderLine "Server" (version_string L);
            HeaderLine "Date" (date_time_string L None)]
           ++ Spec.cors_lines ++ [BlankLine])].
Proof.
  intros Hv Hc.
  unfold Dispatch.respond, Dispatch.dispatch, Dispatch.getattr.
  rewrite Hc. cbn [String.eqb Ascii.eqb Bool.eqb append].
  apply (do_OPTIONS_wfile L r Hv fresh).
Qed.

(** The stated form of C2 fails on OPTIONS requests of an HTTP/0.9 client:
    to the line [OPTIONS /anything HTTP/0.9] nothing at all is written, so
    no status 200 and none of the three fields; the two words
    [OPTIONS /anything] are refused with the page of error 400 as the
    whole answer, so the body is not empty. *)
Lemma options_09_is_not_200 :
  let respond := Handler.respond Example.lib0 Example.fs0 "/srv/scratch"
                   Dispatch.CORSHandler in
  Py.split (Py.rstrip_crlf (raw_requestline Example.options_09))
  = ["OPTIONS"; "/anything"; "HTTP/0.9"]
  /\ respond Example.options_09 = []
  /\ status_codes (respond Example.options_09) <> [200%Z]
  /\ Py.split (Py.rstrip_crlf (raw_requestline Example.options_two_words))
     = ["OPTIONS"; "/anything"]
  /\ status_codes (respond Example.options_two_words) = []
  /\ header_fields (respond Example.options_two_words) = []
  /\ body (respond Example.options_two_words)
     = "<p>Error code: 400</p><p>Message: Bad HTTP/0.9 request type ('OPTIONS').</p><p>Bad request syntax or unsupported method.</p>".
Proof.
  repeat split; try reflexivity. intros H. vm_compute in H. discriminate H.
Qed.

(** [C2, amended] For every OPTIONS request that [parse_request] accepts
    with a version other than HTTP/0.9, to any path, the script's handler
    answers with the status line [HTTP/1.0 200 OK], the fields [Server] and
    [Date], the three Access-Control fields and no body; the answer is the
    same for every such request, whatever its path and request headers, and
    for every directory and file system, so nothing is negotiated and no
    file is consulted. *)
Theorem options_answer L F directory q r :
  Handler.accepts L q r ->
  request_version r <> "HTTP/0.9" ->
  command r = "OPTIONS" ->
  let w := Handler.respond L F directory Dispatch.CORSHandler q in
  w = [Head [StatusLine "HTTP/1.0" 200 "OK";
             HeaderLine "Server" (version_string L);
             HeaderLine "Date" (date_time_string L None);
             HeaderLine "Access-Control-Allow-Origin" "*";
             HeaderLine "Access-Control-Allow-Methods" "GET, POST, OPTIONS";
             HeaderLine "Access-Control-Allow-Headers" "Content-Type";
             BlankLine]]
  /\ status_codes w = [200%Z]
  /\ body w = ""
  /\ filter is_cors_field (header_fields w)
     = [("Access-Control-Allow-Origin", "*");
        ("Access-Control-Allow-Methods", "GET, POST, OPTIONS");
        ("Access-Control-Allow-Headers", "Content-Type")]
  /\ (forall F' directory' q' r',
        Handler.accepts L q' r' ->
        request_version r' <> "HTTP/0.9" ->
        command r' = "OPTIONS" ->
        Handler.respond L F' directory' Dispatch.CORSHandler q' = w).
Proof.
  intros Ha Hv Hc w.
  assert (E : forall F' d' q' r',
             Handler.accepts L q' r' ->
             request_version r' <> "HTTP/0.9" ->
             command r' = "OPTIONS" ->
             Handler.respond L F' d' Dispatch.CORSHandler q'
             = [Head ([StatusLine "HTTP/1.0" 200 "OK";
                       HeaderLine "Server" (version_string L);
                       HeaderLine "Date" (date_time_string L None)]
                      ++ Spec.cors_lines ++ [BlankLine])]).
  { intros F' d' q' r' Ha' Hv' Hc'.
    rewrite (respond_accepted L F' d' _ q' r' Ha').
    apply (options_parsed L F' d' r' (http1x_of_version r' Hv') Hc'). }
  subst w. rewrite (E F directory q r Ha Hv Hc).
  repeat split. intros F' d' q' r' Ha' Hv' Hc'.
  apply (E F' d' q' r' Ha' Hv' Hc').
Qed.

Lemma options_answer_witness :
  Handler.accepts Example.lib0 Example.options_any
    (Example.parsed "OPTIONS" "/anything" [])
  /\ status_codes (Handler.respond Example.lib0 Example.fs0 "/srv/scratch"
                     Dispatch.CORSHandler Example.options_any) = [200%Z]
  /\ body (Handler.respond Example.lib0 Example.fs0 "/srv/scratch"
             Dispatch.CORSHandler Example.options_any) = "".
Proof.
  assert (Ha : Handler.accepts Example.lib0 Example.options_any
                 (Example.parsed "OPTIONS" "/anything" [])).
  { split; [reflexivity |]. exists true, false. reflexivity. }
  assert (Hv : request_version (Example.parsed "OPTIONS" "/anything" [])
               <> "HTTP/0.9") by discriminate.
  split; [exact Ha |].
  pose proof (options_answer Example.lib0 Example.fs0 "/srv/scratch"
                Example.options_any _ Ha Hv eq_refl) as H.
  split; [exact (proj1 (proj2 H)) | exact (proj1 (proj2 (proj2 H)))].
Defined.

(** ** GET *)

(** *** GET for a path that is a file, and for one that is nothing *)

Lemma body_file_data ls c :
  body (Head ls :: map Data (Spec.file_data (Some c))) = c.
Proof.
  cbn [Spec.file_data]. destruct (String.eqb_spec c "") as [-> | _].
  - reflexivity.
  - cbn. induction c as [| a c IH]; [reflexivity |].
    cbn. f_equal. exact IH.
Qed.

Section GetFile.
Variable L : library.
Variable F : filesystem.
Variable directory : string.
Variable r : request.
Hypothesis Hv : Spec.http1x r.
Hypothesis Hget : command r = "GET".

Lemma get_is_do_GET :
  Dispatch.respond L F directory Dispatch.CORSHandler r
  = wfile (SimpleHTTPRequestHandler.do_GET L F directory r
             (CORSHTTPRequestHandler.end_headers r) fresh).
Proof.
  unfold Dispatch.respond, Dispatch.dispatch, Dispatch.getattr.
  rewrite Hget. reflexivity.
Qed.





End GetFile.






(** ** Further properties of the handler *)

(** *** HTTP/0.9 *)



(** *** HEAD against GET *)

Section SameButMethod.
Variable L : library.
Variable F : filesystem.
Variable directory : string.
Variables c1 c2 p v : string.
Variable hs : list (string * string).
Variable eh : handler -> handler.

Lemma send_error_same_lines code m e h :
  More.lines_written
    (wfile (BaseHTTPRequestHandler.send_error L (Build_request c1 p v hs)
              eh code m e h))
  = More.lines_written
      (wfile (BaseHTTPRequestHandler.send_error L (Build_request c2 p v hs)
                eh code m e h)).
Proof.
  unfold BaseHTTPRequestHandler.send_error.
  destruct (match responses code with Some q => q | None => _ end)
    as [shortmsg longmsg].
  cbv zeta.
  repeat match goal with
         | |- context [if ?b then write _ _ else _] => destruct b
         end;
    rewrite ?wfile_write, ?lines_written_data; reflexivity.
Qed.

Lemma send_head_path_same q h :
  snd (SimpleHTTPRequestHandler.send_head_path L F (Build_request c1 p v hs)
         eh q h)
  = snd (SimpleHTTPRequestHandler.send_head_path L F
           (Build_request c2 p v hs) eh q h)
  /\ More.lines_written
       (wfile (fst (SimpleHTTPRequestHandler.send_head_path L F
                      (Build_request c1 p v hs) eh q h)))
     = More.lines_written
         (wfile (fst (SimpleHTTPRequestHandler.send_head_path L F
                        (Build_request c2 p v hs) eh q h))).
Proof.
  unfold SimpleHTTPRequestHandler.send_head_path. cbv zeta.
  destruct (Py.endswith q "/").
  { split; [reflexivity | apply send_error_same_lines]. }
  destruct (open_rb F q) as [file |].
  2:{ destruct (open_raises F q); [split; reflexivity |].
      split; [reflexivity | apply send_error_same_lines]. }
  change (SimpleHTTPRequestHandler.not_modified L (Build_request c2 p v hs)
            file)
    with (SimpleHTTPRequestHandler.not_modified L (Build_request c1 p v hs)
            file).
  destruct (SimpleHTTPRequestHandler.not_modified L _ file);
    split; reflexivity.
Qed.

Lemma list_directory_same q h :
  snd (SimpleHTTPRequestHandler.list_directory L F (Build_request c1 p v hs)
         eh q h)
  = snd (SimpleHTTPRequestHandler.list_directory L F
           (Build_request c2 p v hs) eh q h)
  /\ More.lines_written
       (wfile (fst (SimpleHTTPRequestHandler.list_directory L F
                      (Build_request c1 p v hs) eh q h)))
     = More.lines_written
         (wfile (fst (SimpleHTTPRequestHandler.list_directory L F
                        (Build_request c2 p v hs) eh q h))).
Proof.
  unfold SimpleHTTPRequestHandler.list_directory.
  destruct (listdir F q) as [entries |].
  - split; reflexivity.
  - split; [reflexivity | apply send_error_same_lines].
Qed.

Lemma send_head_same h :
  snd (SimpleHTTPRequestHandler.send_head L F directory
         (Build_request c1 p v hs) eh h)
  = snd (SimpleHTTPRequestHandler.send_head L F directory
           (Build_request c2 p v hs) eh h)
  /\ More.lines_written
       (wfile (fst (SimpleHTTPRequestHandler.send_head L F directory
                      (Build_request c1 p v hs) eh h)))
     = More.lines_written
         (wfile (fst (SimpleHTTPRequestHandler.send_head L F directory
                        (Build_request c2 p v hs) eh h))).
Proof.
  unfold SimpleHTTPRequestHandler.send_head. cbv zeta. cbn [path].
  destruct (isdir F _); [| apply send_head_path_same].
  destruct (negb _).
  - split; reflexivity.
  - destruct (isfile F _); [apply send_head_path_same |].
    destruct (isfile F _); [apply send_head_path_same |].
    apply list_directory_same.
Qed.

End SameButMethod.

(** HEAD against GET, for parsed requests of any version. *)
Lemma head_is_get_parsed L F directory rh rg :
  command rh = "HEAD" ->
  command rg = "GET" ->
  More.same_but_method rh rg ->
  let wh := Dispatch.respond L F directory Dispatch.CORSHandler rh in
  let wg := Dispatch.respond L F directory Dispatch.CORSHandler rg in
  status_codes wh = status_codes wg
  /\ header_fields wh = header_fields wg
  /\ body wh = "".
Proof.
  intros Hh Hg (Hp & Hv & Hhs) wh wg.
  assert (Hbody : body wh = "").
  { subst wh.
    unfold Dispatch.respond, Dispatch.dispatch, Dispatch.getattr.
    rewrite Hh. cbn [String.eqb Ascii.eqb Bool.eqb append Dispatch.end_headers].
    apply (do_HEAD_keeps L F directory rh _ body _
             (cors_end_headers_body rh) (or_intror Hh) fresh). }
  assert (Hlines : More.lines_written wh = More.lines_written wg).
  { subst wh wg. destruct rh as [ch ph vh hh], rg as [cg pg vg hg].
    cbn [command path request_version headers] in Hh, Hg, Hp, Hv, Hhs.
    subst ch cg pg vg hg.
    unfold Dispatch.respond, Dispatch.dispatch, Dispatch.getattr.
    cbn [command String.eqb Ascii.eqb Bool.eqb append Dispatch.end_headers].
    change (CORSHTTPRequestHandler.end_headers (Build_request "GET" ph vh hh))
      with (CORSHTTPRequestHandler.end_headers
              (Build_request "HEAD" ph vh hh)).
    set (eh := CORSHTTPRequestHandler.end_headers
                 (Build_request "HEAD" ph vh hh)).
    unfold SimpleHTTPRequestHandler.do_HEAD, SimpleHTTPRequestHandler.do_GET.
    destruct (send_head_same L F directory "HEAD" "GET" ph vh hh eh fresh)
      as (Hs & Hl).
    destruct (SimpleHTTPRequestHandler.send_head L F directory
                (Build_request "GET" ph vh hh) eh fresh) as [h' o].
    cbn [fst snd] in Hs, Hl. rewrite Hl.
    destruct o as [c |]; [| reflexivity].
    unfold SimpleHTTPRequestHandler.copyfile.
    destruct (String.eqb c ""); [reflexivity |].
    rewrite wfile_write, lines_written_data. reflexivity. }
  split; [| split; [| exact Hbody]].
  - unfold status_codes. fold (More.lines_written wh).
    fold (More.lines_written wg). rewrite Hlines. reflexivity.
  - unfold header_fields. fold (More.lines_written wh).
    fold (More.lines_written wg). rewrite Hlines. reflexivity.
Qed.

(** [X2] For a HEAD request and a GET request that [parse_request] both
    accepts, with the same path, version and request headers, the HEAD
    request is answered with the status and the header fields (the
    Access-Control fields included) of the GET request, whatever the path
    leads to, and with no body. *)
Theorem head_is_get_without_body L F directory qh qg rh rg :
  Handler.accepts L qh rh ->
  Handler.accepts L qg rg ->
  command rh = "HEAD" ->
  command rg = "GET" ->
  More.same_but_method rh rg ->
  let wh := Handler.respond L F directory Dispatch.CORSHandler qh in
  let wg := Handler.respond L F directory Dispatch.CORSHandler qg in
  status_codes wh = status_codes wg
  /\ header_fields wh = header_fields wg
  /\ body wh = "".
Proof.
  intros Hah Hag Hh Hg Hs wh wg. subst wh wg.
  rewrite (respond_accepted L F directory _ qh rh Hah).
  rewrite (respond_accepted L F directory _ qg rg Hag).
  apply (head_is_get_parsed L F directory rh rg Hh Hg Hs).
Qed.

Lemma head_is_get_without_body_witness :
  let rh := Example.parsed "HEAD" "/test/texture-system-test.html" [] in
  let rg := Example.parsed "GET" "/test/texture-system-test.html" [] in
  let wh := Handler.respond Example.lib0 Example.fs0 "/srv/scratch"
              Dispatch.CORSHandler More.head_page in
  Handler.accepts Example.lib0 More.head_page rh
  /\ Handler.accepts Example.lib0 Example.get_page rg
  /\ More.same_but_method rh rg
  /\ status_codes wh = [200%Z]
  /\ body wh = "".
Proof.
  intros rh rg wh.
  assert (Hah : Handler.accepts Example.lib0 More.head_page rh).
  { split; [reflexivity |]. exists true, false. reflexivity. }
  assert (Hag : Handler.accepts Example.lib0 Example.get_page rg).
  { split; [reflexivity |]. exists true, false. reflexivity. }
  assert (Hs : More.same_but_method rh rg) by (repeat split).
  split; [exact Hah |]. split; [exact Hag |]. split; [exact Hs |].
  pose proof (head_is_get_without_body Example.lib0 Example.fs0
                "/srv/scratch" More.head_page Example.get_page rh rg
                Hah Hag eq_refl eq_refl Hs) as H.
  split; [exact (proj1 H) | exact (proj2 (proj2 H))].
Defined.

(** *** Methods the class does not have *)

Lemma getattr_none L F directory cls r :
  command r <> "GET" ->
  command r <> "HEAD" ->
  command r <> "OPTIONS" ->
  Dispatch.getattr L F directory cls r ("do_" ++ command r) = None.
Proof.
  intros Hg Hh Ho. unfold Dispatch.getattr.
  cbn [String.eqb Ascii.eqb Bool.eqb append].
  destruct (String.eqb_spec (command r) "GET"); [contradiction |].
  destruct (String.eqb_spec (command r) "HEAD"); [contradiction |].
  destruct (String.eqb_spec (command r) "OPTIONS"); [contradiction |].
  reflexivity.
Qed.

(** [X3] A request that [parse_request] accepts with a version other than
    HTTP/0.9 and a method other than GET, HEAD and OPTIONS is answered 501,
    the same for every directory and file system: the file system is not
    consulted.  That holds for POST as well, although the answer itself
    carries [Access-Control-Allow-Methods: GET, POST, OPTIONS]. *)
Theorem other_methods_not_implemented L F directory q r :
  Handler.accepts L q r ->
  request_version r <> "HTTP/0.9" ->
  command r <> "GET" ->
  command r <> "HEAD" ->
  command r <> "OPTIONS" ->
  let w := Handler.respond L F directory Dispatch.CORSHandler q in
  status_codes w = [501%Z]
  /\ In ("Access-Control-Allow-Methods", "GET, POST, OPTIONS")
       (header_fields w)
  /\ (forall F' directory',
        Handler.respond L F' directory' Dispatch.CORSHandler q = w).
Proof.
  intros Ha Hv0 Hg Hh Ho w. pose proof (http1x_of_version r Hv0) as Hv.
  assert (E : forall F' d',
             Handler.respond L F' d' Dispatch.CORSHandler q
             = wfile (BaseHTTPRequestHandler.send_error L r
                        (CORSHTTPRequestHandler.end_headers r) 501
                        (Some ("Unsupported method ("
                               ++ repr L (command r) ++ ")")%string)
                        None fresh)).
  { intros F' d'. rewrite (respond_accepted L F' d' _ q r Ha).
    unfold Dispatch.respond, Dispatch.dispatch.
    rewrite (getattr_none L F' d' _ r Hg Hh Ho). reflexivity. }
  subst w. rewrite (E F directory).
  destruct (send_error_answers L r Hv 501
              (Some ("Unsupported method (" ++ repr L (command r) ++ ")")%string)
              None fresh) as (pre & data & (_ & Hw) & Hcode).
  specialize (Hw _ _ (cors_ends r Hv)). cbn beta in Hw.
  split; [| split].
  - rewrite Hw. cbn [wfile _headers_buffer fresh app].
    rewrite status_codes_shape, !codes_of_app, Hcode. reflexivity.
  - rewrite Hw. cbn [wfile _headers_buffer fresh app].
    rewrite header_fields_shape, !fields_of_app.
    apply in_or_app. right. apply in_or_app. left.
    right; left. reflexivity.
  - intros F' d'. apply E.
Qed.

Lemma other_methods_not_implemented_witness :
  let r := Example.parsed "POST" "/upload" [] in
  Handler.accepts Example.lib0 More.post_upload r
  /\ status_codes (Handler.respond Example.lib0 Example.fs0 "/srv/scratch"
                     Dispatch.CORSHandler More.post_upload) = [501%Z].
Proof.
  intros r.
  assert (Ha : Handler.accepts Example.lib0 More.post_upload r).
  { split; [reflexivity |]. exists true, false. reflexivity. }
  assert (Hv : request_version r <> "HTTP/0.9") by discriminate.
  assert (Hg : command r <> "GET") by discriminate.
  assert (Hh : command r <> "HEAD") by discriminate.
  assert (Ho : command r <> "OPTIONS") by discriminate.
  split; [exact Ha |].
  exact (proj1 (other_methods_not_implemented Example.lib0 Example.fs0
                  "/srv/scratch" More.post_upload r Ha Hv Hg Hh Ho)).
Defined.

(** *** Error answers, redirects and index pages, written out *)

Ltac close_cors L r Hv :=
  match goal with
  | |- context [CORSHTTPRequestHandler.end_headers r ?st] =>
      match goal with
      | |- context [wfile ?h ++ _] =>
          let A := fresh "A" in
          eassert (A : Spec.appends h _ st) by appends_steps L r Hv;
          rewrite (close_block _ _ _ _ _ A (cors_ends r Hv))
      end
  end.

Lemma body_data_opt ls c :
  body (Head ls :: (if String.eqb c "" then [] else [Data c])) = c.
Proof.
  pose proof (body_file_data ls c) as H. cbn [Spec.file_data] in H.
  destruct (String.eqb c ""); exact H.
Qed.

(** An error answer of the script's handler for a code that has a page. *)
Lemma send_error_cors_wfile L r code message h :
  Spec.http1x r ->
  ((200 <=? code)%Z
   && negb ((code =? 204)%Z || (code =? 205)%Z || (code =? 304)%Z))%bool
  = true ->
  wfile (BaseHTTPRequestHandler.send_error L r
           (CORSHTTPRequestHandler.end_headers r) code (Some message) None h)
  = wfile h
    ++ Head (_headers_buffer h ++ More.error_lines L code message
             ++ Spec.cors_lines ++ [BlankLine])
       :: (if (negb (String.eqb (command r) "HEAD")
               && negb (String.eqb (More.error_page_of L code message) ""))%bool
           then [Data (More.error_page_of L code message)]
           else []).
Proof.
  intros Hv Hb.
  unfold BaseHTTPRequestHandler.send_error, More.error_lines,
    More.error_page_of.
  destruct (responses code) as [[short long] |]; cbv zeta; rewrite Hb;
    cbn [andb];
    destruct (negb (String.eqb (command r) "HEAD"));
    cbn [andb];
    try match goal with
        | |- context [if ?b then write _ _ else _] => destruct b
        end;
    rewrite ?wfile_write; close_cors L r Hv;
    rewrite <- ?app_assoc; reflexivity.
Qed.

(** [X4] A GET that [parse_request] accepts with a version other than
    HTTP/0.9, for a path that is not a directory and whose translation ends
    with a slash (even if a file would open there) or at which [open] fails
    with an [OSError], is answered 404 with the error page as body; the
    answer announces [Connection: close] and a [Content-Length] equal to
    the number of body bytes sent. *)
Theorem not_found_answer L F directory q r p :
  Handler.accepts L q r ->
  request_version r <> "HTTP/0.9" ->
  command r = "GET" ->
  translate_path L directory (path r) = p ->
  isdir F p = false ->
  Py.endswith p "/" = true
  \/ (open_rb F p = None /\ open_raises F p = false) ->
  let w := Handler.respond L F directory Dispatch.CORSHandler q in
  status_codes w = [404%Z]
  /\ body w = More.error_page_of L 404 "File not found"
  /\ headers_get (header_fields w) "Content-Length"
     = Some (Py.str_int (Py.len (body w)))
  /\ headers_get (header_fields w) "Connection" = Some "close".
Proof.
  intros Ha Hv0 Hget Hp Hd Hmiss w. pose proof (http1x_of_version r Hv0) as Hv.
  assert (E : w = Head (More.error_lines L 404 "File not found"
                        ++ Spec.cors_lines ++ [BlankLine])
                  :: (if String.eqb (More.error_page_of L 404 "File not found")
                           ""
                      then []
                      else [Data (More.error_page_of L 404 "File not found")])).
  { subst w. rewrite (respond_accepted L F directory _ q r Ha).
    rewrite (get_is_do_GET L F directory r Hget).
    unfold SimpleHTTPRequestHandler.do_GET, SimpleHTTPRequestHandler.send_head.
    cbv zeta. rewrite Hp, Hd.
    unfold SimpleHTTPRequestHandler.send_head_path. cbv zeta.
    assert (Hw := send_error_cors_wfile L r 404 "File not found" fresh Hv
                    eq_refl).
    rewrite Hget in Hw. cbn [String.eqb Ascii.eqb Bool.eqb negb andb] in Hw.
    cbn [wfile _headers_buffer fresh app] in Hw.
    destruct (String.eqb (More.error_page_of L 404 "File not found") "");
      cbn [negb] in Hw;
      (destruct Hmiss as [Hs | (Ho & Hr)];
       [rewrite Hs | destruct (Py.endswith p "/"); [| rewrite Ho, Hr]]);
      exact Hw. }
  rewrite E, body_data_opt.
  destruct (String.eqb (More.error_page_of L 404 "File not found") "");
    repeat split.
Qed.

Lemma not_found_answer_witness :
  let r := Example.parsed "GET" "/test/texture-system-test.html/" [] in
  let p := translate_path Example.lib0 "/srv/scratch" (path r) in
  let w := Handler.respond Example.lib0 Example.fs0 "/srv/scratch"
             Dispatch.CORSHandler More.get_page_slash in
  Handler.accepts Example.lib0 More.get_page_slash r
  /\ isdir Example.fs0 p = false
  /\ Py.endswith p "/" = true
  /\ status_codes w = [404%Z]
  /\ headers_get (header_fields w) "Connection" = Some "close".
Proof.
  intros r p w.
  assert (Ha : Handler.accepts Example.lib0 More.get_page_slash r).
  { split; [reflexivity |]. exists true, false. reflexivity. }
  assert (Hv : request_version r <> "HTTP/0.9") by discriminate.
  split; [exact Ha |]. do 2 (split; [reflexivity |]).
  pose proof (not_found_answer Example.lib0 Example.fs0 "/srv/scratch"
                More.get_page_slash r _ Ha Hv eq_refl eq_refl eq_refl
                (or_introl eq_refl)) as H.
  split; [exact (proj1 H) | exact (proj2 (proj2 (proj2 H)))].
Defined.





(** ** The shape of an answer *)

(** [X12] Whatever the request line, what the script's handler writes is
    either body bytes only (possibly nothing), or one header block followed
    by body bytes only, where the block starts with its one status line,
    which names HTTP/1.0 whatever version the request named, and ends with
    the three Access-Control lines, in the order Origin, Methods, Headers,
    right before the blank line.  A request that [parse_request] accepts
    with a version other than HTTP/0.9, and whose handler is not ended by
    an exception, gets an answer of the second kind. *)
Theorem answer_is_one_block L F directory q :
  let w := Handler.respond L F directory Dispatch.CORSHandler q in
  let block := fun w =>
    exists code phrase rest data,
      w = Head (StatusLine "HTTP/1.0" code phrase
                :: rest
                ++ [HeaderLine "Access-Control-Allow-Origin" "*";
                    HeaderLine "Access-Control-Allow-Methods"
                      "GET, POST, OPTIONS";
                    HeaderLine "Access-Control-Allow-Headers" "Content-Type";
                    BlankLine])
          :: map Data data
      /\ codes_of rest = []
      /\ filter is_cors_field (fields_of rest) = [] in
  ((exists data, w = map Data data) \/ block w)
  /\ (forall r,
        Handler.accepts L q r ->
        request_version r <> "HTTP/0.9" ->
        Handler.raises L F directory Dispatch.CORSHandler q = false ->
        block w).
Proof.
  intros w block.
  assert (B : forall pre data,
             filter is_cors_field (fields_of pre) = [] ->
             More.one_status pre ->
             w = Head (pre ++ Spec.cors_lines ++ [BlankLine]) :: map Data data ->
             block w).
  { intros pre data Hn (code & phrase & rest & -> & Hc) E.
    exists code, phrase, rest, data. split; [exact E |].
    split; [exact Hc |]. cbn [fields_of flat_map app] in Hn. exact Hn. }
  split.
  - destruct (connection_cases L F directory q)
      as [(data & E & _) | (pre & data & Hn & S & E & _)].
    + left. exists data. exact E.
    + right. apply (B pre data Hn S E).
  - intros r Ha Hv Hr.
    rewrite (raises_accepted L F directory _ q r Ha) in Hr.
    destruct (respond_shape L F directory r (http1x_of_version r Hv))
      as [Hx | (pre & data & Hn & S & E & _)].
    + rewrite Hx in Hr. discriminate Hr.
    + apply (B pre data Hn S). subst w.
      rewrite (respond_accepted L F directory _ q r Ha). exact E.
Qed.

Lemma answer_is_one_block_witness :
  let q := Example.get_page in
  let w := Handler.respond Example.lib0 Example.fs0 "/srv/scratch"
             Dispatch.CORSHandler q in
  Handler.accepts Example.lib0 q
    (Example.parsed "GET" "/test/texture-system-test.html" [])
  /\ Handler.raises Example.lib0 Example.fs0 "/srv/scratch"
       Dispatch.CORSHandler q = false
  /\ exists code phrase rest data,
       w = Head (StatusLine "HTTP/1.0" code phrase
                 :: rest
                 ++ [HeaderLine "Access-Control-Allow-Origin" "*";
                     HeaderLine "Access-Control-Allow-Methods"
                       "GET, POST, OPTIONS";
                     HeaderLine "Access-Control-Allow-Headers" "Content-Type";
                     BlankLine])
           :: map Data data
       /\ codes_of rest = []
       /\ filter is_cors_field (fields_of rest) = [].
Proof.
  assert (Ha : Handler.accepts Example.lib0 Example.get_page
                 (Example.parsed "GET" "/test/texture-system-test.html" [])).
  { split; [reflexivity |]. exists true, false. reflexivity. }
  split; [exact Ha |]. split; [reflexivity |].
  refine (proj2 (answer_is_one_block Example.lib0 Example.fs0 "/srv/scratch"
                   Example.get_page) _ Ha _ eq_refl).
  discriminate.
Defined.

(** ** The type of a file *)

(** [X13] The Content-Type [guess_type] gives is never empty: a compressed
    file ([.gz], whatever the case of its letters) is
    [application/gzip] whatever the system's MIME table says, and a path
    the tables do not know is [application/octet-stream]. *)
Theorem guess_type_cases L p :
  SimpleHTTPRequestHandler.guess_type L p <> ""
  /\ (Py.lower (splitext_ext L p) = ".gz" ->
      SimpleHTTPRequestHandler.guess_type L p = "application/gzip")
  /\ (SimpleHTTPRequestHandler.extensions_map (splitext_ext L p) = None ->
      SimpleHTTPRequestHandler.extensions_map (Py.lower (splitext_ext L p))
      = None ->
      mimetypes_guess_type L p = None \/ mimetypes_guess_type L p = Some "" ->
      SimpleHTTPRequestHandler.guess_type L p = "application/octet-stream").
Proof.
  assert (Hmap : forall ext t,
             SimpleHTTPRequestHandler.extensions_map ext = Some t ->
             t <> "" /\ (Py.lower ext = ".gz" -> t = "application/gzip")).
  { intros ext t. unfold SimpleHTTPRequestHandler.extensions_map.
    destruct (String.eqb_spec ext ".gz") as [-> | _].
    { intros [= <-]. split; [discriminate | reflexivity]. }
    destruct (String.eqb_spec ext ".Z") as [-> | _].
    { intros [= <-]. split; [discriminate | intros H; discriminate H]. }
    destruct (String.eqb_spec ext ".bz2") as [-> | _].
    { intros [= <-]. split; [discriminate | intros H; discriminate H]. }
    destruct (String.eqb_spec ext ".xz") as [-> | _].
    { intros [= <-]. split; [discriminate | intros H; discriminate H]. }
    discriminate. }
  unfold SimpleHTTPRequestHandler.guess_type.
  destruct (SimpleHTTPRequestHandler.extensions_map (splitext_ext L p))
    as [t |] eqn:E1.
  { destruct (Hmap _ _ E1) as (Hne & Hgz).
    split; [exact Hne |]. split; [exact Hgz |]. intros H; discriminate H. }
  destruct (SimpleHTTPRequestHandler.extensions_map
              (Py.lower (splitext_ext L p))) as [t |] eqn:E2.
  { destruct (Hmap _ _ E2) as (Hne & _).
    split; [exact Hne |]. split; [| intros _ H; discriminate H].
    intros Hgz. rewrite Hgz in E2. cbn in E2. congruence. }
  split; [| split].
  - destruct (mimetypes_guess_type L p) as [g |]; [| discriminate].
    destruct (String.eqb_spec g ""); [discriminate | assumption].
  - intros Hgz. rewrite Hgz in E2. cbn in E2. discriminate E2.
  - intros _ _ [-> | ->]; reflexivity.
Qed.


(** ** Request lines *)

Lemma tuple_below_2 major minor :
  Handler.tuple_ge (major, minor) (2, 0)%Z = false
  <-> (major < 2 \/ (major = 2 /\ minor < 0))%Z.
Proof.
  unfold Handler.tuple_ge. cbn [fst snd].
  destruct (Z.ltb_spec 2 major), (Z.eqb_spec major 2), (Z.leb_spec 0 minor);
    cbn [orb andb]; split; intros Hx; try discriminate Hx; try reflexivity;
    lia.
Qed.

Lemma parse_headers_read q c p v close :
  forall hs, header_block q = HeadersRead hs ->
  exists close' k,
    Handler.parse_headers q c p v close
    = Handler.Parsed
        {| command := c; path := Handler.single_slash p;
           request_version := v; headers := hs |} close' k.
Proof.
  intros hs Hh. unfold Handler.parse_headers. rewrite Hh. cbv zeta.
  do 2 eexists. reflexivity.
Qed.

Lemma parse_headers_parsed q c p v close r close' k :
  Handler.parse_headers q c p v close = Handler.Parsed r close' k ->
  exists hs,
    header_block q = HeadersRead hs
    /\ r = {| command := c; path := Handler.single_slash p;
              request_version := v; headers := hs |}.
Proof.
  unfold Handler.parse_headers. cbv zeta.
  destruct (header_block q) as [hs | err | err]; try discriminate.
  intros H. injection H as <- _ _. exists hs. split; reflexivity.
Qed.

(** [X15] [parse_request] accepts a request line of at most 65536 bytes,
    followed by headers that can be read, in two cases only: the line has
    the two words [GET] and a path, and the request is then an HTTP/0.9
    one; or it has three words of which the last is a version
    [HTTP/major.minor] below 2.0, and that word is the request's version,
    whatever the method.  In both cases a path that starts with two
    slashes is reduced to one. *)
Theorem accepted_requests L q r :
  Handler.accepts L q r
  <-> (Py.len (raw_requestline q) <= 65536)%Z
      /\ exists hs,
           header_block q = HeadersRead hs
           /\ let words := Py.split (Py.rstrip_crlf (raw_requestline q)) in
              ((exists p,
                  words = ["GET"; p]
                  /\ r = {| command := "GET";
                            path := Handler.single_slash p;
                            request_version := "HTTP/0.9";
                            headers := hs |})
               \/ (exists c p v base major minor,
                     words = [c; p; v]
                     /\ Handler.version_number L v
                        = Some (base, (major, minor))
                     /\ (major < 2 \/ (major = 2 /\ minor < 0))%Z
                     /\ r = {| command := c;
                               path := Handler.single_slash p;
                               request_version := v;
                               headers := hs |})).
Proof.
  unfold Handler.accepts. rewrite Z.leb_le. split.
  - intros (Hlen & close & k & Hp). split; [exact Hlen |].
    revert Hp. unfold Handler.parse_request. cbv zeta.
    destruct (Py.split _) as [| w1 [| w2 [| w3 [| w4 ws]]]];
      try discriminate.
    + cbn [length Nat.leb].
      destruct (String.eqb_spec w1 "GET") as [-> | _]; [| discriminate].
      cbn [negb]. intros Hp.
      destruct (parse_headers_parsed _ _ _ _ _ _ _ _ Hp) as (hs & Hh & ->).
      exists hs. split; [exact Hh |]. left. exists w2. split; reflexivity.
    + cbn [length Nat.leb last].
      destruct (Handler.version_number L w3) as [[base [major minor]] |]
        eqn:Hv; [| discriminate].
      destruct (Handler.tuple_ge (major, minor) (2, 0)%Z) eqn:Hge;
        [discriminate |].
      intros Hp.
      destruct (parse_headers_parsed _ _ _ _ _ _ _ _ Hp) as (hs & Hh & ->).
      exists hs. split; [exact Hh |]. right.
      exists w1, w2, w3, base, major, minor.
      split; [reflexivity |]. split; [exact Hv |].
      split; [apply tuple_below_2; exact Hge | reflexivity].
    + cbn [length Nat.leb].
      destruct (Handler.version_number L _) as [[b n] |];
        [| discriminate].
      destruct (Handler.tuple_ge n (2, 0)%Z); discriminate.
  - intros (Hlen & hs & Hh & Hw). split; [exact Hlen |].
    unfold Handler.parse_request. cbv zeta in Hw |- *.
    destruct Hw as [(p & -> & ->)
                   | (c & p & v & base & major & minor & -> & Hv & Hlt & ->)].
    + cbn [length Nat.leb String.eqb Ascii.eqb Bool.eqb negb].
      apply (parse_headers_read q "GET" p "HTTP/0.9" true hs Hh).
    + cbn [length Nat.leb last]. rewrite Hv.
      apply tuple_below_2 in Hlt. rewrite Hlt.
      apply (parse_headers_read q c p v _ hs Hh).
Qed.

(** An error sent while the version is still HTTP/0.9: the page and
    nothing else. *)
Lemma send_error_bare L cls r code m e h :
  BaseHTTPRequestHandler.sends_headers r = false ->
  command r <> "HEAD" ->
  ((200 <=? code)%Z
   && negb ((code =? 204)%Z || (code =? 205)%Z || (code =? 304)%Z))%bool
  = true ->
  exists message explain,
    message = match m with
              | Some x => x
              | None => match responses code with
                        | Some (short, _) => short
                        | None => "???"
                        end
              end
    /\ explain = match e with
                 | Some x => x
                 | None => match responses code with
                           | Some (_, long) => long
                           | None => "???"
                           end
                 end
    /\ wfile (Handler.send_error L cls r code m e h)
       = wfile h
         ++ (if String.eqb (error_page L code message explain) "" then []
             else [Data (error_page L code message explain)]).
Proof.
  intros H9 Hc Hb. do 2 eexists. split; [reflexivity |].
  split; [reflexivity |].
  unfold Handler.send_error, BaseHTTPRequestHandler.send_error.
  destruct (responses code) as [[short long] |]; cbv zeta; rewrite Hb;
    (destruct (String.eqb_spec (command r) "HEAD") as [E | _];
     [contradiction |]); cbn [negb andb];
    match goal with
    | |- context [if negb ?b then _ else _] => destruct b
    end; cbn [negb]; rewrite ?wfile_write;
    rewrite (end_headers_09 cls r _ H9), !wfile_send_header_any,
      wfile_send_response_any, ?app_nil_r; reflexivity.
Qed.

Lemma append_empty_r' (s : string) : (s ++ "")%string = s.
Proof. induction s as [| c s IH]; [reflexivity |]. cbn. f_equal. exact IH. Qed.

Lemma body_data_only c :
  body (if String.eqb c "" then [] else [Data c]) = c.
Proof.
  destruct (String.eqb_spec c "") as [-> | _]; [reflexivity |].
  unfold body. cbn. induction c as [| a c IH]; [reflexivity |].
  cbn. f_equal. exact IH.
Qed.

(** [X16] A request line in which the last of three or more words is a
    version 2.0 or higher is refused with the page of error 505, and one
    whose words are a method other than GET and a path, with the page of
    error 400; in both cases the page is all that is written: no status
    line and no header, the three Access-Control fields included, because
    the error is sent while the request's version is still the default
    HTTP/0.9.  A request line of more than 65536 bytes is refused with
    [414 Request-URI Too Long], and that answer has its status line and
    the three fields. *)
Theorem refused_request_lines L F directory q :
  let w := Handler.respond L F directory Dispatch.CORSHandler q in
  let words := Py.split (Py.rstrip_crlf (raw_requestline q)) in
  ((Py.len (raw_requestline q) <= 65536)%Z ->
   (forall base number,
      (3 <= length words)%nat ->
      Handler.version_number L (last words "") = Some (base, number) ->
      Handler.tuple_ge number (2, 0)%Z = true ->
      status_codes w = []
      /\ header_fields w = []
      /\ body w = error_page L 505
                    ("Invalid HTTP version (" ++ base ++ ")")
                    "Cannot fulfill request")
   /\ (forall c p,
         words = [c; p] ->
         c <> "GET" ->
         status_codes w = []
         /\ header_fields w = []
         /\ body w = error_page L 400
                       ("Bad HTTP/0.9 request type (" ++ repr L c ++ ")")
                       "Bad request syntax or unsupported method"))
  /\ ((65536 < Py.len (raw_requestline q))%Z ->
      status_codes w = [414%Z]
      /\ filter is_cors_field (header_fields w)
         = [("Access-Control-Allow-Origin", "*");
            ("Access-Control-Allow-Methods", "GET, POST, OPTIONS");
            ("Access-Control-Allow-Headers", "Content-Type")]
      /\ body w = error_page L 414 "Request-URI Too Long" "URI is too long").
Proof.
  intros w words.
  assert (Hbare : forall code m,
             ((200 <=? code)%Z
              && negb ((code =? 204)%Z || (code =? 205)%Z || (code =? 304)%Z))%bool
             = true ->
             (Py.len (raw_requestline q) <= 65536)%Z ->
             words <> [] ->
             Handler.parse_request L q
             = Handler.Refused
                 (Handler.unparsed Handler.default_request_version)
                 code m None ->
             forall long, (exists short, responses code = Some (short, long)) ->
             status_codes w = []
             /\ header_fields w = []
             /\ body w = error_page L code m long).
  { intros code m Hb Hlen Hne Hp long (short & Hresp). subst w.
    unfold Handler.respond, Handler.handle_one_request.
    replace (65536 <? Py.len (raw_requestline q))%Z with false
      by (symmetry; apply Z.ltb_ge; exact Hlen).
    destruct (String.eqb_spec (raw_requestline q) "") as [E | _].
    { exfalso. apply Hne. subst words. rewrite E. reflexivity. }
    rewrite Hp.
    destruct (send_error_bare L Dispatch.CORSHandler
                (Handler.unparsed Handler.default_request_version)
                code (Some m) None (set_close_connection fresh true)
                eq_refl) as (message & explain & -> & -> & E);
      [discriminate | exact Hb |].
    rewrite E, Hresp. cbn [wfile set_close_connection fresh app].
    rewrite body_data_only.
    destruct (String.eqb (error_page L code m long) ""); repeat split. }
  split.
  - intros Hlen. split.
    + intros base number H3 Hv Hge.
      apply (Hbare 505%Z _ eq_refl Hlen).
      * intros E. rewrite E in H3. cbn in H3. lia.
      * unfold Handler.parse_request. cbv zeta. fold words.
        destruct words as [| w1 [| w2 [| w3 ws]]]; cbn in H3; try lia.
        replace (3 <=? length (w1 :: w2 :: w3 :: ws))%nat with true
          by reflexivity.
        rewrite Hv, Hge. reflexivity.
      * eexists. reflexivity.
    + intros c p Hw Hc.
      apply (Hbare 400%Z _ eq_refl Hlen).
      * rewrite Hw. discriminate.
      * unfold Handler.parse_request. cbv zeta. fold words. rewrite Hw.
        cbn [length Nat.leb].
        destruct (String.eqb_spec c "GET") as [E | _]; [contradiction |].
        reflexivity.
      * eexists. reflexivity.
  - intros Hlen. subst w.
    unfold Handler.respond, Handler.handle_one_request.
    replace (65536 <? Py.len (raw_requestline q))%Z with true
      by (symmetry; apply Z.ltb_lt; exact Hlen).
    unfold Handler.send_error. cbn [Dispatch.end_headers].
    change (BaseHTTPRequestHandler.send_error L (Handler.unparsed "")
              (CORSHTTPRequestHandler.end_headers (Handler.unparsed ""))
              414 None None fresh)
      with (BaseHTTPRequestHandler.send_error L (Handler.unparsed "")
              (CORSHTTPRequestHandler.end_headers (Handler.unparsed ""))
              414 (Some "Request-URI Too Long") None fresh).
    rewrite (send_error_cors_wfile L (Handler.unparsed "") 414
               "Request-URI Too Long" fresh eq_refl eq_refl).
    cbn [wfile _headers_buffer fresh app command Handler.unparsed
         String.eqb negb andb].
    change (More.error_page_of L 414 "Request-URI Too Long")
      with (error_page L 414 "Request-URI Too Long" "URI is too long").
    destruct (String.eqb_spec
                (error_page L 414 "Request-URI Too Long" "URI is too long")
                "") as [E | _]; cbn [negb].
    + rewrite E. repeat split.
    + split; [reflexivity |]. split; [reflexivity |].
      unfold body. cbn [fold_right bytes_of]. apply append_empty_r'.
Qed.

Lemma refused_request_lines_witness :
  let q := Example.get_page_http2 in
  let w := Handler.respond Example.lib0 Example.fs0 "/srv/scratch"
             Dispatch.CORSHandler q in
  Py.split (Py.rstrip_crlf (raw_requestline q))
  = ["GET"; "/test/texture-system-test.html"; "HTTP/2.0"]
  /\ Handler.version_number Example.lib0 "HTTP/2.0"
     = Some ("2.0", (2, 0)%Z)
  /\ header_fields w = []
  /\ body w
     = "<p>Error code: 505</p><p>Message: Invalid HTTP version (2.0).</p><p>Cannot fulfill request.</p>".
Proof.
  intros q w. split; [reflexivity |]. split; [reflexivity |].
  assert (Hlen : (Py.len (raw_requestline q) <= 65536)%Z)
    by (vm_compute; discriminate).
  assert (H3 : (3 <= length (Py.split (Py.rstrip_crlf (raw_requestline q))))%nat)
    by (vm_compute; lia).
  destruct (proj1 (proj1 (refused_request_lines Example.lib0 Example.fs0
                            "/srv/scratch" q) Hlen)
              "2.0" (2, 0)%Z H3 eq_refl eq_refl) as (_ & Hf & Hb).
  split; [exact Hf | exact Hb].
Defined.

(** ** One request for each connection *)

Lemma close_send_header r k v h :
  String.eqb (Py.lower k) "connection" = false ->
  close_connection (BaseHTTPRequestHandler.send_header r k v h)
  = close_connection h.
Proof.
  intros Hk. unfold BaseHTTPRequestHandler.send_header. rewrite Hk.
  destruct (BaseHTTPRequestHandler.sends_headers r); reflexivity.
Qed.

Lemma close_send_response L r code m h :
  close_connection (BaseHTTPRequestHandler.send_response L r code m h)
  = close_connection h.
Proof.
  unfold BaseHTTPRequestHandler.send_response.
  rewrite !close_send_header by reflexivity.
  unfold BaseHTTPRequestHandler.send_response_only.
  destruct (BaseHTTPRequestHandler.sends_headers r); reflexivity.
Qed.

Lemma close_end_headers cls r h :
  close_connection (Dispatch.end_headers cls r h) = close_connection h.
Proof.
  destruct cls; cbn [Dispatch.end_headers];
    unfold CORSHTTPRequestHandler.end_headers,
      BaseHTTPRequestHandler.end_headers;
    destruct (BaseHTTPRequestHandler.sends_headers r); cbn;
    rewrite ?close_send_header by reflexivity; reflexivity.
Qed.

(** The response methods do not reopen a connection that is to be closed. *)
Section Closes.
Variable L : library.
Variable F : filesystem.
Variable directory : string.
Variable r : request.
Variable eh : handler -> handler.
Hypothesis Heh : forall h, close_connection (eh h) = close_connection h.

(** [send_error] announces [Connection: close] and closes. *)
Lemma send_error_closes code m e h :
  close_connection (BaseHTTPRequestHandler.send_error L r eh code m e h)
  = true.
Proof.
  unfold BaseHTTPRequestHandler.send_error.
  destruct (match responses code with Some p => p | None => _ end)
    as [shortmsg longmsg].
  cbv zeta.
  assert (Hc : forall x,
             close_connection
               (BaseHTTPRequestHandler.send_header r "Connection" "close" x)
             = true).
  { intros x. unfold BaseHTTPRequestHandler.send_header.
    destruct (BaseHTTPRequestHandler.sends_headers r); reflexivity. }
  destruct ((200 <=? code)%Z
            && negb ((code =? 204)%Z || (code =? 205)%Z || (code =? 304)%Z))%bool;
    match goal with
    | |- context [if ?c then write _ _ else _] => destruct c
    end;
    cbn [close_connection write]; rewrite Heh;
    rewrite ?close_send_header by reflexivity; apply Hc.
Qed.

Lemma list_directory_closes p h :
  close_connection h = true ->
  close_connection
    (fst (SimpleHTTPRequestHandler.list_directory L F r eh p h)) = true.
Proof.
  intros H. unfold SimpleHTTPRequestHandler.list_directory.
  destruct (listdir F p) as [entries |]; cbn [fst].
  - rewrite Heh, !close_send_header by reflexivity.
    rewrite close_send_response. exact H.
  - apply send_error_closes.
Qed.

Lemma send_head_path_closes p h :
  close_connection h = true ->
  close_connection
    (fst (SimpleHTTPRequestHandler.send_head_path L F r eh p h)) = true.
Proof.
  intros H. unfold SimpleHTTPRequestHandler.send_head_path. cbv zeta.
  destruct (Py.endswith p "/"); [apply send_error_closes |].
  destruct (open_rb F p) as [file |].
  2:{ destruct (open_raises F p); [exact H | apply send_error_closes]. }
  destruct (SimpleHTTPRequestHandler.not_modified L r file); cbn [fst];
    rewrite Heh, ?close_send_header by reflexivity;
    rewrite close_send_response; exact H.
Qed.

Lemma send_head_closes h :
  close_connection h = true ->
  close_connection
    (fst (SimpleHTTPRequestHandler.send_head L F directory r eh h)) = true.
Proof.
  intros H. unfold SimpleHTTPRequestHandler.send_head. cbv zeta.
  destruct (isdir F _); [| apply (send_head_path_closes _ _ H)].
  destruct (negb _).
  - cbn [fst]. rewrite Heh, !close_send_header by reflexivity.
    rewrite close_send_response. exact H.
  - destruct (isfile F _); [apply (send_head_path_closes _ _ H) |].
    destruct (isfile F _); [apply (send_head_path_closes _ _ H) |].
    apply (list_directory_closes _ _ H).
Qed.

Lemma do_HEAD_closes h :
  close_connection h = true ->
  close_connection (SimpleHTTPRequestHandler.do_HEAD L F directory r eh h)
  = true.
Proof. apply send_head_closes. Qed.

Lemma do_GET_closes h :
  close_connection h = true ->
  close_connection (SimpleHTTPRequestHandler.do_GET L F directory r eh h)
  = true.
Proof.
  intros H. unfold SimpleHTTPRequestHandler.do_GET.
  pose proof (send_head_closes h H) as Hk.
  destruct (SimpleHTTPRequestHandler.send_head L F directory r eh h)
    as [h' [c |]]; cbn [fst] in Hk; [| exact Hk].
  unfold SimpleHTTPRequestHandler.copyfile.
  destruct (String.eqb c ""); exact Hk.
Qed.

End Closes.

Lemma dispatch_closes L F directory cls r h :
  close_connection h = true ->
  close_connection (Dispatch.dispatch L F directory cls r h) = true.
Proof.
  intros H. unfold Dispatch.dispatch, Dispatch.getattr.
  destruct (String.eqb _ "do_GET").
  { apply (do_GET_closes L F directory r _ (close_end_headers cls r) h H). }
  destruct (String.eqb _ "do_HEAD").
  { apply (do_HEAD_closes L F directory r _ (close_end_headers cls r) h H). }
  destruct (String.eqb _ "do_OPTIONS"); [destruct cls |].
  - apply (send_error_closes L r _ (close_end_headers _ r)).
  - unfold CORSHTTPRequestHandler.do_OPTIONS.
    rewrite (close_end_headers Dispatch.CORSHandler r), close_send_response.
    exact H.
  - apply (send_error_closes L r _ (close_end_headers cls r)).
Qed.

(** [X17] Whatever the request, its version and its [Connection] header,
    [close_connection] is true when [handle_one_request] is done: the
    server's protocol version is HTTP/1.0, so none of the ways to keep the
    connection open applies, and the loop of [handle] handles one request
    for each connection. *)
Theorem one_request_per_connection L F directory cls q :
  close_connection (Handler.handle_one_request L F directory cls q fresh)
  = true.
Proof.
  unfold Handler.handle_one_request.
  destruct (65536 <? Py.len (raw_requestline q))%Z.
  { apply (send_error_closes L _ _ (close_end_headers cls _)). }
  destruct (String.eqb (raw_requestline q) ""); [reflexivity |].
  destruct (Handler.parse_request L q) as [r close k | r code m e |] eqn:Hp.
  - destruct (parse_closes L q r close k Hp) as (-> & ->).
    apply dispatch_closes. reflexivity.
  - apply (send_error_closes L _ _ (close_end_headers cls _)).
  - reflexivity.
Qed.

(** ** The process *)

Import Proc.

Lemma advance_advance p s t s' t' :
  Spec.advance (Spec.advance p s t) s' t' = Spec.advance p s' (t ++ t').
Proof.
  unfold Spec.advance. cbn. rewrite app_assoc. reflexivity.
Qed.

Lemma advance_nothing p : Spec.advance p (socket p) [] = p.
Proof.
  destruct p. unfold Spec.advance. cbn. rewrite app_nil_r. reflexivity.
Qed.

Lemma do_action_step a p :
  do_action a p = (Return tt, Spec.advance p (socket p) [a]).
Proof. reflexivity. Qed.

Lemma set_socket_step s p :
  set_socket s p = (Return tt, Spec.advance p s []).
Proof.
  unfold set_socket, Spec.advance. rewrite app_nil_r. reflexivity.
Qed.

Section Serving.
Variable env : environment.

Lemma process_request_step q p :
  process_request env q p
  = (Return tt,
     Spec.advance p (socket p) (Spec.action_of env (cwd p) (Connection q))).
Proof.
  unfold process_request, bind, get_cwd. rewrite do_action_step.
  cbn [cwd Spec.advance Spec.action_of].
  destruct (Handler.raises _ _ _ _ q).
  - rewrite do_action_step, advance_advance. reflexivity.
  - reflexivity.
Qed.

(** Benign events are absorbed one by one: each adds its actions and the
    loop goes on in the same directory with the same socket. *)
Lemma serve_benign pre evs :
  forallb benign pre = true ->
  forall p,
    serve_forever env (pre ++ evs) p
    = serve_forever env evs
        (Spec.advance p (socket p) (Spec.actions_of env (cwd p) pre)).
Proof.
  induction pre as [| ev pre IH]; intros Hb p.
  - cbn. rewrite advance_nothing. reflexivity.
  - cbn [forallb] in Hb. apply andb_true_iff in Hb as [Hev Hpre].
    specialize (IH Hpre).
    destruct ev; try discriminate Hev; cbn [app serve_forever].
    + unfold bind at 1. rewrite process_request_step, IH.
      cbn [socket cwd]. rewrite advance_advance. reflexivity.
    + unfold bind at 1. rewrite do_action_step, IH.
      cbn [socket cwd]. rewrite advance_advance. reflexivity.
    + apply IH.
    + apply IH.
Qed.

Lemma serve_all_benign evs p :
  forallb benign evs = true ->
  serve_forever env evs p
  = (Blocked, Spec.advance p (socket p) (Spec.actions_of env (cwd p) evs)).
Proof.
  intros Hb. rewrite <- (app_nil_r evs) at 1.
  rewrite (serve_benign evs [] Hb). reflexivity.
Qed.

Lemma serve_interrupted evs pre p :
  Spec.first_ending evs pre SIGINT ->
  serve_forever env evs p
  = (Raise KeyboardInterrupt,
     Spec.advance p (socket p) (Spec.actions_of env (cwd p) pre)).
Proof.
  intros (Hb & rest & ->). rewrite (serve_benign pre _ Hb). reflexivity.
Qed.

Lemma serve_failed evs pre e p :
  Spec.first_ending evs pre (SelectFailed e) ->
  serve_forever env evs p
  = (Raise (OSError e),
     Spec.advance p (socket p) (Spec.actions_of env (cwd p) pre)).
Proof.
  intros (Hb & rest & ->). rewrite (serve_benign pre _ Hb). reflexivity.
Qed.

(** A list of events is all benign, or has a first interrupt, or a first
    failure of [select]. *)
Lemma events_cases (evs : list event) :
  forallb benign evs = true
  \/ (exists pre, Spec.first_ending evs pre SIGINT)
  \/ (exists pre e, Spec.first_ending evs pre (SelectFailed e)).
Proof.
  induction evs as [| ev evs IH]; [left; reflexivity |].
  destruct (benign ev) eqn:Hev.
  - destruct IH as [Hb | [(pre & Hb & rest & ->) | (pre & e & Hb & rest & ->)]].
    + left. cbn. rewrite Hev. exact Hb.
    + right; left. exists (ev :: pre). split.
      * cbn. rewrite Hev. exact Hb.
      * exists rest. reflexivity.
    + right; right. exists (ev :: pre), e. split.
      * cbn. rewrite Hev. exact Hb.
      * exists rest. reflexivity.
  - destruct ev; try discriminate Hev.
    + right; left. exists []. split; [reflexivity |]. exists evs. reflexivity.
    + right; right. exists [], e. split; [reflexivity |].
      exists evs. reflexivity.
Qed.

End Serving.

(** *** [main], case by case *)

Lemma errno_is_48_iff e : errno_is_48 e = true <-> errno e = Some 48%Z.
Proof.
  unfold errno_is_48. destruct (errno e) as [n |].
  - rewrite Z.eqb_eq. split; [intros -> | intros [= ->]]; reflexivity.
  - split; discriminate.
Qed.

(** The lines printed for an [OSError], by the value of its [errno]. *)
Lemma oserror_lines_cases e :
  (errno e = Some 48%Z ->
   Spec.oserror_lines e = ["❌ Port 8080 is already in use";
                           "   Try: lsof -ti:8080 | xargs kill"])
  /\ (errno e <> Some 48%Z ->
      Spec.oserror_lines e = [("❌ Server error: " ++ str e)%string]).
Proof.
  unfold Spec.oserror_lines. split.
  - intros ->. reflexivity.
  - intros H. destruct (errno e) as [n |]; [| reflexivity].
    destruct n as [| p | p]; try reflexivity.
    do 6 (destruct p as [p | p |]; try reflexivity).
    contradiction H. reflexivity.
Qed.

Section Main.
Variable env : environment.

Lemma print_step line p :
  print line p = (Return tt, Spec.advance p (socket p) [PrintLine line]).
Proof. reflexivity. Qed.

Lemma except_OSError_step e p :
  except_OSError e p
  = (Return tt,
     Spec.advance p (socket p) (map PrintLine (Spec.oserror_lines e))).
Proof.
  unfold except_OSError. destruct (oserror_lines_cases e) as (H48 & Hother).
  destruct (errno_is_48 e) eqn:E.
  - apply errno_is_48_iff in E. rewrite (H48 E).
    unfold bind. rewrite print_step, print_step, advance_advance. reflexivity.
  - rewrite Hother; [reflexivity |].
    intros H. apply errno_is_48_iff in H. congruence.
Qed.

Lemma server_close_step p :
  server_close p = (Return tt, Spec.advance p Closed [SocketClose]).
Proof.
  unfold server_close, bind. rewrite set_socket_step, do_action_step.
  rewrite advance_advance. reflexivity.
Qed.

(** The script's directory cannot be resolved: [main] raises at once. *)
Lemma main_unresolved e :
  abspath_file env = inr e ->
  main env (start env) = (Raise (OSError e), start env).
Proof.
  intros Ha. unfold main, bind, abspath_of_file. rewrite Ha. reflexivity.
Qed.

(** The directory cannot be entered: [main] raises at once. *)
Lemma main_not_entered file e :
  abspath_file env = inl file ->
  chdir_error env (Py.dirname file) = Some e ->
  main env (start env) = (Raise (OSError e), start env).
Proof.
  intros Ha Hc. unfold main, abspath_of_file. rewrite Ha.
  unfold bind at 1. unfold ret. unfold bind at 1. unfold chdir.
  rewrite Hc. reflexivity.
Qed.

(** The directory is entered: the banner is printed and the [try]
    statement runs. *)
Lemma main_entered d :
  Spec.enters env d ->
  main env (start env) = main_try env (Spec.after_banner env d).
Proof.
  intros (file & Ha & -> & Hc). unfold main, abspath_of_file. rewrite Ha.
  unfold bind at 1. unfold ret. unfold bind at 1. unfold chdir.
  rewrite Hc. reflexivity.
Qed.

Lemma try_socket_error e p :
  socket_error env = Some e ->
  main_try env p
  = (Return tt,
     Spec.advance p (socket p) (map PrintLine (Spec.oserror_lines e))).
Proof.
  intros Hs. unfold main_try, try_except, with_server, TCPServer.
  rewrite Hs. unfold bind at 1. unfold raise.
  apply except_OSError_step.
Qed.

Lemma try_bind_error e p :
  socket_error env = None ->
  bind_error env "" port = Some e ->
  main_try env p
  = (Return tt,
     Spec.advance p Closed
       ([SocketCreate; SocketClose]
        ++ map PrintLine (Spec.oserror_lines e))).
Proof.
  intros Hs Hb. unfold main_try, with_server, TCPServer.
  rewrite Hs. unfold server_bind. rewrite Hb.
  unfold try_except at 1. unfold bind at 1. unfold bind at 1.
  unfold bind at 1. rewrite set_socket_step, do_action_step.
  unfold try_except at 1. unfold bind at 1. unfold raise at 1.
  unfold bind at 1. rewrite server_close_step. unfold raise.
  rewrite except_OSError_step. rewrite !advance_advance. reflexivity.
Qed.

Lemma try_listen_error e p :
  socket_error env = None ->
  bind_error env "" port = None ->
  listen_error env = Some e ->
  main_try env p
  = (Return tt,
     Spec.advance p Closed
       ([SocketCreate; Bind "" port; SocketClose]
        ++ map PrintLine (Spec.oserror_lines e))).
Proof.
  intros Hs Hb Hl. unfold main_try, with_server, TCPServer.
  rewrite Hs. unfold server_bind, server_activate. rewrite Hb, Hl.
  unfold try_except at 1. unfold bind at 1. unfold bind at 1.
  unfold bind at 1. rewrite set_socket_step, do_action_step.
  unfold try_except at 1. unfold bind at 1. unfold bind at 1.
  rewrite set_socket_step, do_action_step. unfold raise at 1.
  unfold bind at 1. rewrite server_close_step. unfold raise.
  rewrite except_OSError_step. rewrite !advance_advance. reflexivity.
Qed.

Lemma TCPServer_listens p :
  Spec.listens env ->
  TCPServer env "" port p
  = (Return tt, Spec.advance p (Listening "" port) Spec.listening_actions).
Proof.
  intros (Hs & Hb & Hl). unfold TCPServer, server_bind, server_activate.
  rewrite Hs, Hb, Hl.
  unfold bind at 1. rewrite set_socket_step.
  unfold bind at 1. rewrite do_action_step.
  unfold try_except. unfold bind at 1. unfold bind at 1.
  rewrite set_socket_step, do_action_step.
  unfold bind at 1. rewrite set_socket_step, do_action_step.
  rewrite !advance_advance. reflexivity.
Qed.

Lemma try_serving p :
  Spec.listens env ->
  forallb benign (events env) = true ->
  main_try env p
  = (Blocked,
     Spec.advance p (Listening "" port)
       (Spec.listening_actions ++ Spec.actions_of env (cwd p) (events env))).
Proof.
  intros Hl Hb. unfold main_try, try_except, with_server.
  unfold bind at 1. rewrite (TCPServer_listens p Hl).
  rewrite (serve_all_benign env _ _ Hb).
  cbn [socket cwd]. rewrite advance_advance. reflexivity.
Qed.

Lemma try_interrupted pre p :
  Spec.listens env ->
  Spec.first_ending (events env) pre SIGINT ->
  main_try env p
  = (Return tt,
     Spec.advance p Closed
       (Spec.listening_actions ++ Spec.actions_of env (cwd p) pre
        ++ [SocketClose; PrintLine Spec.stopped_line])).
Proof.
  intros Hl Hb. unfold main_try, try_except, with_server.
  unfold bind at 1. rewrite (TCPServer_listens p Hl).
  rewrite (serve_interrupted env _ _ _ Hb).
  unfold bind at 1. rewrite server_close_step. unfold raise.
  rewrite print_step. cbn [socket cwd]. rewrite !advance_advance.
  rewrite <- ?app_assoc. reflexivity.
Qed.

Lemma try_select_failed pre e p :
  Spec.listens env ->
  Spec.first_ending (events env) pre (SelectFailed e) ->
  main_try env p
  = (Return tt,
     Spec.advance p Closed
       (Spec.listening_actions ++ Spec.actions_of env (cwd p) pre
        ++ [SocketClose] ++ map PrintLine (Spec.oserror_lines e))).
Proof.
  intros Hl Hb. unfold main_try, try_except, with_server.
  unfold bind at 1. rewrite (TCPServer_listens p Hl).
  rewrite (serve_failed env _ _ _ _ Hb).
  unfold bind at 1. rewrite server_close_step. unfold raise.
  rewrite except_OSError_step. cbn [socket cwd]. rewrite !advance_advance.
  rewrite <- ?app_assoc. reflexivity.
Qed.

End Main.

(** *** What a run printed and served *)

Lemma stdout_advance p s t :
  stdout (Spec.advance p s t) = stdout p ++ flat_map printed t.
Proof. unfold stdout. cbn [trace Spec.advance]. apply flat_map_app. Qed.

Lemma served_advance p s t :
  served (Spec.advance p s t) = served p ++ flat_map answered t.
Proof. unfold served. cbn [trace Spec.advance]. apply flat_map_app. Qed.

Lemma printed_lines ls : flat_map printed (map PrintLine ls) = ls.
Proof.
  induction ls as [| l ls IH]; [reflexivity |]. cbn. f_equal. exact IH.
Qed.

Lemma answered_lines ls : flat_map answered (map PrintLine ls) = [].
Proof. induction ls as [| l ls IH]; [reflexivity | exact IH]. Qed.

Lemma printed_actions_of env d evs :
  flat_map printed (Spec.actions_of env d evs) = [].
Proof.
  induction evs as [| ev evs IH]; [reflexivity |].
  unfold Spec.actions_of. cbn [flat_map]. rewrite flat_map_app.
  fold (Spec.actions_of env d evs). rewrite IH.
  destruct ev; try reflexivity.
  cbn [Spec.action_of]. destruct (Handler.raises _ _ _ _ q); reflexivity.
Qed.

Lemma answered_actions_of env d evs :
  flat_map answered (Spec.actions_of env d evs) = Spec.answers env d evs.
Proof.
  induction evs as [| ev evs IH]; [reflexivity |].
  unfold Spec.actions_of, Spec.answers. cbn [flat_map].
  rewrite flat_map_app.
  fold (Spec.actions_of env d evs). fold (Spec.answers env d evs).
  rewrite IH. destruct ev; try reflexivity.
  cbn [Spec.action_of]. destruct (Handler.raises _ _ _ _ q); reflexivity.
Qed.

Lemma served_after_banner env d : served (Spec.after_banner env d) = [].
Proof. reflexivity. Qed.

(** The run, from what [main] gives. *)
Lemma run_of_main env res p :
  main env (start env) = (res, p) ->
  run env
  = match res with
    | Return _ => (p, Some 0%Z)
    | Raise e => (Spec.advance p (socket p) [Traceback e], Some 1%Z)
    | Blocked => (p, None)
    end.
Proof.
  intros E. unfold run. rewrite E. destruct res; reflexivity.
Qed.

(** An [OSError] raised while creating the server or serving is caught:
    its lines are printed after the banner and [main] returns. *)
Lemma run_oserror env d e :
  Spec.enters env d ->
  Spec.raises_oserror env e ->
  exit_status env = Some 0%Z
  /\ stdout (final env)
     = Spec.banner (getcwd_after env d) ++ Spec.oserror_lines e
  /\ socket (final env) <> Listening "" port.
Proof.
  intros Hd Hr. unfold exit_status, final.
  pose proof (main_entered env d Hd) as Em.
  destruct Hr as [Hs | [(Hs & Hb) | [(Hs & Hb & Hl) | (Hl & pre & Hp)]]].
  - rewrite (try_socket_error env e _ Hs) in Em.
    rewrite (run_of_main env _ _ Em). cbn [fst snd].
    rewrite stdout_advance, printed_lines. repeat split. discriminate.
  - rewrite (try_bind_error env e _ Hs Hb) in Em.
    rewrite (run_of_main env _ _ Em). cbn [fst snd].
    rewrite stdout_advance, flat_map_app, printed_lines.
    repeat split. discriminate.
  - rewrite (try_listen_error env e _ Hs Hb Hl) in Em.
    rewrite (run_of_main env _ _ Em). cbn [fst snd].
    rewrite stdout_advance, flat_map_app, printed_lines.
    repeat split. discriminate.
  - rewrite (try_select_failed env pre e _ Hl Hp) in Em.
    rewrite (run_of_main env _ _ Em). cbn [fst snd].
    rewrite stdout_advance, !flat_map_app, printed_actions_of, printed_lines.
    repeat split. discriminate.
Qed.

(** *** Every run of the [try] statement is one of the six outcomes *)

Lemma try_outcome_total env p :
  exists res s t,
    Spec.try_outcome env p res s t
    /\ main_try env p = (res, Spec.advance p s t).
Proof.
  destruct (socket_error env) as [e |] eqn:Hs.
  { do 3 eexists. split; [apply (Spec.SocketFails env p e Hs) |].
    apply (try_socket_error env e p Hs). }
  destruct (bind_error env "" port) as [e |] eqn:Hb.
  { do 3 eexists. split; [apply (Spec.BindFails env p e Hs Hb) |].
    apply (try_bind_error env e p Hs Hb). }
  destruct (listen_error env) as [e |] eqn:Hl.
  { do 3 eexists. split; [apply (Spec.ListenFails env p e Hs Hb Hl) |].
    apply (try_listen_error env e p Hs Hb Hl). }
  assert (Hok : Spec.listens env) by (repeat split; assumption).
  destruct (events_cases (events env))
    as [Hall | [(pre & Hpre) | (pre & e & Hpre)]].
  - do 3 eexists. split; [apply (Spec.Serves env p Hok Hall) |].
    apply (try_serving env p Hok Hall).
  - do 3 eexists. split; [apply (Spec.Interrupted env p pre Hok Hpre) |].
    apply (try_interrupted env pre p Hok Hpre).
  - do 3 eexists. split; [apply (Spec.SelectFails env p pre e Hok Hpre) |].
    apply (try_select_failed env pre e p Hok Hpre).
Qed.

(** The [try] statement never lets an exception out. *)
Lemma try_outcome_no_raise env p res s t :
  Spec.try_outcome env p res s t -> forall e, res <> Raise e.
Proof. intros O e. destruct O; discriminate. Qed.


(** A run that entered the directory, as one of the outcomes. *)
Lemma run_entered env d :
  Spec.enters env d ->
  exists res s t,
    Spec.try_outcome env (Spec.after_banner env d) res s t
    /\ final env = Spec.advance (Spec.after_banner env d) s t
    /\ exit_status env = match res with
                         | Return _ => Some 0%Z
                         | Raise _ => Some 1%Z
                         | Blocked => None
                         end.
Proof.
  intros Hd.
  destruct (try_outcome_total env (Spec.after_banner env d))
    as (res & s & t & O & E).
  exists res, s, t. split; [exact O |].
  rewrite <- (main_entered env d Hd) in E.
  unfold final, exit_status. rewrite (run_of_main env _ _ E).
  destruct res; try (split; reflexivity).
  exfalso. exact (try_outcome_no_raise _ _ _ _ _ O e eq_refl).
Qed.

Lemma in_actions_of env d evs a :
  In a (Spec.actions_of env d evs) ->
  (exists q, a = Respond q (Handler.respond (lib env) (fs env) d
                              Dispatch.CORSHandler q))
  \/ (exists q, a = HandleError q).
Proof.
  unfold Spec.actions_of. rewrite in_flat_map.
  intros (ev & _ & Hin). destruct ev; cbn [Spec.action_of] in Hin;
    try contradiction.
  - destruct Hin as [<- | Hin]; [eauto |].
    destruct (Handler.raises _ _ _ _ q); [| contradiction].
    destruct Hin as [<- | []]. eauto.
  - destruct Hin as [<- | []]. eauto.
Qed.

Lemma bound_addresses_app t u :
  Spec.bound_addresses (t ++ u)
  = Spec.bound_addresses t ++ Spec.bound_addresses u.
Proof. apply flat_map_app. Qed.

Lemma bound_addresses_lines ls : Spec.bound_addresses (map PrintLine ls) = [].
Proof. induction ls as [| l ls IH]; [reflexivity | exact IH]. Qed.

Lemma bound_addresses_actions_of env d evs :
  Spec.bound_addresses (Spec.actions_of env d evs) = [].
Proof.
  induction evs as [| ev evs IH]; [reflexivity |].
  unfold Spec.actions_of. cbn [flat_map]. rewrite bound_addresses_app.
  fold (Spec.actions_of env d evs). rewrite IH.
  destruct ev; try reflexivity.
  cbn [Spec.action_of]. destruct (Handler.raises _ _ _ _ q); reflexivity.
Qed.

(** A run that did not enter the directory ends at once. *)
Lemma run_not_entered env e :
  main env (start env) = (Raise (OSError e), start env) ->
  final env = Spec.advance (start env) NoSocket [Traceback (OSError e)]
  /\ exit_status env = Some 1%Z.
Proof.
  intros E. unfold final, exit_status. rewrite (run_of_main env _ _ E).
  split; reflexivity.
Qed.

Lemma entered_or_fails env :
  More.directory_fails env \/ exists d, Spec.enters env d.
Proof.
  destruct (abspath_file env) as [file | e] eqn:Ha.
  - destruct (chdir_error env (Py.dirname file)) as [e |] eqn:Hc.
    + left. right. exists file, e. split; assumption.
    + right. exists (Py.dirname file), file. repeat split; assumption.
  - left. left. exists e. exact Ha.
Qed.

Lemma run_fails env :
  More.directory_fails env ->
  exists e,
    final env = Spec.advance (start env) NoSocket [Traceback (OSError e)]
    /\ exit_status env = Some 1%Z.
Proof.
  intros [(e & Ha) | (file & e & Ha & Hc)]; exists e.
  - apply (run_not_entered env e (main_unresolved env e Ha)).
  - apply (run_not_entered env e (main_not_entered env file e Ha Hc)).
Qed.

(** *** The directory of the script *)

Lemma rev_string_app a b acc :
  Py.rev_string (a ++ b)%string acc = Py.rev_string b (Py.rev_string a acc).
Proof.
  revert acc. induction a as [| c a IH]; intros acc; [reflexivity |].
  cbn [append Py.rev_string]. apply IH.
Qed.

Lemma string_append_assoc (a b c : string) :
  ((a ++ b) ++ c)%string = (a ++ (b ++ c))%string.
Proof.
  induction a as [| x a IH]; [reflexivity |]. cbn. f_equal. exact IH.
Qed.

Lemma rev_string_acc s acc :
  Py.rev_string s acc = (Py.rev_string s "" ++ acc)%string.
Proof.
  revert acc. induction s as [| c s IH]; intros acc; [reflexivity |].
  cbn [Py.rev_string]. rewrite IH, (IH (String c "")).
  rewrite string_append_assoc. reflexivity.
Qed.

Lemma rev_string_twice s acc acc' :
  Py.rev_string (Py.rev_string s acc) acc'
  = Py.rev_string acc (s ++ acc')%string.
Proof.
  revert acc acc'. induction s as [| c s IH]; intros acc acc';
    [reflexivity |].
  cbn [Py.rev_string append]. rewrite IH. reflexivity.
Qed.

Lemma append_empty_r (s : string) : (s ++ "")%string = s.
Proof. induction s as [| c s IH]; [reflexivity |]. cbn. f_equal. exact IH. Qed.

Lemma rev_string_involutive s : Py.rev_string (Py.rev_string s "") "" = s.
Proof. rewrite rev_string_twice. cbn. apply append_empty_r. Qed.

Lemma has_slash_rev s acc :
  More.has_slash (Py.rev_string s acc)
  = (More.has_slash s || More.has_slash acc)%bool.
Proof.
  revert acc. induction s as [| c s IH]; intros acc; [reflexivity |].
  cbn [Py.rev_string More.has_slash]. rewrite IH. cbn [More.has_slash].
  destruct (Ascii.eqb c "/"), (More.has_slash s), (More.has_slash acc);
    reflexivity.
Qed.

Lemma from_first_slash_other c s :
  Ascii.eqb c "/" = false ->
  Py.from_first_slash (String c s) = Py.from_first_slash s.
Proof.
  destruct c as [[] [] [] [] [] [] [] []]; intros H; try reflexivity;
    discriminate H.
Qed.

Lemma lstrip_slash_other c s :
  Ascii.eqb c "/" = false ->
  Py.lstrip_slash (String c s) = String c s.
Proof.
  destruct c as [[] [] [] [] [] [] [] []]; intros H; try reflexivity;
    discriminate H.
Qed.

Lemma from_first_slash_skip x rest :
  More.has_slash x = false ->
  Py.from_first_slash (x ++ String "/" rest)%string = String "/" rest.
Proof.
  induction x as [| c x IH]; intros H; [reflexivity |].
  cbn [More.has_slash] in H. apply orb_false_iff in H as [Hc Hx].
  cbn [append]. rewrite (from_first_slash_other c _ Hc). exact (IH Hx).
Qed.

Lemma from_first_slash_none x :
  More.has_slash x = false -> Py.from_first_slash x = "".
Proof.
  induction x as [| c x IH]; intros H; [reflexivity |].
  cbn [More.has_slash] in H. apply orb_false_iff in H as [Hc Hx].
  rewrite (from_first_slash_other c _ Hc). exact (IH Hx).
Qed.

(** [posixpath.dirname] on the paths [abspath] gives: a name without a
    directory has none, a name in the root has the root, and [d/name] has
    [d]. *)
Lemma dirname_cases name :
  More.has_slash name = false ->
  Py.dirname name = ""
  /\ Py.dirname ("/" ++ name) = "/"
  /\ (forall d, d <> "" -> Py.endswith d "/" = false ->
        Py.dirname (d ++ "/" ++ name) = d).
Proof.
  intros Hn.
  assert (Hr : More.has_slash (Py.rev_string name "") = false).
  { rewrite has_slash_rev, Hn. reflexivity. }
  split; [| split].
  - unfold Py.dirname. rewrite (from_first_slash_none _ Hr). reflexivity.
  - unfold Py.dirname. cbn [append Py.rev_string].
    rewrite (rev_string_acc name "/"), (from_first_slash_skip _ "" Hr).
    reflexivity.
  - intros d Hne Hend. unfold Py.dirname.
    rewrite rev_string_app. cbn [append Py.rev_string].
    rewrite (rev_string_acc name), (from_first_slash_skip _ _ Hr).
    unfold Py.endswith in Hend. cbn [Py.rev_string] in Hend.
    pose proof (rev_string_involutive d) as Hinv.
    destruct (Py.rev_string d "") as [| c rd] eqn:Erd.
    { cbn in Hinv. congruence. }
    assert (Hc : Ascii.eqb c "/" = false).
    { cbn [String.prefix] in Hend.
      destruct (ascii_dec "/" c) as [E | Hneq];
        [destruct rd; cbn in Hend; discriminate Hend |].
      apply Ascii.eqb_neq. congruence. }
    change (Py.lstrip_slash (String "/" (String c rd)))
      with (Py.lstrip_slash (String c rd)).
    rewrite (lstrip_slash_other c rd Hc).
    destruct c as [[] [] [] [] [] [] [] []]; exact Hinv.
Qed.

Lemma dirname_in_directory file dir name :
  More.in_directory file dir name -> Py.dirname file = dir.
Proof.
  intros (Hn & [(-> & ->) | (Hne & Hend & ->)]);
    destruct (dirname_cases name Hn) as (_ & Hroot & Hdir).
  - exact Hroot.
  - exact (Hdir dir Hne Hend).
Qed.

Lemma starts_in_enters env dir :
  More.starts_in env dir -> Spec.enters env dir.
Proof.
  intros (file & name & Ha & Hin & Hc). exists file.
  rewrite (dirname_in_directory file dir name Hin). auto.
Qed.

Lemma scratch_in_directory :
  More.in_directory "/srv/scratch/start-server.py" "/srv/scratch"
    "start-server.py".
Proof.
  split; [reflexivity |]. right. repeat split. discriminate.
Qed.


Lemma env0_starts evs : More.starts_in (Example.env0 evs) "/srv/scratch".
Proof.
  exists "/srv/scratch/start-server.py", "start-server.py".
  split; [reflexivity |]. split; [exact scratch_in_directory | reflexivity].
Qed.

Lemma env_busy_starts n : More.starts_in (Example.env_busy n) "/srv/scratch".
Proof.
  exists "/srv/scratch/start-server.py", "start-server.py".
  split; [reflexivity |]. split; [exact scratch_in_directory | reflexivity].
Qed.

Lemma env_denied_starts : More.starts_in Example.env_denied "/srv/scratch".
Proof.
  exists "/srv/scratch/start-server.py", "start-server.py".
  split; [reflexivity |]. split; [exact scratch_in_directory | reflexivity].
Qed.

Lemma env_link_starts evs :
  More.starts_in (Example.env_link evs) "/home/dev/scratch".
Proof.
  exists "/home/dev/scratch/start-server.py", "start-server.py".
  split; [reflexivity |]. split; [| reflexivity].
  split; [reflexivity |]. right. repeat split. discriminate.
Qed.

(** ** Startup failures *)

(** The stated form of C3 fails on the exit status: with the port taken,
    on a platform where that is [errno] 48, the two port lines are printed
    and the process ends with status 0. *)
Lemma port_in_use_exits_zero :
  let env := Example.env_busy 48 in
  bind_error env "" 8080 = Some (Example.address_in_use 48)
  /\ errno (Example.address_in_use 48) = Some (EADDRINUSE env)
  /\ stdout (final env)
     = ["🌐 Starting HTTP server on port 8080";
        "📁 Serving files from: /srv/scratch";
        "🔗 Open: http://localhost:8080/test/texture-system-test.html";
        "   Press Ctrl+C to stop";
        "❌ Port 8080 is already in use";
        "   Try: lsof -ti:8080 | xargs kill"]
  /\ exit_status env = Some 0%Z
  /\ ~ (exists c, exit_status env = Some c /\ c <> 0%Z).
Proof.
  repeat split; try reflexivity.
  intros (c & H & Hc). vm_compute in H. congruence.
Qed.

(** [C3, amended] When the bind fails at startup, the error is caught and
    the process ends with status 0, the socket closed and nothing served.
    After the four lines of the banner it has printed: if the error's
    [errno] is 48, the lines [❌ Port 8080 is already in use] and
    [   Try: lsof -ti:8080 | xargs kill]; if the [errno] is anything else,
    the one line [❌ Server error: ] followed by the error's text. *)
Theorem bind_failure_reported env d e :
  More.starts_in env d ->
  socket_error env = None ->
  bind_error env "" 8080 = Some e ->
  let banner :=
    ["🌐 Starting HTTP server on port 8080";
     ("📁 Serving files from: " ++ getcwd_after env d)%string;
     "🔗 Open: http://localhost:8080/test/texture-system-test.html";
     "   Press Ctrl+C to stop"] in
  (errno e = Some 48%Z ->
   stdout (final env)
   = banner ++ ["❌ Port 8080 is already in use";
                "   Try: lsof -ti:8080 | xargs kill"])
  /\ (errno e <> Some 48%Z ->
      stdout (final env) = banner ++ [("❌ Server error: " ++ str e)%string])
  /\ exit_status env = Some 0%Z
  /\ socket (final env) = Closed
  /\ served (final env) = [].
Proof.
  intros Hs0 Hs Hb banner. pose proof (starts_in_enters env d Hs0) as Hd.
  pose proof (main_entered env d Hd) as Em.
  rewrite (try_bind_error env e _ Hs Hb) in Em.
  unfold final, exit_status. rewrite (run_of_main env _ _ Em).
  cbn [fst snd].
  rewrite stdout_advance, served_advance, !flat_map_app.
  rewrite printed_lines, answered_lines.
  destruct (oserror_lines_cases e) as (H48 & Hother).
  split; [| split; [| repeat split]].
  - intros H. rewrite (H48 H). reflexivity.
  - intros H. rewrite (Hother H). reflexivity.
Qed.

Lemma bind_failure_reported_witness :
  More.starts_in Example.env_denied "/srv/scratch"
  /\ bind_error Example.env_denied "" 8080 = Some Example.permission_denied
  /\ stdout (final Example.env_denied)
     = ["🌐 Starting HTTP server on port 8080";
        "📁 Serving files from: /srv/scratch";
        "🔗 Open: http://localhost:8080/test/texture-system-test.html";
        "   Press Ctrl+C to stop";
        "❌ Server error: [Errno 13] Permission denied"]
  /\ exit_status Example.env_denied = Some 0%Z.
Proof.
  split; [exact env_denied_starts |]. split; [reflexivity |].
  pose proof (bind_failure_reported Example.env_denied "/srv/scratch"
                Example.permission_denied env_denied_starts eq_refl eq_refl)
    as (_ & Hother & Hx & _).
  split; [| exact Hx]. apply Hother. discriminate.
Defined.

(** ** The order of startup *)

(** The stated form of C9 fails: with the port taken, the lines with the
    port, the directory and the URL are on standard output although no bind
    ever succeeded. *)
Lemma banner_printed_without_bind :
  let env := Example.env_busy 98 in
  stdout (final env)
  = ["🌐 Starting HTTP server on port 8080";
     "📁 Serving files from: /srv/scratch";
     "🔗 Open: http://localhost:8080/test/texture-system-test.html";
     "   Press Ctrl+C to stop";
     "❌ Server error: [Errno 98] Address already in use"]
  /\ Spec.bound_addresses (trace (final env)) = []
  /\ bind_error env "" 8080 <> None.
Proof.
  repeat split; try reflexivity. discriminate.
Qed.

(** [C9, amended] Startup proceeds in this order: the working directory is
    set to the script's directory; then the four lines of the banner are
    printed, with the port 8080, the directory as [os.getcwd()] gives it,
    and the URL; and only then is the socket created and bound.  The lines
    are printed whether or not the bind succeeds: when the socket cannot be
    created or bound, they are on standard output and no address was
    bound. *)
Theorem banner_before_bind env d :
  More.starts_in env d ->
  exists rest,
    trace (final env)
    = Chdir d
      :: PrintLine "🌐 Starting HTTP server on port 8080"
      :: PrintLine ("📁 Serving files from: " ++ getcwd_after env d)
      :: PrintLine "🔗 Open: http://localhost:8080/test/texture-system-test.html"
      :: PrintLine "   Press Ctrl+C to stop"
      :: rest
    /\ (socket_error env = None -> bind_error env "" 8080 = None ->
        exists rest', rest = SocketCreate :: Bind "" 8080 :: rest')
    /\ (socket_error env <> None \/ bind_error env "" 8080 <> None ->
        Spec.bound_addresses (trace (final env)) = []).
Proof.
  intros Hs0. pose proof (starts_in_enters env d Hs0) as Hd.
  destruct (run_entered env d Hd) as (res & s & t & O & Ef & _).
  exists t. rewrite Ef. split; [reflexivity |].
  cbn [trace Spec.advance Spec.after_banner Spec.startup_actions].
  destruct O as [e Hs | e Hs Hb | e Hs Hb Hl | (Hs & Hb & Hl) Hev
                | pre (Hs & Hb & Hl) Hev | pre e (Hs & Hb & Hl) Hev].
  - split; [intros H; congruence |]. intros _.
    change (Chdir d :: ?a ++ ?b) with ([Chdir d] ++ a ++ b).
    rewrite !bound_addresses_app, !bound_addresses_lines. reflexivity.
  - split; [intros _ H; unfold port in Hb; congruence |]. intros _.
    change (Chdir d :: ?a ++ ?b) with ([Chdir d] ++ a ++ b).
    rewrite !bound_addresses_app, !bound_addresses_lines. reflexivity.
  - split; [intros _ _; eexists; reflexivity |].
    intros [H | H]; unfold port in Hb; congruence.
  - split; [intros _ _; eexists; reflexivity |].
    intros [H | H]; unfold port in Hb; congruence.
  - split; [intros _ _; eexists; reflexivity |].
    intros [H | H]; unfold port in Hb; congruence.
  - split; [intros _ _; eexists; reflexivity |].
    intros [H | H]; unfold port in Hb; congruence.
Qed.

Lemma banner_before_bind_witness :
  let env := Example.env_link [] in
  More.starts_in env "/home/dev/scratch"
  /\ getcwd_after env "/home/dev/scratch" = "/srv/scratch"
  /\ exists rest,
       trace (final env)
       = Chdir "/home/dev/scratch"
         :: PrintLine "🌐 Starting HTTP server on port 8080"
         :: PrintLine "📁 Serving files from: /srv/scratch"
         :: PrintLine
              "🔗 Open: http://localhost:8080/test/texture-system-test.html"
         :: PrintLine "   Press Ctrl+C to stop"
         :: SocketCreate :: Bind "" 8080 :: rest.
Proof.
  intros env. split; [exact (env_link_starts []) |]. split; [reflexivity |].
  destruct (banner_before_bind env "/home/dev/scratch" (env_link_starts []))
    as (rest & Ht & Hb & _).
  destruct (Hb eq_refl eq_refl) as (rest' & ->).
  exists rest'. exact Ht.
Defined.

(** ** The working directory *)

(** [C7] The first thing the process does is to change its working
    directory to the directory that contains the script: for the script
    [name] in the directory [dir], when [os.chdir(dir)] succeeds it is the
    first action, the process stays in that directory (as [os.getcwd()]
    names it), and every request is handled from there.  When the script's
    path cannot be resolved, or the directory cannot be entered, the
    process ends with status 1 having printed nothing, created no socket
    and handled no request. *)
Theorem working_directory_first env :
  let fails := fun e =>
    exit_status env = Some 1%Z
    /\ trace (final env) = [Traceback (OSError e)]
    /\ stdout (final env) = []
    /\ socket (final env) = NoSocket
    /\ served (final env) = []
    /\ cwd (final env) = initial_cwd env in
  (forall file dir name,
     abspath_file env = inl file ->
     More.in_directory file dir name ->
     (chdir_error env dir = None ->
      (exists rest, trace (final env) = Chdir dir :: rest)
      /\ cwd (final env) = getcwd_after env dir
      /\ (forall q w,
            In (q, w) (served (final env)) ->
            w = Handler.respond (lib env) (fs env) (getcwd_after env dir)
                  Dispatch.CORSHandler q))
     /\ (forall e, chdir_error env dir = Some e -> fails e))
  /\ (forall e, abspath_file env = inr e -> fails e).
Proof.
  intros fails.
  assert (Hfails : forall e,
             main env (start env) = (Raise (OSError e), start env) ->
             fails e).
  { intros e E. destruct (run_not_entered env e E) as (Ef & Ex).
    unfold fails. rewrite Ef, Ex. repeat split. }
  split.
  - intros file dir name Ha Hin.
    pose proof (dirname_in_directory file dir name Hin) as Hdir.
    split.
    + intros Hc.
      assert (Hd : Spec.enters env dir) by (exists file; rewrite Hdir; auto).
      destruct (run_entered env dir Hd) as (res & s & t & O & Ef & _).
      rewrite Ef. split; [eexists; reflexivity |]. split; [reflexivity |].
      intros q w Hqw. rewrite served_advance, served_after_banner in Hqw.
      cbn [app] in Hqw. unfold answered in Hqw. apply in_flat_map in Hqw.
      destruct Hqw as (a & Hin_a & Hrw).
      assert (Hact : forall evs,
                 In a (Spec.actions_of env (getcwd_after env dir) evs) ->
                 w = Handler.respond (lib env) (fs env)
                       (getcwd_after env dir) Dispatch.CORSHandler q).
      { intros evs Hevs.
        apply in_actions_of in Hevs as [(q' & ->) | (q' & ->)].
        - destruct Hrw as [[= -> ->] | []]. reflexivity.
        - destruct Hrw. }
      destruct O; cbn [cwd Spec.after_banner] in Hin_a;
        repeat (apply in_app_or in Hin_a as [Hin_a | Hin_a]);
        try (apply in_map_iff in Hin_a as (l & <- & _); destruct Hrw);
        try (eapply Hact; eassumption);
        cbn in Hin_a;
        repeat (destruct Hin_a as [<- | Hin_a]; [destruct Hrw |]);
        destruct Hin_a.
    + intros e Hc. apply Hfails.
      apply (main_not_entered env file e Ha). rewrite Hdir. exact Hc.
  - intros e Ha. apply Hfails. apply (main_unresolved env e Ha).
Qed.

Lemma working_directory_first_witness :
  let env := Example.env_link [Connection Example.get_page] in
  (abspath_file env = inl "/home/dev/scratch/start-server.py"
   /\ More.in_directory "/home/dev/scratch/start-server.py"
        "/home/dev/scratch" "start-server.py"
   /\ (exists rest, trace (final env) = Chdir "/home/dev/scratch" :: rest)
   /\ cwd (final env) = "/srv/scratch")
  /\ (abspath_file Example.env_nodir = inl "/srv/scratch/start-server.py"
      /\ chdir_error Example.env_nodir "/srv/scratch"
         = Some Example.no_such_directory
      /\ exit_status Example.env_nodir = Some 1%Z
      /\ served (final Example.env_nodir) = []).
Proof.
  intros env.
  assert (Hin : More.in_directory "/home/dev/scratch/start-server.py"
                  "/home/dev/scratch" "start-server.py").
  { split; [reflexivity |]. right. repeat split. discriminate. }
  split.
  - split; [reflexivity |]. split; [exact Hin |].
    destruct (proj1 (proj1 (working_directory_first env) _ _ _ eq_refl Hin)
                eq_refl) as (Ht & Hc & _).
    split; [exact Ht | exact Hc].
  - split; [reflexivity |]. split; [reflexivity |].
    destruct (proj2 (proj1 (working_directory_first Example.env_nodir)
                       _ _ _ eq_refl scratch_in_directory)
                Example.no_such_directory eq_refl)
      as (Hx & _ & _ & _ & Hs & _).
    split; [exact Hx | exact Hs].
Defined.

(** ** Arguments, environment and the address *)

Lemma serve_forever_with_args env a v evs p :
  serve_forever (Spec.with_args env a v) evs p = serve_forever env evs p.
Proof.
  revert p. induction evs as [| ev evs IH]; intros p; [reflexivity |].
  destruct ev; cbn [serve_forever]; try reflexivity; apply IH.
Qed.

Lemma with_server_ext server body1 body2 :
  (forall p, body1 p = body2 p) ->
  forall p, with_server server body1 p = with_server server body2 p.
Proof.
  intros H p. unfold with_server, bind.
  destruct (server p) as [[[] | e |] p']; try reflexivity.
  rewrite H. reflexivity.
Qed.

Lemma main_try_with_args env a v p :
  main_try (Spec.with_args env a v) p = main_try env p.
Proof.
  unfold main_try, try_except.
  change (TCPServer (Spec.with_args env a v)) with (TCPServer env).
  change (events (Spec.with_args env a v)) with (events env).
  rewrite (with_server_ext _ _ _
             (serve_forever_with_args env a v (events env))).
  reflexivity.
Qed.

Lemma bind_ext {A B} (m : M A) (k1 k2 : A -> M B) p :
  (forall a q, k1 a q = k2 a q) -> bind m k1 p = bind m k2 p.
Proof.
  intros H. unfold bind. destruct (m p) as [[x | e |] p']; try reflexivity.
  apply H.
Qed.

Lemma main_with_args env a v p :
  main (Spec.with_args env a v) p = main env p.
Proof.
  unfold main.
  change (abspath_of_file (Spec.with_args env a v))
    with (abspath_of_file env).
  apply bind_ext. intros file p1.
  change (chdir (Spec.with_args env a v)) with (chdir env).
  repeat (apply bind_ext; intros ? ?).
  apply main_try_with_args.
Qed.

(** [C8] The run does not depend on the command-line arguments nor on the
    environment variables; the only address the process ever binds is all
    interfaces (the empty host) at port 8080, and when startup succeeds the
    socket listens there. *)
Theorem fixed_port_no_arguments env :
  (forall a v, run (Spec.with_args env a v) = run env)
  /\ (forall host n,
        In (host, n) (Spec.bound_addresses (trace (final env))) ->
        host = "" /\ n = 8080%Z)
  /\ (forall d, Spec.enters env d -> Spec.listens env ->
        In ("", 8080%Z) (Spec.bound_addresses (trace (final env)))
        /\ (forallb benign (events env) = true ->
            socket (final env) = Listening "" 8080)).
Proof.
  split; [| split].
  - intros a v. unfold run.
    change (start (Spec.with_args env a v)) with (start env).
    rewrite main_with_args. reflexivity.
  - intros host n Hin.
    assert (Hentered : forall d, Spec.enters env d -> host = "" /\ n = 8080%Z).
    { intros d Hd.
      destruct (run_entered env d Hd) as (res & s & t & O & Ef & _).
      rewrite Ef in Hin. cbn [trace Spec.advance Spec.after_banner] in Hin.
      unfold Spec.startup_actions in Hin.
      change (Chdir d :: ?l) with ([Chdir d] ++ l) in Hin.
      destruct O; cbn [cwd] in Hin;
        rewrite ?bound_addresses_app, ?bound_addresses_lines,
          ?bound_addresses_actions_of in Hin;
        cbn in Hin; repeat (destruct Hin as [[= <- <-] | Hin]; [auto |]);
        destruct Hin. }
    destruct (abspath_file env) as [file | e] eqn:Ha.
    + destruct (chdir_error env (Py.dirname file)) as [e |] eqn:Hc.
      * destruct (run_not_entered env e (main_not_entered env file e Ha Hc))
          as (Ef & _).
        rewrite Ef in Hin. destruct Hin.
      * apply (Hentered (Py.dirname file)). exists file. auto.
    + destruct (run_not_entered env e (main_unresolved env e Ha)) as (Ef & _).
      rewrite Ef in Hin. destruct Hin.
  - intros d Hd Hl.
    destruct (run_entered env d Hd) as (res & s & t & O & Ef & _).
    rewrite Ef. cbn [trace socket Spec.advance Spec.after_banner].
    unfold Spec.startup_actions.
    change (Chdir d :: ?l) with ([Chdir d] ++ l).
    destruct Hl as (Hs & Hb & Hl).
    destruct O as [e Hs' | e Hs' Hb' | e Hs' Hb' Hl' | Hok Hev
                  | pre Hok Hev | pre e Hok Hev];
      try congruence;
      rewrite ?bound_addresses_app, ?bound_addresses_lines,
        ?bound_addresses_actions_of;
      (split; [cbn; auto |]); intros Hall; try reflexivity.
    + destruct Hev as (Hpre & rest & E). rewrite E in Hall.
      rewrite forallb_app in Hall. apply andb_true_iff in Hall as [_ Hall].
      discriminate Hall.
    + destruct Hev as (Hpre & rest & E). rewrite E in Hall.
      rewrite forallb_app in Hall. apply andb_true_iff in Hall as [_ Hall].
      discriminate Hall.
Qed.

Lemma fixed_port_no_arguments_witness :
  run (Spec.with_args (Example.env0 [Connection Example.get_page])
         ["start-server.py"; "--port"; "9000"] [("PORT", "9000")])
  = run (Example.env0 [Connection Example.get_page]).
Proof.
  exact (proj1 (fixed_port_no_arguments
                  (Example.env0 [Connection Example.get_page]))
           ["start-server.py"; "--port"; "9000"] [("PORT", "9000")]).
Defined.

(** ** Shutdown *)

(** [C5] While the server is listening, an interrupt ends it cleanly: no
    later connection is accepted, the socket is closed, the last line
    printed (after a line feed) is [🛑 Server stopped] and the exit status
    is 0.  It is the only way out that is not an error: as long as no
    interrupt arrives and [select] does not fail, the process is still
    listening, and a process that has exited was either interrupted or
    left the loop on an [OSError] whose message it printed. *)
Theorem interrupt_stops_server env d :
  More.starts_in env d ->
  Spec.listens env ->
  let banner :=
    ["🌐 Starting HTTP server on port 8080";
     ("📁 Serving files from: " ++ getcwd_after env d)%string;
     "🔗 Open: http://localhost:8080/test/texture-system-test.html";
     "   Press Ctrl+C to stop"] in
  let stopped := String "010" "🛑 Server stopped" in
  (forall pre, Spec.first_ending (events env) pre SIGINT ->
     exit_status env = Some 0%Z
     /\ socket (final env) = Closed
     /\ stdout (final env) = banner ++ [stopped]
     /\ served (final env) = Spec.answers env (getcwd_after env d) pre
     /\ exists before,
          trace (final env) = before ++ [SocketClose; PrintLine stopped])
  /\ (forallb benign (events env) = true ->
      exit_status env = None /\ socket (final env) = Listening "" 8080)
  /\ (forall c, exit_status env = Some c ->
        (exists pre, Spec.first_ending (events env) pre SIGINT)
        \/ (exists pre e,
              Spec.first_ending (events env) pre (SelectFailed e)
              /\ stdout (final env)
                 = banner
                   ++ match errno e with
                      | Some 48%Z =>
                          ["❌ Port 8080 is already in use";
                           "   Try: lsof -ti:8080 | xargs kill"]
                      | _ => [("❌ Server error: " ++ str e)%string]
                      end)).
Proof.
  intros Hs0 Hl banner stopped.
  pose proof (starts_in_enters env d Hs0) as Hd.
  pose proof (main_entered env d Hd) as Em.
  assert (Hint : forall pre, Spec.first_ending (events env) pre SIGINT ->
            exit_status env = Some 0%Z
            /\ socket (final env) = Closed
            /\ stdout (final env) = banner ++ [stopped]
            /\ served (final env) = Spec.answers env (getcwd_after env d) pre
            /\ exists before,
                 trace (final env)
                 = before ++ [SocketClose; PrintLine stopped]).
  { intros pre Hpre.
    rewrite (try_interrupted env pre _ Hl Hpre) in Em.
    unfold final, exit_status. rewrite (run_of_main env _ _ Em).
    cbn [fst snd].
    rewrite stdout_advance, served_advance, !flat_map_app.
    rewrite printed_actions_of, answered_actions_of.
    repeat split.
    - cbn [socket cwd Spec.after_banner app flat_map answered].
      rewrite app_nil_r. reflexivity.
    - cbn [trace Spec.advance]. rewrite !app_assoc. eexists. reflexivity. }
  assert (Hben : forallb benign (events env) = true ->
            exit_status env = None /\ socket (final env) = Listening "" 8080).
  { intros Hall. rewrite (try_serving env _ Hl Hall) in Em.
    unfold final, exit_status. rewrite (run_of_main env _ _ Em).
    split; reflexivity. }
  split; [exact Hint |]. split; [exact Hben |].
  intros c Hc.
  destruct (events_cases (events env))
    as [Hall | [(pre & Hpre) | (pre & e & Hpre)]].
  - destruct (Hben Hall) as (Hn & _). congruence.
  - left. exists pre. exact Hpre.
  - right. exists pre, e. split; [exact Hpre |].
    apply (run_oserror env d e Hd).
    right; right; right. split; [exact Hl |]. exists pre. exact Hpre.
Qed.

Lemma interrupt_stops_server_witness :
  let env := Example.env0 [Connection Example.get_page; SIGINT;
                           Connection Example.get_page] in
  More.starts_in env "/srv/scratch"
  /\ Spec.listens env
  /\ Spec.first_ending (events env) [Connection Example.get_page] SIGINT
  /\ exit_status env = Some 0%Z
  /\ socket (final env) = Closed
  /\ stdout (final env)
     = ["🌐 Starting HTTP server on port 8080";
        "📁 Serving files from: /srv/scratch";
        "🔗 Open: http://localhost:8080/test/texture-system-test.html";
        "   Press Ctrl+C to stop";
        String "010" "🛑 Server stopped"].
Proof.
  intros env.
  assert (Hd : More.starts_in env "/srv/scratch") by exact (env0_starts _).
  assert (Hl : Spec.listens env) by (repeat split).
  assert (Hp : Spec.first_ending (events env)
                 [Connection Example.get_page] SIGINT).
  { split; [reflexivity |]. exists [Connection Example.get_page].
    reflexivity. }
  split; [exact Hd |]. split; [exact Hl |]. split; [exact Hp |].
  destruct (proj1 (interrupt_stops_server env "/srv/scratch" Hd Hl) _ Hp)
    as (Hx & Hs & Ho & _).
  split; [exact Hx |]. split; [exact Hs | exact Ho].
Defined.

(** ** A missing file does not stop the server *)






(** ** The errno test *)

(** [C10] When creating the server or serving raises an [OSError], the
    lines [❌ Port 8080 is already in use] and
    [   Try: lsof -ti:8080 | xargs kill] are what is printed after the
    banner if and only if the error's [errno] is 48; for every other
    [errno], 98 included, what is printed after the banner is the one line
    [❌ Server error: ] followed by the error's text. *)
Theorem errno_48_only env d e :
  More.starts_in env d ->
  Spec.raises_oserror env e ->
  let out := stdout (final env) in
  let banner :=
    ["🌐 Starting HTTP server on port 8080";
     ("📁 Serving files from: " ++ getcwd_after env d)%string;
     "🔗 Open: http://localhost:8080/test/texture-system-test.html";
     "   Press Ctrl+C to stop"] in
  let port_lines := ["❌ Port 8080 is already in use";
                     "   Try: lsof -ti:8080 | xargs kill"] in
  (errno e = Some 48%Z -> out = banner ++ port_lines)
  /\ (errno e <> Some 48%Z ->
      out = banner ++ [("❌ Server error: " ++ str e)%string])
  /\ (skipn 4 out = port_lines <-> errno e = Some 48%Z)
  /\ (errno e = Some 98%Z ->
      out = banner ++ [("❌ Server error: " ++ str e)%string]).
Proof.
  intros Hs0 Hr out banner port_lines.
  pose proof (starts_in_enters env d Hs0) as Hd.
  destruct (run_oserror env d e Hd Hr) as (_ & Hout & _).
  fold out in Hout.
  destruct (oserror_lines_cases e) as (H48 & Hother).
  assert (A : errno e = Some 48%Z -> out = banner ++ port_lines).
  { intros H. rewrite Hout, (H48 H). reflexivity. }
  assert (B : errno e <> Some 48%Z ->
              out = banner ++ [("❌ Server error: " ++ str e)%string]).
  { intros H. rewrite Hout, (Hother H). reflexivity. }
  split; [exact A |]. split; [exact B |]. split.
  - split.
    + intros Hskip.
      destruct (errno e) as [n |] eqn:En.
      * destruct (Z.eq_dec n 48) as [-> | Hn]; [reflexivity |].
        rewrite B in Hskip by congruence. discriminate Hskip.
      * rewrite B in Hskip by discriminate. discriminate Hskip.
    + intros H. rewrite (A H). reflexivity.
  - intros H. apply B. rewrite H. discriminate.
Qed.

Lemma errno_48_only_witness :
  More.starts_in (Example.env_busy 98) "/srv/scratch"
  /\ Spec.raises_oserror (Example.env_busy 98) (Example.address_in_use 98)
  /\ errno (Example.address_in_use 98) = Some 98%Z
  /\ stdout (final (Example.env_busy 98))
     = ["🌐 Starting HTTP server on port 8080";
        "📁 Serving files from: /srv/scratch";
        "🔗 Open: http://localhost:8080/test/texture-system-test.html";
        "   Press Ctrl+C to stop";
        "❌ Server error: [Errno 98] Address already in use"].
Proof.
  assert (Hr : Spec.raises_oserror (Example.env_busy 98)
                 (Example.address_in_use 98)).
  { right; left. split; reflexivity. }
  split; [exact (env_busy_starts 98) |]. split; [exact Hr |].
  split; [reflexivity |].
  exact (proj2 (proj2 (proj2 (errno_48_only (Example.env_busy 98)
                                "/srv/scratch" (Example.address_in_use 98)
                                (env_busy_starts 98) Hr))) eq_refl).
Defined.

(** ** Further properties of the process *)

Lemma filter_lines (f : action -> bool) ls :
  (forall l, f (PrintLine l) = false) ->
  filter f (map PrintLine ls) = [].
Proof.
  intros H. induction ls as [| l ls IH]; [reflexivity |].
  cbn [map filter]. rewrite H. exact IH.
Qed.

Lemma filter_actions_of (f : action -> bool) env d evs :
  (forall r w, f (Respond r w) = false) ->
  (forall r, f (HandleError r) = false) ->
  filter f (Spec.actions_of env d evs) = [].
Proof.
  intros Hr Hh. induction evs as [| ev evs IH]; [reflexivity |].
  unfold Spec.actions_of. cbn [flat_map]. rewrite filter_app.
  fold (Spec.actions_of env d evs). rewrite IH.
  destruct ev; cbn [Spec.action_of filter]; rewrite ?Hr, ?Hh;
    try reflexivity.
  destruct (Handler.raises _ _ _ _ q); cbn [filter]; rewrite ?Hh;
    reflexivity.
Qed.

Lemma filter_startup (f : action -> bool) env d :
  (forall x, f (Chdir x) = false) ->
  (forall l, f (PrintLine l) = false) ->
  filter f (Spec.startup_actions env d) = [].
Proof.
  intros Hc Hl. unfold Spec.startup_actions. cbn [filter]. rewrite Hc.
  apply (filter_lines f _ Hl).
Qed.

(** [X8] The process never exits with its socket open: when it has
    exited, a socket that was created has been closed, exactly once, and
    the socket is then closed; if none was created there is none. *)
Theorem socket_released_on_exit env c :
  exit_status env = Some c ->
  let t := trace (final env) in
  length (filter More.closed t) = length (filter More.created t)
  /\ (length (filter More.created t) <= 1)%nat
  /\ socket (final env)
     = match filter More.created t with
       | [] => NoSocket
       | _ => Closed
       end.
Proof.
  intros Hx t.
  destruct (entered_or_fails env) as [Hf | (d & Hd)].
  - destruct (run_fails env Hf) as (e & Ef & _).
    subst t. rewrite Ef. repeat split. cbn. lia.
  - destruct (run_entered env d Hd) as (res & s & u & O & Ef & Hres).
    subst t. rewrite Ef.
    cbn [trace socket Spec.advance Spec.after_banner].
    rewrite !filter_app.
    rewrite (filter_startup More.created), (filter_startup More.closed)
      by reflexivity.
    destruct O; rewrite ?filter_app;
      rewrite ?(filter_lines More.created), ?(filter_lines More.closed)
        by reflexivity;
      rewrite ?(filter_actions_of More.created),
        ?(filter_actions_of More.closed) by reflexivity;
      try (rewrite Hres in Hx; discriminate Hx);
      cbn; repeat split; lia.
Qed.

Lemma socket_released_on_exit_witness :
  exit_status (Example.env_busy 98) = Some 0%Z
  /\ socket (final (Example.env_busy 98)) = Closed.
Proof.
  split; [reflexivity |].
  exact (proj2 (proj2 (socket_released_on_exit (Example.env_busy 98) 0
                         eq_refl))).
Defined.

(** ** An error out of the serving loop *)

(** [X14] When [select] raises an [OSError] while the server is serving,
    the connections accepted before it have been handled, nothing after it
    is, the socket is closed, and the process ends with status 0, as for a
    startup error; what it has printed is the banner, with the directory as
    [os.getcwd()] gives it, and then the two port lines if the error's
    [errno] is 48, the line [❌ Server error: ] with the error's text
    otherwise. *)
Theorem serving_error_stops_server env d pre e :
  More.starts_in env d ->
  Spec.listens env ->
  Spec.first_ending (events env) pre (SelectFailed e) ->
  let banner :=
    ["🌐 Starting HTTP server on port 8080";
     ("📁 Serving files from: " ++ getcwd_after env d)%string;
     "🔗 Open: http://localhost:8080/test/texture-system-test.html";
     "   Press Ctrl+C to stop"] in
  served (final env) = Spec.answers env (getcwd_after env d) pre
  /\ socket (final env) = Closed
  /\ (errno e = Some 48%Z ->
      stdout (final env)
      = banner ++ ["❌ Port 8080 is already in use";
                   "   Try: lsof -ti:8080 | xargs kill"])
  /\ (errno e <> Some 48%Z ->
      stdout (final env) = banner ++ [("❌ Server error: " ++ str e)%string])
  /\ exit_status env = Some 0%Z.
Proof.
  intros Hs0 Hl Hpre banner.
  pose proof (starts_in_enters env d Hs0) as Hd.
  pose proof (main_entered env d Hd) as Em.
  rewrite (try_select_failed env pre e _ Hl Hpre) in Em.
  unfold final, exit_status. rewrite (run_of_main env _ _ Em).
  cbn [fst snd].
  rewrite stdout_advance, served_advance, !flat_map_app.
  rewrite printed_actions_of, answered_actions_of, printed_lines,
    answered_lines.
  cbn [cwd socket Spec.after_banner Spec.advance flat_map answered printed
       app].
  rewrite app_nil_r.
  destruct (oserror_lines_cases e) as (H48 & Hother).
  split; [reflexivity |]. split; [reflexivity |].
  split; [| split; [| reflexivity]].
  - intros H. rewrite (H48 H). reflexivity.
  - intros H. rewrite (Hother H). reflexivity.
Qed.

Lemma serving_error_stops_server_witness :
  let env := Example.env0 [Connection Example.get_page;
                           SelectFailed Example.permission_denied;
                           Connection Example.get_page] in
  More.starts_in env "/srv/scratch"
  /\ Spec.listens env
  /\ Spec.first_ending (events env) [Connection Example.get_page]
       (SelectFailed Example.permission_denied)
  /\ socket (final env) = Closed
  /\ stdout (final env)
     = ["🌐 Starting HTTP server on port 8080";
        "📁 Serving files from: /srv/scratch";
        "🔗 Open: http://localhost:8080/test/texture-system-test.html";
        "   Press Ctrl+C to stop";
        "❌ Server error: [Errno 13] Permission denied"].
Proof.
  intros env.
  assert (Hd : More.starts_in env "/srv/scratch") by exact (env0_starts _).
  assert (Hl : Spec.listens env) by (repeat split).
  assert (Hp : Spec.first_ending (events env) [Connection Example.get_page]
                 (SelectFailed Example.permission_denied)).
  { split; [reflexivity |]. exists [Connection Example.get_page].
    reflexivity. }
  split; [exact Hd |]. split; [exact Hl |]. split; [exact Hp |].
  destruct (serving_error_stops_server env "/srv/scratch"
              [Connection Example.get_page] Example.permission_denied
              Hd Hl Hp) as (_ & Hs & _ & Ho & _).
  split; [exact Hs |]. apply Ho. discriminate.
Defined.
